(** * A reverse proxy with a stealth transport: model and properties

    Shallow embedding of the Go package [proxy]:
    - [compression.go]: the codec bridge ([compressionFromString],
      [decompressResponse], [compressBody]);
    - [stealthTransport.go]: [stealthTransport.RoundTrip] and its options;
    - the proxy core: [NewProxy], [ListenAndServe], [forwardRequest],
      [copyResponse], [copyBody], [buildRequest];
    - package [internal]: [JoinUrl], and the codec bridge the proxy core
      calls, which is not among the sources and is taken from the
      specification;
    - of [net/http], what the handler relies on: the response writer of
      the server and the redirects of the client;
    - package [stats]: the recorder [StatRecorder] of [targetStat.go].

    Go strings are byte sequences and are modelled by [string]; [http.Header]
    and the target registry are finite maps; [int64] durations are integers
    with the wrap-around written out; [float64] values are binary64
    floats; pointers that the code shares ([Proxy.addr]) live in an
    explicit store. *)

From Stdlib Require Import ZArith Ascii String DecimalString Lia.
From Stdlib Require Floats Uint63.
From stdpp Require Import gmap strings list fin_maps.

Open Scope string_scope.
Open Scope list_scope.

(** ** Package [strings] of the Go standard library *)

Module Strings.

(** [strings.HasPrefix(s, prefix)] *)
Fixpoint HasPrefix (s prefix : string) {struct prefix} : bool :=
  match prefix, s with
  | EmptyString, _ => true
  | String p prefix', String c s' =>
      if Ascii.eqb p c then HasPrefix s' prefix' else false
  | String _ _, EmptyString => false
  end.

(** The remainder of [s] after [prefix], when [s] starts with it. *)
Fixpoint CutPrefix (s prefix : string) {struct prefix} : option string :=
  match prefix, s with
  | EmptyString, _ => Some s
  | String p prefix', String c s' =>
      if Ascii.eqb p c then CutPrefix s' prefix' else None
  | String _ _, EmptyString => None
  end.

(** [strings.TrimPrefix(s, prefix)] *)
Definition TrimPrefix (s prefix : string) : string :=
  match CutPrefix s prefix with
  | Some rest => rest
  | None => s
  end.

(** [strings.HasSuffix(s, suffix)] *)
Definition HasSuffix (s suffix : string) : bool :=
  (String.length suffix <=? String.length s)%nat &&
  String.eqb
    (String.substring (String.length s - String.length suffix)
       (String.length suffix) s)
    suffix.

(** [strings.TrimSuffix(s, suffix)] *)
Definition TrimSuffix (s suffix : string) : string :=
  if HasSuffix s suffix
  then String.substring 0 (String.length s - String.length suffix) s
  else s.

(** [strings.Contains(s, substr)] *)
Fixpoint Contains (s substr : string) : bool :=
  HasPrefix s substr ||
  match s with
  | EmptyString => false
  | String _ s' => Contains s' substr
  end.

(** [strings.Cut(s, sep)] for a separator of one byte: the parts before
    and after its first occurrence. *)
Fixpoint Cut (s : string) (sep : ascii) : string * option string :=
  match s with
  | EmptyString => (EmptyString, None)
  | String c s' =>
      if Ascii.eqb c sep then (EmptyString, Some s')
      else let '(before, after) := Cut s' sep in (String c before, after)
  end.

(** [strings.Join(elems, sep)] *)
Definition Join (elems : list string) (sep : string) : string :=
  String.concat sep elems.

End Strings.

(** ** [internal.JoinUrl] *)

Module Internal.
Import Strings.

(** One iteration of the loop of [JoinUrl], at index [idx] of [len]
    elements. *)
Definition JoinUrl_step (len idx : nat) (element : string) : string :=
  let element := if (0 <? idx)%nat then TrimPrefix element "/" else element in
  let element := if (idx <? len - 1)%nat then TrimSuffix element "/" else element in
  element.

Definition JoinUrl (elements : list string) : string :=
  Join (imap (JoinUrl_step (length elements)) elements) "/".

End Internal.

(** ** Package [net/url]: the [URL] value and its string form *)

Module Url.
Import Strings.

(** The fields of [url.URL] the proxy reads or writes.  The remaining
    fields ([Opaque], [User], [RawPath], [Fragment], ...) keep their zero
    value in every URL the proxy builds itself. *)
Record URL := mkURL {
  Scheme : string;
  Host : string;
  Path : string;
  RawQuery : string;
}.

Definition set_Scheme (v : string) (u : URL) : URL :=
  mkURL v (Host u) (Path u) (RawQuery u).
Definition set_Host (v : string) (u : URL) : URL :=
  mkURL (Scheme u) v (Path u) (RawQuery u).
Definition set_Path (v : string) (u : URL) : URL :=
  mkURL (Scheme u) (Host u) v (RawQuery u).

(** The escaping modes of [net/url] used by [URL.String]. *)
Inductive encoding := encodePath | encodeHost.

Definition byte_in (c : ascii) (set : string) : bool :=
  existsb (Ascii.eqb c) (list_ascii_of_string set).

Definition between (lo hi c : ascii) : bool :=
  (N_of_ascii lo <=? N_of_ascii c)%N && (N_of_ascii c <=? N_of_ascii hi)%N.

Definition isAlnum (c : ascii) : bool :=
  between "a" "z" c || between "A" "Z" c || between "0" "9" c.

(** [shouldEscape(c, mode)] *)
Definition shouldEscape (c : ascii) (mode : encoding) : bool :=
  if isAlnum c then false
  else if match mode with
          | encodeHost =>
              byte_in c "!$&'()*+,;=:[]<>" || Ascii.eqb c (ascii_of_nat 34)
          | encodePath => false
          end then false
  else if byte_in c "-_.~" then false
  else if byte_in c "$&+,/:;=?@" then
    match mode with
    | encodePath => Ascii.eqb c "?"
    | encodeHost => true
    end
  else true.

Definition upperhex : string := "0123456789ABCDEF".

Definition hexdigit (n : N) : ascii :=
  match String.get (N.to_nat n) upperhex with
  | Some d => d
  | None => "0"%char
  end.

(** [escape(s, mode)]: every byte for which [shouldEscape] holds becomes
    [%XX]. *)
Fixpoint escape (s : string) (mode : encoding) : string :=
  match s with
  | EmptyString => EmptyString
  | String c s' =>
      if shouldEscape c mode
      then String "%" (String (hexdigit (N_of_ascii c / 16))
                        (String (hexdigit (N_of_ascii c mod 16)) (escape s' mode)))
      else String c (escape s' mode)
  end.

(** [URL.EscapedPath], for a URL whose [RawPath] is empty. *)
Definition EscapedPath (u : URL) : string :=
  if String.eqb (Path u) "*" then "*" else escape (Path u) encodePath.

Definition firstSegment (path : string) : string := fst (Cut path "/").

(** [URL.String], for a URL without [Opaque], [User] and [Fragment]. *)
Definition String_ (u : URL) : string :=
  let buf := if String.eqb (Scheme u) "" then "" else Scheme u +:+ ":" in
  let buf :=
    if negb (String.eqb (Scheme u) "") || negb (String.eqb (Host u) "") then
      let buf :=
        if negb (String.eqb (Host u) "") || negb (String.eqb (Path u) "")
        then buf +:+ "//" else buf in
      if negb (String.eqb (Host u) "")
      then buf +:+ escape (Host u) encodeHost else buf
    else buf in
  let path := EscapedPath u in
  let buf :=
    if negb (String.eqb path "") && negb (HasPrefix path "/")
       && negb (String.eqb (Host u) "")
    then buf +:+ "/" else buf in
  let buf :=
    if String.eqb buf "" && Contains (firstSegment path) ":"
    then buf +:+ "./" else buf in
  let buf := buf +:+ path in
  if negb (String.eqb (RawQuery u) "")
  then buf +:+ "?" +:+ RawQuery u else buf.

(** *** A model of [url.Parse]

    The model follows [net/url] on every input without a percent escape,
    userinfo or a bracketed IP literal (no byte among [%], [@], [[]):
    control bytes, a missing scheme before [:], a colon in the first
    segment of a relative path, a malformed port and a byte that a host
    may not hold are rejected as they are there.  Inputs with one of the
    three bytes are outside the model and rejected.  [Opaque], [Fragment]
    and [ForceQuery] are not kept. *)

Definition isCTL (c : ascii) : bool :=
  (N_of_ascii c <? 32)%N || (N_of_ascii c =? 127)%N.

Definition isAlpha (c : ascii) : bool := between "a" "z" c || between "A" "Z" c.
Definition isDigit (c : ascii) : bool := between "0" "9" c.

Definition asciiLower (c : ascii) : ascii :=
  if between "A" "Z" c then ascii_of_N (N_of_ascii c + 32) else c.

Fixpoint mapBytes (f : ascii -> ascii) (s : string) : string :=
  match s with
  | EmptyString => EmptyString
  | String c s' => String (f c) (mapBytes f s')
  end.

Definition allBytes (f : ascii -> bool) (s : string) : bool :=
  forallb f (list_ascii_of_string s).

(** [getScheme(rawURL)], scanning [rest] from index [i] *)
Fixpoint getScheme (i : nat) (rawURL rest : string) : option (string * string) :=
  match rest with
  | EmptyString => Some ("", rawURL)
  | String c rest' =>
      if isAlpha c then getScheme (S i) rawURL rest'
      else if isDigit c || byte_in c "+-." then
        if (i =? 0)%nat then Some ("", rawURL) else getScheme (S i) rawURL rest'
      else if Ascii.eqb c ":" then
        if (i =? 0)%nat then None (* missing protocol scheme *)
        else Some (String.substring 0 i rawURL, rest')
      else Some ("", rawURL)
  end.

(** [validOptionalPort(port)] *)
Definition validOptionalPort (port : string) : bool :=
  match port with
  | EmptyString => true
  | String c digits => Ascii.eqb c ":" && allBytes isDigit digits
  end.

(** The last [:] of [host] with what follows it. *)
Fixpoint colonPort (host : string) : option string :=
  match host with
  | EmptyString => None
  | String c host' =>
      match colonPort host' with
      | Some p => Some p
      | None => if Ascii.eqb c ":" then Some host else None
      end
  end.

(** [parseHost(host)] *)
Definition parseHost (host : string) : option string :=
  if match colonPort host with
     | Some port => validOptionalPort port
     | None => true
     end
     && allBytes (fun c => (128 <=? N_of_ascii c)%N || negb (shouldEscape c encodeHost)) host
  then Some host else None.

Definition Parse (rawURL : string) : option URL :=
  if negb (allBytes (fun c => negb (byte_in c "%@[")) rawURL) then None
  else
  let u := fst (Cut rawURL "#") in
  if negb (allBytes (fun c => negb (isCTL c)) u) then None
  else if String.eqb u "*" then Some (mkURL "" "" "*" "")
  else
    '(scheme, rest) ← getScheme 0 u u;
    let scheme := mapBytes asciiLower scheme in
    let '(rest, query) := Cut rest "?" in
    let query := default "" query in
    if negb (HasPrefix rest "/") && negb (String.eqb scheme "") then
      Some (mkURL scheme "" "" query)
    else if negb (HasPrefix rest "/") && Contains (firstSegment rest) ":" then
      None (* first path segment in URL cannot contain colon *)
    else if (negb (String.eqb scheme "") || negb (HasPrefix rest "///"))
            && HasPrefix rest "//" then
      let '(authority, path) := Cut (TrimPrefix rest "//") "/" in
      host ← parseHost authority;
      Some (mkURL scheme host
              match path with Some p => String "/" p | None => "" end query)
    else Some (mkURL scheme "" rest query).

End Url.

(** ** Package [net/http]: headers, requests, responses *)

Module Http.
Import Strings Url.

Definition validHeaderFieldByte (c : ascii) : bool :=
  isAlnum c || byte_in c "!#$%&'*+-.^_`|~".

Definition toUpper (c : ascii) : ascii :=
  if between "a" "z" c then ascii_of_N (N_of_ascii c - 32) else c.
Definition toLower (c : ascii) : ascii :=
  if between "A" "Z" c then ascii_of_N (N_of_ascii c + 32) else c.

Fixpoint canonicalize (upper : bool) (s : string) : string :=
  match s with
  | EmptyString => EmptyString
  | String c s' =>
      let c := if upper then toUpper c else toLower c in
      String c (canonicalize (Ascii.eqb c "-") s')
  end.

(** [textproto.CanonicalMIMEHeaderKey]: a key with a byte that is not a
    token byte is returned unchanged; otherwise the first letter and every
    letter after a dash are upper case and all others lower case. *)
Definition CanonicalMIMEHeaderKey (s : string) : string :=
  if forallb validHeaderFieldByte (list_ascii_of_string s)
  then canonicalize true s else s.

(** [http.Header] is [map[string][]string]. *)
Abbreviation Header := (gmap string (list string)).

Definition Get (h : Header) (key : string) : string :=
  match h !! CanonicalMIMEHeaderKey key with
  | Some (v :: _) => v
  | _ => ""
  end.

Definition Set_ (h : Header) (key value : string) : Header :=
  <[CanonicalMIMEHeaderKey key := [value]]> h.

Definition Add (h : Header) (key value : string) : Header :=
  <[CanonicalMIMEHeaderKey key :=
      (default [] (h !! CanonicalMIMEHeaderKey key) ++ [value])%list]> h.

Definition Del (h : Header) (key : string) : Header :=
  delete (CanonicalMIMEHeaderKey key) h.

(** A body is a byte stream that is read to its end, or whose read fails. *)
Inductive Body := BodyBytes (b : string) | BodyBroken.

(** [io.ReadAll] *)
Definition ReadAll (b : Body) : option string :=
  match b with
  | BodyBytes s => Some s
  | BodyBroken => None
  end.

(** [http.Request]; the header map is not [nil], as in every request made
    by [http.NewRequest] or sent through an [http.Client]. *)
Record Request := mkRequest {
  Method : string;
  ReqURL : URL;
  ReqHeader : Header;
  ReqBody : Body;
  Close : bool;
}.

Definition set_ReqHeader (h : Header) (r : Request) : Request :=
  mkRequest (Method r) (ReqURL r) h (ReqBody r) (Close r).

Record Response := mkResponse {
  StatusCode : Z;
  RespHeader : Header;
  RespBody : Body;
  ContentLength : Z;
}.

Definition StatusOK : Z := 200.
Definition StatusBadGateway : Z := 502.
Definition MethodOptions : string := "OPTIONS".

End Http.

(** ** Errors and results *)

Inductive error :=
  | ErrUnknownCompression (token : string)
      (* "unknown compression type: %s" *)
  | ErrCodec (codec : string)
      (* an error of a library decompressor: bad header or corrupt data *)
  | ErrSocks5Init (cause : error)
      (* "failed to initialize SOCKS5 proxy: %w" *)
  | ErrUpstream (cause : string)
      (* an error of the underlying transport *)
  | ErrParseTarget (baseUrl : string)
      (* "error parsing target URL %s: %w" *)
  | ErrWrap (context : string) (cause : error)
      (* fmt.Errorf("<context>: %w", err) *)
  | ErrOther (msg : string).

(** The result of a Go call that returns [(T, error)], or panics. *)
Inductive result (A : Type) :=
  | Ok (a : A)
  | Err (e : error)
  | Panic (msg : string).
Arguments Ok {A} a.
Arguments Err {A} e.
Arguments Panic {A} msg.

(** ** Calls that update a state and may fail

    A Go function that works on values behind pointers and returns
    [(T, error)] is a function from the state before the call to its result
    and the state after it. *)

Module Effects.

Definition M (St A : Type) : Type := St -> result A * St.

Definition ret {St A} (a : A) : M St A := fun s => (Ok a, s).

(** Sequencing: an [error] returned or a panic ends the call; the state
    reached so far stays. *)
Definition bind {St A B} (m : M St A) (f : A -> M St B) : M St B := fun s =>
  match m s with
  | (Ok a, s') => f a s'
  | (Err e, s') => (Err e, s')
  | (Panic msg, s') => (Panic msg, s')
  end.

#[export] Instance M_bind {St} : MBind (M St) := fun A B f m => bind m f.
#[export] Instance M_ret {St} : MRet (M St) := fun A a => ret a.

Definition gets {St A} (f : St -> A) : M St A := fun s => (Ok (f s), s).
Definition modify {St} (f : St -> St) : M St unit := fun s => (Ok tt, f s).
Definition fail {St A} (e : error) : M St A := fun s => (Err e, s).
Definition panic {St A} (msg : string) : M St A := fun s => (Panic msg, s).
Definition lift {St A} (r : result A) : M St A := fun s => (r, s).
Definition when {St} (b : bool) (m : M St unit) : M St unit :=
  if b then m else ret tt.

(** A call on each element of a list in turn, collecting the results. *)
Definition forEach {St A B} (f : A -> M St B) : list A -> M St (list B) :=
  fix each (xs : list A) : M St (list B) :=
    match xs with
    | [] => ret []
    | x :: xs' => y ← f x; ys ← each xs'; mret (y :: ys)
    end.

End Effects.

(** ** [compression.go]: the codec bridge *)

Module Compression.
Import Strings Http.

(** [type SupportedCompression string] *)
Abbreviation SupportedCompression := string (only parsing).
Definition Gzip : SupportedCompression := "gzip".
Definition Deflate : SupportedCompression := "deflate".
Definition Brotli : SupportedCompression := "br".

(** The tokens of the three codecs. *)
Inductive token : string -> Prop :=
  | token_gzip : token Gzip
  | token_deflate : token Deflate
  | token_brotli : token Brotli.

Definition compressionFromString (encoding : string) : SupportedCompression :=
  if Contains encoding Gzip then Gzip
  else if Contains encoding Deflate then Deflate
  else if Contains encoding Brotli then Brotli
  else "".

(** A compression library as the bridge uses it: the writer (create,
    [Write], [Close]) maps the bytes written to the bytes of the
    underlying buffer; the reader (create, read to the end) maps the
    bytes of a stream to the bytes read, or fails on a malformed stream. *)
Record Codec := mkCodec {
  deflate_all : string -> string;
  inflate_all : string -> option string;
}.

(** A codec is lossless when its reader undoes its writer. *)
Definition lossless (c : Codec) : Prop :=
  forall x, inflate_all c (deflate_all c x) = Some x.

(** The three libraries: [compress/gzip], [compress/flate] (with
    [flate.BestCompression]) and [andybalholm/brotli]. *)
Class Codecs := mkCodecs {
  gzip : Codec;
  flate : Codec;
  brotli : Codec;
}.

Section Bridge.
Context `{lib : Codecs}.

(** Reading the whole of [body] through the decompressor of [c]. *)
Definition readThrough (c : Codec) (name : string) (body : Body)
  : result string :=
  match ReadAll body with
  | None => Err (ErrCodec name)
  | Some raw =>
      match inflate_all c raw with
      | Some plain => Ok plain
      | None => Err (ErrCodec name)
      end
  end.

(** [decompressResponse(res)]; the response is updated in place, so the
    updated response is returned next to the [error]. *)
Definition decompressResponse (res : Response) : result Response :=
  if String.eqb (Get (RespHeader res) "Content-Encoding") "" then Ok res
  else
    let encoding := compressionFromString (Get (RespHeader res) "Content-Encoding") in
    let reader :=
      if String.eqb encoding Gzip then readThrough gzip Gzip (RespBody res)
      else if String.eqb encoding Deflate then readThrough flate Deflate (RespBody res)
      else if String.eqb encoding Brotli then readThrough brotli Brotli (RespBody res)
      else Err (ErrUnknownCompression (Get (RespHeader res) "Content-Encoding")) in
    match reader with
    | Ok decompressedBody =>
        Ok (mkResponse (StatusCode res)
              (Del (RespHeader res) "Content-Encoding")
              (BodyBytes decompressedBody)
              (Z.of_nat (String.length decompressedBody)))
    | Err e => Err e
    | Panic m => Panic m
    end.

(** [compressBody(body, encoding)] *)
Definition compressBody (body : string) (encoding : SupportedCompression)
  : result string :=
  if String.eqb encoding Gzip then Ok (deflate_all gzip body)
  else if String.eqb encoding Deflate then Ok (deflate_all flate body)
  else if String.eqb encoding Brotli then Ok (deflate_all brotli body)
  else Err (ErrUnknownCompression encoding).

End Bridge.

End Compression.

(** ** Package [internal]: the codec bridge the proxy core calls *)

Module InternalCompression.
Import Strings Http Compression.

Section Bridge.
Context `{lib : Codecs}.

(** Modelled from the spec: the codec selection of package [internal],
    whose source files for compression are not under [src/].  Section
    4.3: the codecs are selected by matching a Content-Encoding token
    against known identifiers in a fixed priority order (gzip, then
    deflate, then brotli; first match wins on substring containment, not
    exact match). *)
Definition matched (token : string) : option (Codec * string) :=
  if Contains token "gzip" then Some (gzip, "gzip")
  else if Contains token "deflate" then Some (flate, "deflate")
  else if Contains token "br" then Some (brotli, "br")
  else None.

(** Modelled from the spec: [internal.DecompressResponse], missing from
    [src/].  Section 4.3, decompress(response): no-op if no
    Content-Encoding; otherwise streams the full body through the matched
    codec's decompressor into memory, replaces the body, removes the
    header, updates the byte-length field; unknown token, error. *)
Definition DecompressResponse (res : Response) : result Response :=
  let encoding := Get (RespHeader res) "Content-Encoding" in
  if String.eqb encoding "" then Ok res
  else
    match matched encoding with
    | None => Err (ErrUnknownCompression encoding)
    | Some (c, name) =>
        match readThrough c name (RespBody res) with
        | Ok decompressedBody =>
            Ok (mkResponse (StatusCode res)
                  (Del (RespHeader res) "Content-Encoding")
                  (BodyBytes decompressedBody)
                  (Z.of_nat (String.length decompressedBody)))
        | Err e => Err e
        | Panic m => Panic m
        end
    end.

(** Modelled from the spec: [internal.CompressBody], missing from
    [src/].  Section 4.3, compress(bytes, codec): streams bytes through
    the matched codec's compressor into memory, returns the compressed
    bytes; unknown codec, error; codec selection and token parsing behave
    identically in both operations. *)
Definition CompressBody (body : string) (codec : SupportedCompression)
  : result string :=
  match matched codec with
  | Some (c, _) => Ok (deflate_all c body)
  | None => Err (ErrUnknownCompression codec)
  end.

End Bridge.

End InternalCompression.

(** ** Machine integers and time *)

Module Time.

Definition minInt64 : Z := - 2 ^ 63.
Definition maxInt64 : Z := 2 ^ 63 - 1.

(** Arithmetic on [int64] wraps around. *)
Definition wrap64 (z : Z) : Z := (z + 2 ^ 63) mod 2 ^ 64 - 2 ^ 63.

(** [time.Duration] is an [int64] count of nanoseconds. *)
Abbreviation Duration := Z (only parsing).
Definition Second : Duration := 1000000000.

(** A [time.Time] is an instant in nanoseconds since the Unix epoch; the
    range of instants is wider than the range of durations. *)
Abbreviation Time := Z (only parsing).

(** The zero [time.Time]: January 1, year 1, 00:00 UTC. *)
Definition zeroTime : Time := - 62135596800 * 1000000000.

(** [t.Sub(u)]: the difference, saturated to the range of [Duration]. *)
Definition Sub (t u : Time) : Duration :=
  Z.max minInt64 (Z.min maxInt64 (t - u)).

End Time.

(** ** [stealthTransport.go] *)

Module Stealth.
Import Strings Http Time Compression Effects.

(** [proxy.Auth] of [golang.org/x/net/proxy] *)
Record Auth := mkAuth { User : string; Password : string }.

(** The dialer [goProxy.SOCKS5("tcp", address, auth, goProxy.Direct)]
    returns. *)
Record Dialer := mkDialer { dialAddress : string; dialAuth : option Auth }.

(** The dynamic type of the field [Transport]: the [*http.Transport]
    with its [Dial] field, or some other [http.RoundTripper]. *)
Inductive RoundTripper :=
  | HttpTransport (Dial : option Dialer)
  | OtherRoundTripper.

Record stealthTransport := mkStealth {
  Transport : RoundTripper;
  userAgents : list string;
  minDelay : Duration;
  maxDelay : Duration;
  lastRequest : Time;
  socks5Proxy : string;
  socksAuth : option Auth;
  socks5Initialized : bool;
  compression : bool;
}.

Definition StealthOption := stealthTransport -> stealthTransport.

Definition WithCompression : StealthOption := fun s =>
  mkStealth (Transport s) (userAgents s) (minDelay s) (maxDelay s)
    (lastRequest s) (socks5Proxy s) (socksAuth s) (socks5Initialized s) true.

Definition WithSocks5 (proxyAddr : string) (auth : option Auth) : StealthOption :=
  fun s =>
  mkStealth (Transport s) (userAgents s) (minDelay s) (maxDelay s)
    (lastRequest s) proxyAddr auth (socks5Initialized s) (compression s).

Definition WithUserAgents (agents : list string) : StealthOption := fun s =>
  mkStealth (Transport s) agents (minDelay s) (maxDelay s)
    (lastRequest s) (socks5Proxy s) (socksAuth s) (socks5Initialized s)
    (compression s).

Definition WithDelay (min max : Duration) : StealthOption := fun s =>
  mkStealth (Transport s) (userAgents s) min max
    (lastRequest s) (socks5Proxy s) (socksAuth s) (socks5Initialized s)
    (compression s).

Definition NewStealthTransport (opts : list StealthOption) : stealthTransport :=
  fold_left (fun t opt => opt t) opts
    (mkStealth (HttpTransport None) [] 0 0 zeroTime "" None false false).

(** What one call of [RoundTrip] meets outside the transport: the values
    the random source draws, the outcome of constructing the SOCKS5
    dialer, the answer of the underlying transport, and by how much
    [time.Sleep] overshoots. *)
Record Env := mkEnv {
  draw_Intn : Z;
  draw_Int63n : Z;
  SOCKS5 : string -> option Auth -> result Dialer;
  upstream : Request -> result Response;
  oversleep : Z;
}.

(** The state [RoundTrip] works on: the receiver [t], the request [req]
    (both behind pointers, so updated in place), the clock, the log of the
    requests handed to the underlying transport with the instant of each
    dispatch, and the number of calls of [goProxy.SOCKS5]. *)
Record State := mkState {
  t : stealthTransport;
  req : Request;
  clock : Time;
  sent : list (Time * Request);
  socks5Calls : nat;
}.

Abbreviation M := (Effects.M State).

Definition with_t (f : stealthTransport -> stealthTransport) (s : State) : State :=
  mkState (f (t s)) (req s) (clock s) (sent s) (socks5Calls s).
Definition with_req (f : Request -> Request) (s : State) : State :=
  mkState (t s) (f (req s)) (clock s) (sent s) (socks5Calls s).

(** [rand.Intn(n)] and [rand.Int63n(n)]: a value in [[0, n)]; both panic
    when [n <= 0]. *)
Definition Intn (draw n : Z) : result Z :=
  if (n <=? 0)%Z then Panic "invalid argument to Intn" else Ok (draw mod n)%Z.
Definition Int63n (draw n : Z) : result Z :=
  if (n <=? 0)%Z then Panic "invalid argument to Int63n" else Ok (draw mod n)%Z.

(** [time.Sleep(d)] returns at once when [d <= 0]. *)
Definition Sleep (env : Env) (d : Duration) : M unit :=
  modify (fun s : State =>
    if (d <=? 0)%Z then s
    else mkState (t s) (req s) (clock s + d + oversleep env)%Z (sent s) (socks5Calls s)).

(** [addHeaderIfNotExists(req, key, value)] *)
Definition addHeaderIfNotExists (key value : string) : M unit :=
  modify (with_req (fun r =>
    if String.eqb (Get (ReqHeader r) key) ""
    then set_ReqHeader (Set_ (ReqHeader r) key value) r
    else r)).

Section RoundTrip.
Context `{lib : Codecs}.
Variable env : Env.

(** set a random user agent if one is not already set *)
Definition setUserAgent : M unit :=
  userAgents ← gets (fun s => userAgents (t s));
  if (0 <? length userAgents)%nat then
    i ← lift (Intn (draw_Intn env) (Z.of_nat (length userAgents)));
    let randomUserAgent := nth (Z.to_nat i) userAgents "" in
    addHeaderIfNotExists "User-Agent" randomUserAgent
  else ret tt.

(** add basic headers if they are not already set *)
Definition setBasicHeaders : M unit :=
  addHeaderIfNotExists "Accept-Language" "de-DE,de;q=0.9,en-US;q=0.8,en;q=0.7";;
  addHeaderIfNotExists "Accept" "*/*";;
  addHeaderIfNotExists "Connection" "keep-alive";;
  addHeaderIfNotExists "Cache-Control" "no-cache";;
  addHeaderIfNotExists "Pragma" "no-cache";;
  addHeaderIfNotExists "DNT" "1".

(** add compression header; yields [hadCompression] *)
Definition acceptCompression : M bool :=
  hadCompression ← gets (fun s =>
    negb (String.eqb (Get (ReqHeader (req s)) "Accept-Encoding") ""));
  compression ← gets (fun s => compression (t s));
  when (compression && negb hadCompression)
    (modify (with_req (fun r =>
       set_ReqHeader (Set_ (ReqHeader r) "Accept-Encoding" "gzip, deflate, br") r)));;
  ret hadCompression.

(** initialize the SOCKS5 proxy if one is set *)
Definition initSocks5 : M unit :=
  tr ← gets t;
  if negb (String.eqb (socks5Proxy tr) "") && negb (socks5Initialized tr) then
    modify (fun s =>
      mkState (t s) (req s) (clock s) (sent s) (S (socks5Calls s)));;
    dialer ← (fun s =>
      match SOCKS5 env (socks5Proxy tr) (socksAuth tr) with
      | Ok d => (Ok d, s)
      | Err e => (Err (ErrSocks5Init e), s)
      | Panic m => (Panic m, s)
      end);
    match Transport tr with
    | HttpTransport _ =>
        modify (with_t (fun t =>
          mkStealth (HttpTransport (Some dialer)) (userAgents t) (minDelay t)
            (maxDelay t) (lastRequest t) (socks5Proxy t) (socksAuth t)
            true (compression t)))
    | OtherRoundTripper =>
        panic "interface conversion: http.RoundTripper is not *http.Transport"
    end
  else ret tt.

(** delay the request if necessary *)
Definition delay : M unit :=
  tr ← gets t;
  if (0 <? minDelay tr)%Z && (0 <? maxDelay tr)%Z then
    now ← gets clock;
    let actualDelay := Sub now (lastRequest tr) in
    n ← lift (Int63n (draw_Int63n env) (wrap64 (maxDelay tr - minDelay tr)));
    let wantDelay := wrap64 (n + minDelay tr) in
    when (actualDelay <? wantDelay)%Z
      (Sleep env (wrap64 (wantDelay - actualDelay)))
  else ret tt.

(** [t.lastRequest = time.Now()] followed by
    [t.Transport.RoundTrip(req)] *)
Definition dispatch : M Response :=
  modify (fun s =>
    mkState
      (let t := t s in
       mkStealth (Transport t) (userAgents t) (minDelay t) (maxDelay t)
         (clock s) (socks5Proxy t) (socksAuth t) (socks5Initialized t)
         (compression t))
      (req s) (clock s) (sent s ++ [(clock s, req s)]) (socks5Calls s));;
  r ← gets req;
  lift (upstream env r).

(** decompress *)
Definition decompress (hadCompression : bool) (res : Response) : M Response :=
  compression ← gets (fun s => compression (t s));
  if compression && negb hadCompression
     && negb (String.eqb (Get (RespHeader res) "Content-Encoding") "")
  then lift (decompressResponse res)
  else ret res.

(** [func (t *stealthTransport) RoundTrip(req *http.Request)] *)
Definition RoundTrip : M Response :=
  setUserAgent;;
  setBasicHeaders;;
  hadCompression ← acceptCompression;
  initSocks5;;
  delay;;
  res ← dispatch;
  decompress hadCompression res.

End RoundTrip.

(** A caller making one call after another on the same transport: each
    call has its own surroundings and request, and starts [pause] after
    the previous call ended. *)
Fixpoint RoundTrips `{lib : Codecs} (calls : list (Env * Request * Duration))
    (s : State) : State :=
  match calls with
  | [] => s
  | (env, r, pause) :: calls' =>
      RoundTrips calls'
        (RoundTrip env
           (mkState (t s) r (clock s + pause)%Z (sent s) (socks5Calls s))).2
  end.

End Stealth.

(** ** The steps of [RoundTrip], for its properties *)

Module StealthSteps.
Import Strings Http Time Compression Effects Stealth.

(** The first value under a canonical key, as [Header.Get] reads it. *)
Definition first (h : Header) (c : string) : string :=
  match h !! c with
  | Some (v :: _) => v
  | _ => ""
  end.

(** A step on headers that writes under the keys [keys] only, and never
    where a non-empty value is already present. *)
Definition fills (keys : list string) (h h' : Header) : Prop :=
  (forall c, first h c <> "" -> h' !! c = h !! c) /\
  (forall c, c ∉ keys -> h' !! c = h !! c).

(** The state after a step that changes the header of the request only. *)
Definition with_header (h : Header) (s : State) : State :=
  with_req (set_ReqHeader h) s.

Definition basicKeys : list string :=
  ["Accept-Language"; "Accept"; "Connection"; "Cache-Control"; "Pragma"; "Dnt"].

(** What [RoundTrip] does after the header has its defaults. *)
Definition afterInit `{lib : Codecs} (env : Env) (hadCompression : bool) : M Response :=
  delay env;;
  res ← dispatch env;
  decompress hadCompression res.

Definition afterHeaders `{lib : Codecs} (env : Env) (hadCompression : bool) : M Response :=
  initSocks5 env;;
  afterInit env hadCompression.

(** The state with one more call of [goProxy.SOCKS5] counted. *)
Definition counted (s : State) : State :=
  mkState (t s) (req s) (clock s) (sent s) (S (socks5Calls s)).

(** The transport with the dialer installed and the flag set. *)
Definition installed (d : Dialer) (t : stealthTransport) : stealthTransport :=
  mkStealth (HttpTransport (Some d)) (userAgents t) (minDelay t) (maxDelay t)
    (lastRequest t) (socks5Proxy t) (socksAuth t) true (compression t).

(** The state after [time.Sleep(d)]. *)
Definition slept (env : Env) (d : Z) (s : State) : State :=
  if (d <=? 0)%Z then s
  else mkState (t s) (req s) (clock s + d + oversleep env)%Z (sent s) (socks5Calls s).

(** The state after the dispatch: the instant is noted in the transport
    and the request is in the log. *)
Definition dispatchedAt (s : State) : State :=
  mkState
    (mkStealth (Transport (t s)) (userAgents (t s)) (minDelay (t s)) (maxDelay (t s))
       (clock s) (socks5Proxy (t s)) (socksAuth (t s)) (socks5Initialized (t s))
       (compression (t s)))
    (req s) (clock s) (sent s ++ [(clock s, req s)]) (socks5Calls s).

End StealthSteps.

(** ** HTML documents as [goquery] sees them *)

Module Html.

(** [html.Attribute]: key and value; the attributes of a node are kept
    in the order of the source text. *)
Definition Attribute : Type := string * string.

(** [html.Node]: an element with its attributes and children, or a node
    without attributes (text, comment, doctype). *)
#[local] Unset Elimination Schemes.
Inductive Node :=
  | Element (tag : string) (attrs : list Attribute) (children : list Node)
  | Other (data : string).
#[local] Set Elimination Schemes.

(** A document is the sequence of children of its root. *)
Definition Document : Type := list Node.

(** [Selection.Attr(attrName)] of a selection of one node: the value of
    the first attribute with that key. *)
Fixpoint Attr (attrs : list Attribute) (attrName : string) : option string :=
  match attrs with
  | [] => None
  | (k, v) :: attrs' => if String.eqb k attrName then Some v else Attr attrs' attrName
  end.

(** [Selection.SetAttr(attrName, val)]: the first attribute with that key
    gets the value; without one the attribute is appended. *)
Fixpoint SetAttr (attrs : list Attribute) (attrName val : string) : list Attribute :=
  match attrs with
  | [] => [(attrName, val)]
  | (k, v) :: attrs' =>
      if String.eqb k attrName then (k, val) :: attrs'
      else (k, v) :: SetAttr attrs' attrName val
  end.

Definition hasAttr (attrs : list Attribute) (attrName : string) : bool :=
  bool_decide (is_Some (Attr attrs attrName)).

(** The selector ["a[href], img[src], link[href], script[src]"]. *)
Definition selected (tag : string) (attrs : list Attribute) : bool :=
  String.eqb tag "a" && hasAttr attrs "href"
  || String.eqb tag "img" && hasAttr attrs "src"
  || String.eqb tag "link" && hasAttr attrs "href"
  || String.eqb tag "script" && hasAttr attrs "src".

End Html.

(** ** [proxy.go] *)

Module Proxy.
Import Strings Internal Url Http Html Compression InternalCompression Effects.

Record Target := mkTarget {
  BaseUrl : string;
  Prefix : string;
  PreRequest : option (Request -> Request);
  (* the response is [nil] when the request failed *)
  PostRequest : option (option Response -> option Response);
}.

Definition set_Prefix (v : string) (t : Target) : Target :=
  mkTarget (BaseUrl t) v (PreRequest t) (PostRequest t).

(** A pointer to a [url.URL] in the store. *)
Definition loc := nat.

(** [tls.Certificate], opaque. *)
Definition Certificate := string.

Record Proxy := mkProxy {
  targets : gmap string Target;
  (* an [http.RoundTripper], by the answer it gives to a request *)
  transport : Request -> result Response;
  port : Z;
  addr : option loc;   (* [*url.URL]; [None] is [nil] *)
  cert : option Certificate;
}.

Definition set_addr (a : option loc) (p : Proxy) : Proxy :=
  mkProxy (targets p) (transport p) (port p) a (cert p).

Definition ProxyOption := Proxy -> Proxy.

Definition WithSsl (c : Certificate) : ProxyOption := fun p =>
  mkProxy (targets p) (transport p) (port p) (addr p) (Some c).
Definition WithTransport (tr : Request -> result Response) : ProxyOption := fun p =>
  mkProxy (targets p) tr (port p) (addr p) (cert p).
Definition WithPort (n : Z) : ProxyOption := fun p =>
  mkProxy (targets p) (transport p) n (addr p) (cert p).

(** [http.ResponseWriter], as the server of [net/http] implements it
    (Go 1.21, the version of [go.mod]): the header map of the handler,
    the status once the header is written, the bytes of the body the
    writer accepted (the server leaves them out of the reply to a [HEAD]
    request), the codes of the informational responses sent before, the
    Content-Length announced when the header was written ([-1] for none)
    and the count of bytes handed to [Write]. *)
Record ResponseWriter := mkWriter {
  wHeader : Header;
  wStatus : option Z;
  wBody : string;
  wInterim : list Z;
  wLength : Z;
  wWritten : Z;
}.

(** What lives outside the values passed around: the [url.URL] values
    behind pointers, the addresses listeners are bound to, the requests
    handed to the proxy's transport, and the response under way. *)
Record World := mkWorld {
  heap : gmap loc URL;
  listeners : list string;
  dispatched : list Request;
  w : ResponseWriter;
}.

Abbreviation M := (Effects.M World).

Definition with_heap (f : gmap loc URL -> gmap loc URL) (s : World) : World :=
  mkWorld (f (heap s)) (listeners s) (dispatched s) (w s).
Definition with_w (f : ResponseWriter -> ResponseWriter) (s : World) : World :=
  mkWorld (heap s) (listeners s) (dispatched s) (f (w s)).

(** [&url.URL{...}]: a fresh cell *)
Definition new (u : URL) : M loc := fun s =>
  let l := fresh (dom (heap s)) in (Ok l, with_heap <[l := u]> s).

(** Reading and writing through a pointer; [nil] and dangling pointers
    panic. *)
Definition load (l : option loc) : M URL := fun s =>
  match l ≫= (heap s !!.) with
  | Some u => (Ok u, s)
  | None => (Panic "invalid memory address or nil pointer dereference", s)
  end.

Definition store (l : option loc) (f : URL -> URL) : M unit :=
  u ← load l;
  modify (with_heap (fun h => match l with Some l => <[l := f u]> h | None => h end)).

Definition with_wHeader (f : Header -> Header) (w : ResponseWriter) : ResponseWriter :=
  mkWriter (f (wHeader w)) (wStatus w) (wBody w) (wInterim w) (wLength w) (wWritten w).

(** [fmt.Sprintf("%d", n)] *)
Definition decimal (n : Z) : string := NilZero.string_of_int (Z.to_int n).

(** The value of a string of decimal digits. *)
Definition digitsValue (digits : string) : Z :=
  fold_left (fun acc c => acc * 10 + (Z.of_N (N_of_ascii c) - 48))%Z
    (list_ascii_of_string digits) 0%Z.

(** [strconv.ParseInt(s, 10, 64)]; [None] is an error (syntax or range). *)
Definition ParseInt (s : string) : option Z :=
  let '(neg, digits) :=
    match s with
    | String "+" rest => (false, rest)
    | String "-" rest => (true, rest)
    | _ => (false, s)
    end in
  if String.eqb digits "" || negb (allBytes isDigit digits) then None
  else
    let v := if neg then (- digitsValue digits)%Z else digitsValue digits in
    if (Time.minInt64 <=? v)%Z && (v <=? Time.maxInt64)%Z then Some v else None.

(** [bodyAllowedForStatus] of [net/http] *)
Definition bodyAllowedForStatus (status : Z) : bool :=
  negb ((100 <=? status)%Z && (status <=? 199)%Z)
  && negb (status =? 204)%Z && negb (status =? 304)%Z.

Definition ErrBodyNotAllowed : error :=
  ErrOther "http: request method or response status code does not allow body".
Definition ErrContentLength : error :=
  ErrOther "http: wrote more than the declared Content-Length".

(** [w.Header().Set(key, value)] and [w.Header().Add(key, value)] *)
Definition wSet (key value : string) : M unit :=
  modify (with_w (with_wHeader (fun h => Set_ h key value))).
Definition wAdd (key value : string) : M unit :=
  modify (with_w (with_wHeader (fun h => Add h key value))).

(** [w.WriteHeader(code)] of the response of the server.  A call after
    the header was written is logged and ignored.  [checkWriteHeaderCode]
    panics on a code outside 100..999.  A code 100..199 other than 101 is
    sent as an informational response, and the header stays unwritten.
    Otherwise the status is fixed and the Content-Length of the header
    map is read: a non-negative decimal becomes the announced length, any
    other value is deleted from the map.  The response is created with
    the announced length -1 and no byte written, and neither changes
    before the header is written. *)
Definition WriteHeader (code : Z) : M unit := fun s =>
  match wStatus (w s) with
  | Some _ => (Ok (), s)
  | None =>
      if (code <? 100)%Z || (999 <? code)%Z then
        (Panic ("invalid WriteHeader code " +:+ decimal code), s)
      else if (100 <=? code)%Z && (code <=? 199)%Z && negb (code =? 101)%Z then
        (Ok (), with_w (fun w =>
           mkWriter (wHeader w) None (wBody w) (wInterim w ++ [code]) (wLength w)
             (wWritten w)) s)
      else
        let cl := Get (wHeader (w s)) "Content-Length" in
        let announced :=
          if String.eqb cl "" then Some (-1)%Z
          else match ParseInt cl with
               | Some v => if (0 <=? v)%Z then Some v else None
               | None => None
               end in
        (Ok (), with_w (fun w =>
           match announced with
           | Some n => mkWriter (wHeader w) (Some code) (wBody w) (wInterim w) n 0%Z
           | None =>
               mkWriter (Del (wHeader w) "Content-Length") (Some code) (wBody w)
                 (wInterim w) (-1)%Z 0%Z
           end) s)
  end.

(** [w.Write(b)] of the response of the server, with the [error] it
    returns ([None] is [nil]).  The header is written with status 200 if
    it was not yet; no byte is accepted when the status allows no body
    ([ErrBodyNotAllowed]) or when the bytes handed over exceed the
    announced Content-Length ([ErrContentLength]). *)
Definition Write (b : string) : M (option error) :=
  started ← gets (fun s => wStatus (w s));
  when (negb (bool_decide (is_Some started))) (WriteHeader StatusOK);;
  if String.eqb b "" then mret None
  else
    status ← gets (fun s => wStatus (w s));
    if negb (bodyAllowedForStatus (default 0%Z status)) then
      mret (Some ErrBodyNotAllowed)
    else
      modify (with_w (fun w =>
        mkWriter (wHeader w) (wStatus w) (wBody w) (wInterim w) (wLength w)
          (wWritten w + Z.of_nat (String.length b))%Z));;
      overrun ← gets (fun s =>
        negb (wLength (w s) =? -1)%Z && (wLength (w s) <? wWritten (w s))%Z);
      if overrun : bool then mret (Some ErrContentLength)
      else
        modify (with_w (fun w =>
          mkWriter (wHeader w) (wStatus w) (wBody w +:+ b) (wInterim w) (wLength w)
            (wWritten w)));;
        mret None.

(** [http.Error(w, msg, code)] of Go 1.21, the version of [go.mod]: it
    sets two headers, writes the header and prints the line; the
    [error] of [fmt.Fprintln] is dropped. *)
Definition Error (msg : string) (code : Z) : M unit :=
  wSet "Content-Type" "text/plain; charset=utf-8";;
  wSet "X-Content-Type-Options" "nosniff";;
  WriteHeader code;;
  _ ← Write (msg +:+ String (ascii_of_nat 10) "");
  mret ().

(** [fmt.Errorf("<context>: %w", err)] around a call *)
Definition wrapErr {A} (context : string) (m : M A) : M A := fun s =>
  match m s with
  | (Err e, s') => (Err (ErrWrap context e), s')
  | other => other
  end.

Section Proxy.
Context `{codecs : Codecs}.

(** The services of libraries the proxy calls: [url.Parse] ([None] for
    an error), the HTML parser behind [goquery.NewDocumentFromReader]
    and the printer behind [Document.Html]. *)
Variable url_Parse : string -> option URL.
Variable html_Parse : string -> option Document.
Variable html_Render : Document -> option string.

(** [http.DefaultTransport], by the answer it gives to a request *)
Variable DefaultTransport : Request -> result Response.

(** What [http.Client] takes from libraries when it follows a redirect:
    [URL.Parse] of the URL of the request on the [Location] value
    ([None] for an error), and the header of the next request, from the
    first request, the request just answered and the next URL
    ([makeHeadersCopier] and the [Referer]). *)
Variable url_Resolve : URL -> string -> option URL.
Variable redirect_Header : Request -> Request -> URL -> Header.

(** The loop of [NewProxy] over [targets], from index [i] on; [rest] is
    what the [range] has still to visit. *)
Fixpoint registerTargets (targets : list Target) (i : nat) (rest : list Target)
    (targetMap : gmap string Target) : result (gmap string Target) :=
  match rest with
  | [] => Ok targetMap
  | target :: rest' =>
      let target :=
        if negb (HasPrefix (Prefix target) "/")
        then set_Prefix ("/" +:+ Prefix target) target else target in
      match url_Parse (BaseUrl target) with
      | None => Err (ErrParseTarget (BaseUrl target))
      | Some _ =>
          match targets !! i with
          | Some stored =>
              registerTargets targets (S i) rest' (<[Prefix target := stored]> targetMap)
          | None => Panic "index out of range"
          end
      end
  end.

Definition NewProxy (targets : list Target) (opts : list ProxyOption) : M Proxy :=
  targetMap ← lift (registerTargets targets 0 targets ∅);
  let p := mkProxy targetMap DefaultTransport 0 None None in
  let p := fold_left (fun p opt => opt p) opts p in
  l ← new (mkURL "http" ("0.0.0.0:" +:+ decimal (port p)) "" "");
  let p := set_addr (Some l) p in
  when (bool_decide (is_Some (cert p))) (store (addr p) (set_Scheme "https"));;
  mret p.

(** [ListenAndServe] up to the call of [Serve]: the listener is bound,
    the resolved address is written back, and one handler is registered
    per target.  [net_Listen] is the outcome of [net.Listen("tcp", host)]:
    the address of the listener or an error. *)
Definition ListenAndServe (net_Listen : string -> result string) (p : Proxy)
  : M (list (string * Target)) :=
  a ← load (addr p);
  bound ← wrapErr "error starting listener" (lift (net_Listen (Host a)));
  modify (fun s => mkWorld (heap s) (listeners s ++ [bound]) (dispatched s) (w s));;
  store (addr p) (set_Host bound);;
  mret (map_to_list (targets p)).

(** [Proxy.Addr] *)
Definition Addr (p : Proxy) : M string :=
  u ← load (addr p);
  mret (String_ u).

(** [validMethod] of [net/http] *)
Definition validMethod (method : string) : bool :=
  (0 <? String.length method)%nat && allBytes validHeaderFieldByte method.

(** [http.NewRequest(method, url, body)] *)
Definition NewRequest (method url : string) (body : Body) : result Request :=
  let method := if String.eqb method "" then "GET" else method in
  if negb (validMethod method) then Err (ErrOther "net/http: invalid method")
  else
    match url_Parse url with
    | None => Err (ErrOther "parse")
    | Some u => Ok (mkRequest method (set_Host (TrimSuffix (Host u) ":") u) ∅ body false)
    end.

(** [for name, values := range h { for _, value := range values {
    dst.Add(name, value) } }] *)
Definition addAll (h dst : Header) : Header :=
  map_fold (fun name values dst => fold_left (fun dst value => Add dst name value) values dst)
    dst h.

Definition buildRequest (originalReq : Request) (target : Target) : result Request :=
  match url_Parse (BaseUrl target) with
  | None => Err (ErrOther "error parsing target URL")
  | Some targetAsUrl =>
      let newURL := ReqURL originalReq in
      let newURL := set_Scheme (Scheme targetAsUrl) newURL in
      let newURL := set_Host (Host targetAsUrl) newURL in
      let newURL := set_Path (TrimPrefix (Path newURL) (Prefix target)) newURL in
      match ReadAll (ReqBody originalReq) with
      | None => Err (ErrOther "error reading request body")
      | Some bodyBytes =>
          match NewRequest (Method originalReq) (String_ newURL) (BodyBytes bodyBytes) with
          | Ok newReq =>
              Ok (mkRequest (Method newReq) (ReqURL newReq)
                    (addAll (ReqHeader originalReq) (ReqHeader newReq))
                    (ReqBody newReq) true)
          | _ => Err (ErrOther "error creating new request")
          end
      end
  end.

(** The body of the loop over [[]string{"href", "src"}] in the callback
    of [Each]: [url := p.addr] copies the pointer, so the assignment to
    [url.Path] writes to the address of the proxy. *)
Definition rewriteAttr (p : Proxy) (target : Target) (attr : string)
    (attrs : list Attribute) : M (list Attribute) :=
  match Attr attrs attr with
  | Some val =>
      let isDynamic := HasPrefix val "/" in
      let isOnOriginalHost := HasPrefix val (BaseUrl target) in
      let url := addr p in
      store url (set_Path (JoinUrl [Prefix target; TrimPrefix val (BaseUrl target)]));;
      if isDynamic || isOnOriginalHost then
        u ← load url;
        mret (SetAttr attrs attr (String_ u))
      else mret attrs
  | None => mret attrs
  end.

(** The callback of [Each] on one selected element. *)
Definition rewriteElement (p : Proxy) (target : Target)
    (attrs : list Attribute) : M (list Attribute) :=
  attrs ← rewriteAttr p target "href" attrs;
  rewriteAttr p target "src" attrs.

(** [document.Find("a[href], img[src], link[href], script[src]").Each(...)]:
    the callback runs on the selected elements in document order; it
    changes attribute values only, so the elements selected are those
    of the document as parsed. *)
Fixpoint rewriteNode (p : Proxy) (target : Target) (n : Node) : M Node :=
  match n with
  | Other data => mret (Other data)
  | Element tag attrs children =>
      attrs' ← (if selected tag attrs then rewriteElement p target attrs
                else mret attrs);
      children' ← forEach (rewriteNode p target) children;
      mret (Element tag attrs' children')
  end.

Definition rewriteNodes (p : Proxy) (target : Target) : list Node -> M (list Node) :=
  forEach (rewriteNode p target).

Definition readBody (b : Body) (msg : string) : M string :=
  match ReadAll b with
  | Some bytes => mret bytes
  | None => fail (ErrOther msg)
  end.

Definition copyBody (p : Proxy) (resp : Response) (target : Target) : M string :=
  if negb (Contains (Get (RespHeader resp) "Content-Type") "text/html") then
    readBody (RespBody resp) "unexpected EOF"
  else
    originalBody ← readBody (RespBody resp)
                     "error reading (decompressed) response body";
    match html_Parse originalBody with
    | None => fail (ErrOther "error parsing HTML content")
    | Some document =>
        document ← rewriteNodes p target document;
        match html_Render document with
        | None => fail (ErrOther "error getting modified HTML content")
        | Some newBody => mret newBody
        end
    end.

Definition copyHeaders (resp : Response) : M unit :=
  modify (with_w (with_wHeader (addAll (RespHeader resp))));;
  wSet "Access-Control-Allow-Origin" "*";;
  wSet "Access-Control-Allow-Methods" "GET, POST, PUT, DELETE, OPTIONS";;
  wSet "Access-Control-Allow-Headers" "Content-Type, Authorization".

(** [copyResponse]; [resp] is [nil] when a [PostRequest] hook returned
    [nil].  The [error] of [w.Write] is dropped. *)
Definition copyResponse (p : Proxy) (resp : option Response) (target : Target)
  : M unit :=
  match resp with
  | None => panic "invalid memory address or nil pointer dereference"
  | Some resp =>
      copyHeaders resp;;
      let encoding := Get (RespHeader resp) "Content-Encoding" in
      resp ← (if negb (String.eqb encoding "")
              then wrapErr "error decompressing response body"
                     (lift (DecompressResponse resp))
              else mret resp);
      newBody ← wrapErr "error copying response body" (copyBody p resp target);
      newBody ← (if negb (String.eqb encoding "") then
                   newBody ← wrapErr "error compressing response body"
                               (lift (CompressBody newBody encoding));
                   wSet "Content-Encoding" encoding;;
                   mret newBody
                 else mret newBody);
      WriteHeader (StatusCode resp);;
      _ ← Write newBody;
      mret ()
  end.

(** [redirectBehavior] of [net/http] on the answers to the requests of
    the handler.  The request of [buildRequest] has a body without
    [GetBody] and a Content-Length of 0, so its length counts as unknown
    and an answer 307 or 308 is returned as it is; an answer 301, 302 or
    303 is followed, with the method [GET] unless the method answered was
    [GET] or [HEAD], and without body. *)
Definition shouldRedirect (code : Z) : bool :=
  (code =? 301)%Z || (code =? 302)%Z || (code =? 303)%Z.

Definition redirectMethod (method : string) : string :=
  if String.eqb method "GET" || String.eqb method "HEAD" then method else "GET".

(** The loop of [http.Client.Do] for a client with a transport and
    nothing else: no [CheckRedirect], so [defaultCheckRedirect] stops
    after ten requests, no cookie jar, no timeout.  [ireq] is the first
    request, [req] the one to send now; every request handed to the
    transport [rt] is added to [dispatched]; [budget] is the count of
    requests that may still be sent.  The result is the pair
    [(resp, err)] of [Do]; both are set when the redirects are stopped.
    An error is returned in a [*url.Error], which names the method of
    the first request. *)
Fixpoint send (rt : Request -> result Response) (budget : nat) (ireq req : Request)
  : M (option Response * option error) :=
  match budget with
  | O => mret (None, Some (ErrOther "stopped after 10 redirects"))
  | S budget' =>
      modify (fun s =>
        mkWorld (heap s) (listeners s) (dispatched s ++ [req]) (w s));;
      match rt req with
      | Panic msg => panic msg
      | Err e => mret (None, Some (ErrWrap (Method ireq) e))
      | Ok resp =>
          let location := Get (RespHeader resp) "Location" in
          if negb (shouldRedirect (StatusCode resp)) || String.eqb location "" then
            mret (Some resp, None)
          else
            match url_Resolve (ReqURL req) location with
            | None =>
                mret (None, Some (ErrWrap (Method ireq)
                                    (ErrOther "failed to parse Location header")))
            | Some u =>
                match budget' with
                | O =>
                    mret (Some resp, Some (ErrWrap (Method ireq)
                                             (ErrOther "stopped after 10 redirects")))
                | S _ =>
                    send rt budget' ireq
                      (mkRequest (redirectMethod (Method req)) u
                         (redirect_Header ireq req u) (BodyBytes "") false)
                end
            end
      end
  end.

(** [client.Do(req)] for [client := &http.Client{Transport: rt}] *)
Definition Do (rt : Request -> result Response) (req : Request)
  : M (option Response * option error) :=
  send rt 10 req req.

(** The handler [forwardRequest(target)] on the request [r]. *)
Definition forwardRequest (p : Proxy) (target : Target) (r : Request) : M unit :=
  match buildRequest r target with
  | Ok newReq =>
      let newReq :=
        match PreRequest target with
        | Some hook => hook newReq
        | None => newReq
        end in
      '(resp, err) ← Do (transport p) newReq;
      let resp :=
        match PostRequest target with
        | Some hook => hook resp
        | None => resp
        end in
      match err with
      | Some _ => Error "Error forwarding request" StatusBadGateway
      | None =>
          if String.eqb (Method r) MethodOptions then
            wSet "Access-Control-Allow-Origin" "*";;
            wSet "Access-Control-Allow-Methods" "GET, POST, PUT, DELETE, OPTIONS";;
            wSet "Access-Control-Allow-Headers" "Content-Type, Authorization";;
            WriteHeader StatusOK
          else
            fun s =>
              match copyResponse p resp target s with
              | (Err _, s') => Error "Error copying response" StatusBadGateway s'
              | done => done
              end
      end
  | _ => Error "Error constructing new request" StatusBadGateway
  end.

End Proxy.

End Proxy.

(** ** The link rewriting and the registry, for their properties *)

Module Rewriting.
Import Strings Internal Url Http Html Effects Proxy.

(** The path the callback of [Each] writes for the attribute value [val]. *)
Definition joined (target : Target) (val : string) : string :=
  JoinUrl [Prefix target; TrimPrefix val (BaseUrl target)].

(** The value the callback leaves in an attribute that held [val], when
    the address of the proxy is [u]. *)
Definition codeValue (u : URL) (target : Target) (val : string) : string :=
  if HasPrefix val "/" || HasPrefix val (BaseUrl target)
  then String_ (set_Path (joined target val) u)
  else val.

(** The value the specification gives: address of the proxy, then prefix
    of the target joined with the value without the origin. *)
Definition specValue (u : URL) (target : Target) (val : string) : string :=
  if HasPrefix val "/" || HasPrefix val (BaseUrl target)
  then String_ (set_Path "" u) +:+ JoinUrl [Prefix target; TrimPrefix val (BaseUrl target)]
  else val.

(** A path that [URL.String] prints as it is. *)
Definition plain (path : string) : bool :=
  allBytes (fun c => negb (shouldEscape c encodePath)) path.

(** [f] on the value of the first attribute [attrName], if there is one. *)
Definition mapAttr (f : string -> string) (attrName : string)
    (attrs : list Attribute) : list Attribute :=
  match Attr attrs attrName with
  | Some val => SetAttr attrs attrName (f val)
  | None => attrs
  end.

(** The document with [f] on the [href] and [src] values of the elements
    the selector matches. *)
Fixpoint rewritten (f : string -> string) (n : Node) : Node :=
  match n with
  | Other data => Other data
  | Element tag attrs children =>
      Element tag
        (if selected tag attrs then mapAttr f "src" (mapAttr f "href" attrs) else attrs)
        (map (rewritten f) children)
  end.

(** The values the callback examines on one element, and in a document,
    in the order of the visits. *)
Definition examinedAttrs (attrs : list Attribute) : list string :=
  option_list (Attr attrs "href") ++ option_list (Attr attrs "src").

Fixpoint examined (n : Node) : list string :=
  match n with
  | Other _ => []
  | Element tag attrs children =>
      (if selected tag attrs then examinedAttrs attrs else [])
      ++ concat (map examined children)
  end.

(** The store after the assignments [url.Path = path] for [paths] in turn,
    through the pointer [l]. *)
Definition assigned (l : loc) (paths : list string) (s : World) : World :=
  fold_left (fun s path => with_heap (alter (set_Path path) l) s) paths s.

(** The values the callback examines in a document. *)
Definition examinedIn (d : Document) : list string := concat (map examined d).

End Rewriting.

Module Registry.
Import Strings Url Http Proxy.

(** The prefix with a leading slash, as [NewProxy] computes it for the
    key of the registry. *)
Definition normalized (prefix : string) : string :=
  if negb (HasPrefix prefix "/") then "/" +:+ prefix else prefix.

(** An absolute URL in the sense of the specification: it parses, and has
    a scheme and a host. *)
Definition absolute (url_Parse : string -> option URL) (rawURL : string) : bool :=
  match url_Parse rawURL with
  | Some u => negb (String.eqb (Scheme u) "") && negb (String.eqb (Host u) "")
  | None => false
  end.

(** The request the handler hands to the transport. *)
Definition outgoing (target : Target) (newReq : Request) : Request :=
  match PreRequest target with
  | Some hook => hook newReq
  | None => newReq
  end.

End Registry.

(** ** Fixtures *)

Module Fixtures.
Import Strings Url Http Html Compression Stealth Proxy.

(** A lossless codec that stores the bytes behind a one-byte tag. *)
Definition stored (tag : ascii) : Codec :=
  mkCodec (fun x => String tag x)
    (fun y => match y with
              | String c x => if Ascii.eqb c tag then Some x else None
              | EmptyString => None
              end).

Definition storedCodecs : Codecs := mkCodecs (stored "G") (stored "D") (stored "B").

Definition emptyResponse : Response := mkResponse 200 ∅ (BodyBytes "") 0.

(** Surroundings in which SOCKS5 dialers can be constructed and the
    upstream answers, and surroundings in which the construction fails. *)
Definition plainEnv : Env :=
  mkEnv 7 11 (fun address auth => Ok (mkDialer address auth))
    (fun _ => Ok emptyResponse) 0.

Definition brokenSocksEnv : Env :=
  mkEnv 7 11 (fun _ _ => Err (ErrOther "socks5: unreachable"))
    (fun _ => Ok emptyResponse) 0.

Definition get (h : Header) : Request :=
  mkRequest "GET" (mkURL "http" "example.com" "/" "") h (BodyBytes "") false.

(** A call on the transport [t] with the request [r]. *)
Definition call (t : stealthTransport) (r : Request) : State :=
  mkState t r 1700000000000000000 [] 0.

(** A printer of documents, and a parser that knows the pages [pages]. *)
Fixpoint printNode (n : Node) : string :=
  match n with
  | Other data => data
  | Element tag attrs children =>
      "<" +:+ tag
      +:+ String.concat "" (map (fun '(k, v) => " " +:+ k +:+ "=" +:+ v) attrs)
      +:+ ">" +:+ String.concat "" (map printNode children)
      +:+ "</" +:+ tag +:+ ">"
  end.

Definition print (d : Document) : option string :=
  Some (String.concat "" (map printNode d)).

Definition parseAmong (pages : list Document) (body : string) : option Document :=
  List.find (fun d => bool_decide (print d = Some body)) pages.

Definition link (tag attr value : string) : Node := Element tag [(attr, value)] [].

(** The target and the proxy of the example of the specification. *)
Definition exampleTarget : Target := mkTarget "https://example.com" "/ex/" None None.

Definition exampleProxy : Proxy :=
  mkProxy {["/ex/" := exampleTarget]} (fun _ => Ok emptyResponse) 8080 (Some 0%nat) None.

Definition exampleWorld : World :=
  mkWorld {[0%nat := mkURL "http" "localhost:8080" "" ""]} ["localhost:8080"] []
    (mkWriter ∅ None "" [] (-1) 0)%Z.

Definition htmlResponse (d : Document) : Response :=
  mkResponse 200 {["Content-Type" := ["text/html; charset=utf-8"]]}
    (BodyBytes (default "" (print d))) (-1).

Definition threeLinks : Document :=
  [link "a" "href" "/path"; link "a" "href" "https://example.com/path";
   link "a" "href" "https://other.com/x"].

Definition queryLink : Document := [link "a" "href" "/search?q=go"].

Definition pages : list Document := [threeLinks; queryLink].

Definition copyExample (d : Document) :=
  copyBody (parseAmong pages) print exampleProxy (htmlResponse d) exampleTarget exampleWorld.

Definition emptyWorld : World := mkWorld ∅ [] [] (mkWriter ∅ None "" [] (-1) 0)%Z.

Definition okTransport : Request -> result Response := fun _ => Ok emptyResponse.

Definition optionsRequest : Request :=
  mkRequest "OPTIONS" (mkURL "" "" "/ex/path" "") {["Origin" := ["http://client.test"]]}
    (BodyBytes "") false.

(** [URL.Parse] of a base on a reference that is an absolute URL or an
    absolute path. *)
Definition resolve (base : URL) (ref : string) : option URL :=
  match Parse ref with
  | Some u =>
      Some (if String.eqb (Scheme u) ""
            then mkURL (Scheme base) (Host base) (Path u) (RawQuery u) else u)
  | None => None
  end.

(** The header of the request that follows a redirect on the same host:
    the header of the first request, with the URL just answered as
    [Referer]. *)
Definition redirectHeader (ireq req : Request) (u : URL) : Header :=
  Set_ (ReqHeader ireq) "Referer" (String_ (ReqURL req)).

End Fixtures.

(** ** [stats/targetStat.go]: the recorder of response statistics *)

Module Stats.
Import Time Effects.

(** [float64(n)] for an integer [n] with [|n| < 2^63], which covers every
    conversion of this file; the conversion rounds to the nearest
    [float64], ties to even. *)
Definition float64 (n : Z) : PrimFloat.float :=
  if (n <? 0)%Z then PrimFloat.opp (PrimFloat.of_uint63 (Uint63.of_Z (- n)))
  else PrimFloat.of_uint63 (Uint63.of_Z n).

(** [Duration.Seconds] *)
Definition Seconds (d : Duration) : PrimFloat.float :=
  let sec := Z.quot d Second in
  let nsec := Z.rem d Second in
  PrimFloat.add (float64 sec) (PrimFloat.div (float64 nsec) (float64 1000000000)).

(** Division of [int64] values: by zero it panics, otherwise it
    truncates and wraps around. *)
Definition div64 (a b : Z) : result Z :=
  if (b =? 0)%Z then Panic "runtime error: integer divide by zero"
  else Ok (wrap64 (Z.quot a b)).

Record responseState := mkResponseState {
  responseTime : Duration;
  statusCode : Z;
  timeStamp : Time;
}.

Record TargetStats := mkTargetStats {
  StatStartDate : Time;
  TotalRequestCount : Z;
  TotalAvgResponseTime : Duration;
  WindowDuration : Duration;
  AvgResponseTime : Duration;
  RequestCount : Z;
  RequestRate : PrimFloat.float;
  ErrorRate : PrimFloat.float;
}.

(** [StatRecorder]; the mutex is held during each of its methods, which
    are modelled as running one at a time. *)
Record StatRecorder := mkStatRecorder {
  firstRequest : Time;
  windowSize : Duration;
  responseWindow : list responseState;
  requestCount : Z;
  avgResponseTime : Duration;
}.

Definition newStatRecorder (windowSize : Duration) : StatRecorder :=
  mkStatRecorder zeroTime windowSize [] 0 0.

(** The recorder behind its pointer, and the number of readings of the
    clock so far. *)
Record State := mkState {
  recorder : StatRecorder;
  ticks : nat;
}.

Abbreviation M := (Effects.M State).

Definition update (f : StatRecorder -> StatRecorder) : M unit :=
  modify (fun s => mkState (f (recorder s)) (ticks s)).

Definition getAvgResponseTime (stats : list responseState) : Duration :=
  let totalResponseTime :=
    fold_left (fun total state => wrap64 (total + responseTime state)) stats 0%Z in
  if (length stats =? 0)%nat then 0%Z
  else wrap64 (Z.quot totalResponseTime (Z.of_nat (length stats))).

Definition getRequestRate (stats : list responseState) : PrimFloat.float :=
  match stats with
  | [] => PrimFloat.zero
  | first :: _ =>
      let firstRequest := timeStamp first in
      let lastRequest := timeStamp (List.last stats first) in
      PrimFloat.div (float64 (Z.of_nat (length stats)))
        (Seconds (Sub lastRequest firstRequest))
  end.

Definition getErrorRate (stats : list responseState) : PrimFloat.float :=
  if (length stats =? 0)%nat then PrimFloat.zero
  else
    let errorCount :=
      fold_left (fun count state =>
                   if (400 <=? statusCode state)%Z then wrap64 (count + 1) else count)
        stats 0%Z in
    PrimFloat.div (float64 errorCount) (float64 (Z.of_nat (length stats))).

Section Clock.
(** The instant the [n]-th reading of the clock gives. *)
Variable now : nat -> Time.

(** [time.Now()] and [time.Since(t)] *)
Definition Now : M Time := fun s =>
  (Ok (now (ticks s)), mkState (recorder s) (S (ticks s))).

Definition Since (t : Time) : M Duration :=
  n ← Now; mret (Sub n t).

(** The loop over the window: a state stays when it is younger than the
    window at the instant it is looked at. *)
Fixpoint prune (windowSize : Duration) (states : list responseState)
    : M (list responseState) :=
  match states with
  | [] => mret []
  | state :: rest =>
      age ← Since (timeStamp state);
      kept ← prune windowSize rest;
      mret (if (age <? windowSize)%Z then state :: kept else kept)
  end.

Definition AddResponse (responseTime : Duration) (statusCode : Z) : M unit :=
  t ← gets recorder;
  when (firstRequest t =? zeroTime)%Z
    (n ← Now;
     update (fun t => mkStatRecorder n (windowSize t) (responseWindow t)
                        (requestCount t) (avgResponseTime t)));;
  update (fun t => mkStatRecorder (firstRequest t) (windowSize t) (responseWindow t)
                     (wrap64 (requestCount t + 1)) (avgResponseTime t));;
  t ← gets recorder;
  avg ← lift (div64
                (wrap64 (wrap64 (avgResponseTime t * wrap64 (requestCount t - 1))
                         + responseTime))
                (requestCount t));
  update (fun t => mkStatRecorder (firstRequest t) (windowSize t) (responseWindow t)
                     (requestCount t) avg);;
  newWindow ← prune (windowSize t) (responseWindow t);
  n ← Now;
  update (fun t => mkStatRecorder (firstRequest t) (windowSize t)
                     (newWindow ++ [mkResponseState responseTime statusCode n])
                     (requestCount t) (avgResponseTime t)).

Definition GetStat : M TargetStats :=
  t ← gets recorder;
  newWindow ← prune (windowSize t) (responseWindow t);
  update (fun t => mkStatRecorder (firstRequest t) (windowSize t) newWindow
                     (requestCount t) (avgResponseTime t));;
  t ← gets recorder;
  mret (mkTargetStats (firstRequest t) (requestCount t) (avgResponseTime t)
          (windowSize t) (getAvgResponseTime newWindow) (Z.of_nat (length newWindow))
          (getRequestRate newWindow) (getErrorRate newWindow)).

(** A caller recording one response after another. *)
Fixpoint AddResponses (responses : list (Duration * Z)) : M unit :=
  match responses with
  | [] => mret tt
  | (responseTime, statusCode) :: rest =>
      AddResponse responseTime statusCode;; AddResponses rest
  end.

End Clock.
End Stats.

(** ** The recorder, for its properties *)

Module StatsViews.
Import Time Stats.

(** The states that stay when the window is looked over from the
    [k]-th reading of the clock on. *)
Fixpoint keptFrom (now : nat -> Time) (windowSize : Duration) (k : nat)
    (states : list responseState) : list responseState :=
  match states with
  | [] => []
  | state :: rest =>
      if (Sub (now k) (timeStamp state) <? windowSize)%Z
      then state :: keptFrom now windowSize (S k) rest
      else keptFrom now windowSize (S k) rest
  end.

(** A clock that does not run backwards. *)
Definition monotone (now : nat -> Time) : Prop :=
  forall i j, (i <= j)%nat -> (now i <= now j)%Z.

Definition total (responses : list (Duration * Z)) : Z :=
  fold_right (fun r sum => (r.1 + sum)%Z) 0%Z responses.

(** A clock that advances by a millisecond from one reading to the next. *)
Definition steady (n : nat) : Time := (1700000000000000000 + Z.of_nat n * 1000000)%Z.

(** A recorder with two states in its window, after two readings of the
    clock. *)
Definition sample : State :=
  mkState (mkStatRecorder (steady 0) 2500000
             [mkResponseState 40 200 (steady 0); mkResponseState 90 502 (steady 1)] 2 65)
    2.

End StatsViews.

(** ** The headers and the answer of [RoundTrip], for their properties *)

Module HeaderDefaults.
Import Strings Http Time Compression Effects Stealth.

(** [addHeaderIfNotExists] on the header map. *)
Definition fill (key value : string) (h : Header) : Header :=
  if String.eqb (Get h key) "" then Set_ h key value else h.

(** The six canned headers of [RoundTrip], in the order of the calls. *)
Definition basicDefaults : list (string * string) :=
  [("Accept-Language", "de-DE,de;q=0.9,en-US;q=0.8,en;q=0.7"); ("Accept", "*/*");
   ("Connection", "keep-alive"); ("Cache-Control", "no-cache");
   ("Pragma", "no-cache"); ("DNT", "1")].

Definition fillAll (defaults : list (string * string)) (h : Header) : Header :=
  fold_left (fun h kv => fill kv.1 kv.2 h) defaults h.

(** The agent [RoundTrip] picks from a non-empty list. *)
Definition picked (env : Env) (agents : list string) : string :=
  nth (Z.to_nat (draw_Intn env mod Z.of_nat (length agents))) agents "".

(** The header of the request after the three steps of [RoundTrip] on it. *)
Definition defaulted (env : Env) (t : stealthTransport) (h : Header) : Header :=
  let h := match userAgents t with
           | [] => h
           | _ => fill "User-Agent" (picked env (userAgents t)) h
           end in
  let h := fillAll basicDefaults h in
  if compression t && String.eqb (Get h "Accept-Encoding") ""
  then Set_ h "Accept-Encoding" "gzip, deflate, br" else h.

(** What [RoundTrip] returns once the underlying transport answered the
    request [r]: its answer, with a compressed response decompressed when
    compression is on and the caller had no [Accept-Encoding]. *)
Definition answer `{lib : Codecs} (env : Env) (hadCompression : bool)
    (t : stealthTransport) (r : Request) : result Response :=
  match upstream env r with
  | Ok res =>
      if compression t && negb hadCompression
         && negb (String.eqb (Get (RespHeader res) "Content-Encoding") "")
      then decompressResponse res else Ok res
  | Err e => Err e
  | Panic msg => Panic msg
  end.

(** The canonical keys under which [RoundTrip] may write. *)
Definition touchedKeys : list string :=
  ["User-Agent"; "Accept-Language"; "Accept"; "Connection"; "Cache-Control"; "Pragma";
   "Dnt"; "Accept-Encoding"].

(** Consecutive instants of a log are at least [d] apart. *)
Definition spaced (d : Z) (instants : list Z) : Prop :=
  forall i a b, instants !! i = Some a -> instants !! S i = Some b -> (d <= b - a)%Z.

End HeaderDefaults.

(** ** The handler, for its properties *)

Module HandlerViews.
Import Strings Url Http Html Compression Effects Proxy.

(** A header map as [net/http] hands it over: every key in canonical
    form, under every key at least one value. *)
Definition wellFormed (h : Header) : Prop :=
  forall key values, h !! key = Some values ->
    CanonicalMIMEHeaderKey key = key /\ values <> [].

(** The line [http.Error] writes for the message [msg]. *)
Definition errorLine (msg : string) : string := msg +:+ String (ascii_of_nat 10) "".

(** What a handler leaves alone outside the response writer and the
    store of addresses. *)
Definition sameOutside (s s' : World) : Prop :=
  listeners s' = listeners s /\ dispatched s' = dispatched s.

(** The same, the response writer included. *)
Definition sameWriter (s s' : World) : Prop :=
  sameOutside s s' /\ w s' = w s.

(** The response the handler goes on with: the answer of the transport
    after the [PostRequest] hook, if there is one. *)
Definition incoming (target : Target) (answer : option Response) : option Response :=
  match PostRequest target with
  | Some hook => hook answer
  | None => answer
  end.

(** The three CORS headers, as [copyHeaders] and the preflight branch set
    them. *)
Definition withCors (h : Header) : Header :=
  Set_ (Set_ (Set_ h "Access-Control-Allow-Origin" "*")
          "Access-Control-Allow-Methods" "GET, POST, PUT, DELETE, OPTIONS")
    "Access-Control-Allow-Headers" "Content-Type, Authorization".

Definition corsKeys : list string :=
  ["Access-Control-Allow-Origin"; "Access-Control-Allow-Methods";
   "Access-Control-Allow-Headers"].

(** The Content-Length the writer reads from the header map [h] when
    the header is written: [-1] when there is none, or one it deletes. *)
Definition announced (h : Header) : Z :=
  match ParseInt (Get h "Content-Length") with
  | Some v => if (0 <=? v)%Z then v else (-1)%Z
  | None => (-1)%Z
  end.

(** The header map [h] once the header is written. *)
Definition settled (h : Header) : Header :=
  if String.eqb (Get h "Content-Length") "" || (0 <=? announced h)%Z then h
  else Del h "Content-Length".

(** The writer takes the bytes [b] as the body of a response with the
    status [code] and the header map [h]: there is nothing to take, or
    the status allows a body and the bytes do not exceed a Content-Length
    in [h]. *)
Definition accepts (code : Z) (h : Header) (b : string) : bool :=
  String.eqb b ""
  || bodyAllowedForStatus code
     && ((announced h =? -1)%Z || (Z.of_nat (String.length b) <=? announced h)%Z).

(** The body after [b] was handed to the writer. *)
Definition offered (code : Z) (h : Header) (b : string) (body : string) : string :=
  if accepts code h b then body +:+ b else body.

(** The writer after [w.WriteHeader(code)] and [w.Write(b)] on a response
    not yet begun. *)
Definition replied (code : Z) (b : string) (w : ResponseWriter) : ResponseWriter :=
  mkWriter (settled (wHeader w)) (Some code) (offered code (wHeader w) b (wBody w))
    (wInterim w) (announced (wHeader w))
    (if String.eqb b "" || negb (bodyAllowedForStatus code) then 0%Z
     else Z.of_nat (String.length b)).

(** The writer after [http.Error(w, msg, code)] on a response not yet
    begun. *)
Definition refused (msg : string) (code : Z) (w : ResponseWriter) : ResponseWriter :=
  replied code (errorLine msg)
    (with_wHeader (fun h => Set_ (Set_ h "Content-Type" "text/plain; charset=utf-8")
                              "X-Content-Type-Options" "nosniff") w).

(** An answer the client follows instead of returning it: a redirect
    with a [Location]. *)
Definition followed (answer : Response) : bool :=
  shouldRedirect (StatusCode answer)
  && negb (String.eqb (Get (RespHeader answer) "Location") "").

(** The world after the request [req] went to the transport. *)
Definition logged (req : Request) (s : World) : World :=
  mkWorld (heap s) (listeners s) (dispatched s ++ [req]) (w s).

(** The world after the headers of [resp] were added to those of the
    response under way. *)
Definition copied (resp : Response) (s : World) : World :=
  with_w (with_wHeader (addAll (RespHeader resp))) s.

(** The keys [http.Error] sets and the key the writer may delete. *)
Definition errorKeys : list string :=
  ["Content-Type"; "X-Content-Type-Options"; "Content-Length"].

(** The options the package exports. *)
Inductive exported : ProxyOption -> Prop :=
  | exported_ssl c : exported (WithSsl c)
  | exported_transport tr : exported (WithTransport tr)
  | exported_port n : exported (WithPort n).

(** The scheme [NewProxy] gives the address. *)
Definition schemeOf (p : Proxy) : string :=
  if bool_decide (is_Some (cert p)) then "https" else "http".

(** A document without the values of its [href] and [src] attributes:
    tags, attribute keys in their order, the other values, text and
    structure. *)
Definition blank (a : Attribute) : Attribute :=
  if String.eqb a.1 "href" || String.eqb a.1 "src" then (a.1, "") else a.

Fixpoint outline (n : Node) : Node :=
  match n with
  | Other data => Other data
  | Element tag attrs children => Element tag (map blank attrs) (map outline children)
  end.

(** The handler answered the response of [s] with
    [http.Error(w, msg, code)]: the status, the line handed to the
    writer, and the type of the content. *)
Definition answeredWith (code : Z) (msg : string) (s s' : World) : Prop :=
  wStatus (w s') = Some code /\
  wBody (w s') = offered code (wHeader (w s)) (errorLine msg) (wBody (w s)) /\
  Get (wHeader (w s')) "Content-Type" = "text/plain; charset=utf-8".

End HandlerViews.

(** ** More fixtures *)

Module Samples.
Import Strings Url Http Html Compression Stealth Proxy Fixtures.

Definition getRequest : Request :=
  mkRequest "GET" (mkURL "" "" "/ex/data.json" "q=1")
    {["Accept" := ["application/json"]; "X-Trace" := ["abc"; "def"]]}
    (BodyBytes "") false.

Definition jsonResponse : Response :=
  mkResponse 200
    {["Content-Type" := ["application/json"];
      "Access-Control-Allow-Origin" := ["https://example.com"]]}
    (BodyBytes "{}") 2.

Definition identityResponse : Response :=
  mkResponse 200
    {["Content-Type" := ["application/json"]; "Content-Encoding" := ["identity"]]}
    (BodyBytes "{}") 2.

Definition gzipResponse : Response :=
  mkResponse 200
    {["Content-Type" := ["application/json"]; "Content-Encoding" := ["gzip"];
      "Content-Length" := ["3"]]}
    (BodyBytes "G{}") 3.

(** A response whose [Content-Length] is that of the encoded body the
    transport has already decoded. *)
Definition staleResponse : Response :=
  mkResponse 200
    {["Content-Type" := ["application/json"]; "Content-Length" := ["1"]]}
    (BodyBytes "{}") 2.

(** An upstream that redirects every request to [/next]. *)
Definition redirecting : Request -> result Response :=
  fun _ => Ok (mkResponse 302 {["Location" := ["/next"]]} (BodyBytes "") 0).

(** The proxy of the example with another transport. *)
Definition proxyOver (transport : Request -> result Response) : Proxy :=
  mkProxy {["/ex/" := exampleTarget]} transport 8080 (Some 0%nat) None.

Definition refusing : Request -> result Response :=
  fun _ => Err (ErrUpstream "dial tcp: connection refused").

(** Two targets under the same prefix, once without its leading slash. *)
Definition shadowed : list Target :=
  [mkTarget "https://old.example.com" "ex/" None None;
   mkTarget "https://example.com" "/ex/" None None].

Definition listenOn (bound : string) : string -> result string := fun _ => Ok bound.

End Samples.

(** * Properties *)

(** ** The codec bridge *)

Module CodecBridge.
Import Strings Http Compression.

Lemma Get_Set_eq (h : Header) key value :
  Get (Set_ h key value) key = value.
Proof. unfold Get, Set_. by rewrite lookup_insert_eq. Qed.

Lemma Del_Set_eq (h : Header) key value :
  Del (Set_ h key value) key = Del h key.
Proof. unfold Del, Set_. by rewrite delete_insert_eq. Qed.

Section Roundtrip.
Context `{lib : Codecs}.
Hypothesis gzip_lossless : lossless gzip.
Hypothesis flate_lossless : lossless flate.
Hypothesis brotli_lossless : lossless brotli.

(** C4. For each of gzip, deflate and brotli and every byte sequence
    [x], the empty one included: [compressBody] succeeds, and
    [decompressResponse] on a response that carries the compressed
    bytes under the codec's [Content-Encoding] token yields the body
    [x], removes the header and sets the length to that of [x].  The
    compression libraries enter by their contract: each reader undoes
    its writer. *)
Theorem decompress_compress_identity (enc : string) (x : string) (res : Response) :
  token enc ->
  exists y,
    compressBody x enc = Ok y /\
    decompressResponse
      (mkResponse (StatusCode res) (Set_ (RespHeader res) "Content-Encoding" enc)
         (BodyBytes y) (ContentLength res))
    = Ok (mkResponse (StatusCode res) (Del (RespHeader res) "Content-Encoding")
            (BodyBytes x) (Z.of_nat (String.length x))).
Proof using gzip_lossless flate_lossless brotli_lossless.
  intros Henc.
  destruct Henc; eexists; (split; [reflexivity |]);
    unfold decompressResponse; cbn [RespHeader RespBody StatusCode];
    rewrite Get_Set_eq, Del_Set_eq; cbn; unfold readThrough; cbn [ReadAll].
  - by rewrite gzip_lossless.
  - by rewrite flate_lossless.
  - by rewrite brotli_lossless.
Qed.

End Roundtrip.

Lemma stored_lossless tag : lossless (Fixtures.stored tag).
Proof. intros x. cbn. by rewrite Ascii.eqb_refl. Qed.

Lemma decompress_compress_identity_witness :
  token "br" /\
  exists y,
    @compressBody Fixtures.storedCodecs "" "br" = Ok y /\
    @decompressResponse Fixtures.storedCodecs
      (mkResponse 200 (Set_ ∅ "Content-Encoding" "br") (BodyBytes y) 0)
    = Ok (mkResponse 200 (Del ∅ "Content-Encoding") (BodyBytes "") 0).
Proof.
  split; [constructor |].
  apply (@decompress_compress_identity Fixtures.storedCodecs
           (stored_lossless _) (stored_lossless _) (stored_lossless _)
           "br" "" Fixtures.emptyResponse).
  constructor.
Defined.

End CodecBridge.

(** ** The stealth transport *)

Module StealthFacts.
Import Strings Http Time Compression Effects Stealth StealthSteps.

Lemma Get_first (h : Header) key : Get h key = first h (CanonicalMIMEHeaderKey key).
Proof. reflexivity. Qed.

Lemma fills_refl keys h : fills keys h h.
Proof. by split. Qed.

Lemma fills_trans keys1 keys2 (h1 h2 h3 : Header) :
  fills keys1 h1 h2 -> fills keys2 h2 h3 -> fills (keys1 ++ keys2) h1 h3.
Proof.
  intros [Hk1 Ho1] [Hk2 Ho2]. split; intros c Hc.
  - rewrite Hk2, Hk1; try done. unfold first. by rewrite Hk1.
  - apply not_elem_of_app in Hc as [??]. by rewrite Ho2, Ho1.
Qed.

Lemma fills_set_if_missing (h : Header) key value :
  fills [CanonicalMIMEHeaderKey key] h
    (if String.eqb (Get h key) "" then Set_ h key value else h).
Proof.
  destruct (String.eqb_spec (Get h key) "") as [Hget | Hget]; [| apply fills_refl].
  split; intros c Hc; unfold Set_.
  - apply lookup_insert_ne. intros <-. by rewrite <- Get_first in Hc.
  - apply lookup_insert_ne. set_solver.
Qed.

Lemma with_header_twice h h' s : with_header h' (with_header h s) = with_header h' s.
Proof. reflexivity. Qed.

Lemma with_header_same s : with_header (ReqHeader (req s)) s = s.
Proof. by destruct s as [? [] ? ? ?]. Qed.

(** Each of the three steps on the header ends without an error and
    changes the header of the request only, filling keys that had no
    value. *)
Lemma addHeaderIfNotExists_spec key value s :
  exists h', addHeaderIfNotExists key value s = (Ok (), with_header h' s) /\
             fills [CanonicalMIMEHeaderKey key] (ReqHeader (req s)) h'.
Proof.
  eexists. split; [| apply (fills_set_if_missing _ key value)].
  unfold addHeaderIfNotExists, modify. f_equal.
  destruct s as [? [] ? ? ?]; unfold with_header, with_req, set_ReqHeader; cbn.
  by destruct (_ =? _).
Qed.

Lemma setUserAgent_spec env s :
  exists h', setUserAgent env s = (Ok (), with_header h' s) /\
             fills (if userAgents (t s) is [] then [] else ["User-Agent"])
               (ReqHeader (req s)) h'.
Proof.
  unfold setUserAgent, mbind, M_bind, bind, gets.
  destruct (userAgents (t s)) as [| ua uas] eqn:Hua; cbn [length Nat.ltb Nat.leb].
  - exists (ReqHeader (req s)). rewrite with_header_same. split; [done | apply fills_refl].
  - unfold lift, Intn. destruct (Z.leb_spec (Z.of_nat (length (ua :: uas))) 0) as [Hle | _].
    { cbn [length] in Hle. lia. }
    apply addHeaderIfNotExists_spec.
Qed.

Lemma setBasicHeaders_spec s :
  exists h', setBasicHeaders s = (Ok (), with_header h' s) /\
             fills basicKeys (ReqHeader (req s)) h'.
Proof.
  unfold setBasicHeaders.
  destruct (addHeaderIfNotExists_spec "Accept-Language" "de-DE,de;q=0.9,en-US;q=0.8,en;q=0.7" s)
    as (h1 & E1 & F1).
  destruct (addHeaderIfNotExists_spec "Accept" "*/*" (with_header h1 s)) as (h2 & E2 & F2).
  destruct (addHeaderIfNotExists_spec "Connection" "keep-alive" (with_header h2 s)) as (h3 & E3 & F3).
  destruct (addHeaderIfNotExists_spec "Cache-Control" "no-cache" (with_header h3 s)) as (h4 & E4 & F4).
  destruct (addHeaderIfNotExists_spec "Pragma" "no-cache" (with_header h4 s)) as (h5 & E5 & F5).
  destruct (addHeaderIfNotExists_spec "DNT" "1" (with_header h5 s)) as (h6 & E6 & F6).
  rewrite !with_header_twice in *.
  exists h6. split.
  - unfold mbind, M_bind, bind. by rewrite E1, E2, E3, E4, E5, E6.
  - cbn [with_header with_req req set_ReqHeader ReqHeader] in *.
    exact (fills_trans _ _ _ _ _ F1 (fills_trans _ _ _ _ _ F2 (fills_trans _ _ _ _ _ F3
      (fills_trans _ _ _ _ _ F4 (fills_trans _ _ _ _ _ F5 F6))))).
Qed.

Lemma acceptCompression_spec s :
  let hadCompression := negb (String.eqb (Get (ReqHeader (req s)) "Accept-Encoding") "") in
  exists h', acceptCompression s = (Ok hadCompression, with_header h' s) /\
             fills ["Accept-Encoding"] (ReqHeader (req s)) h' /\
             (hadCompression = true -> h' = ReqHeader (req s)).
Proof.
  intros had. unfold acceptCompression, mbind, M_bind, bind, gets, when.
  fold had.
  destruct (compression (t s) && negb had) eqn:Hc; cbn.
  - eexists. split; [reflexivity |]. split.
    + pose proof (fills_set_if_missing (ReqHeader (req s)) "Accept-Encoding" "gzip, deflate, br") as F.
      destruct had eqn:Hhad; [by rewrite andb_false_r in Hc |].
      subst had. apply negb_false_iff in Hhad. by rewrite Hhad in F.
    + intros ->. by rewrite andb_false_r in Hc.
  - exists (ReqHeader (req s)). rewrite with_header_same.
    split; [done |]. split; [apply fills_refl | done].
Qed.

(** Membership of a key in a concrete list of keys is refuted by
    comparing the strings. *)
Ltac not_in_keys :=
  let H := fresh in
  intros H; cbn in H;
  repeat (apply elem_of_cons in H as [H | H]; [discriminate H |]);
  by apply elem_of_nil in H.

Section Facts.
Context `{lib : Codecs}.
Variable env : Env.

(** [RoundTrip] is its three steps on the header followed by the rest. *)
Lemma RoundTrip_headers s :
  let hadCompression := negb (String.eqb (Get (ReqHeader (req s)) "Accept-Encoding") "") in
  exists h',
    RoundTrip env s = afterHeaders env hadCompression (with_header h' s) /\
    fills ((if userAgents (t s) is [] then [] else ["User-Agent"])
             ++ basicKeys ++ ["Accept-Encoding"]) (ReqHeader (req s)) h'.
Proof.
  intros had.
  destruct (setUserAgent_spec env s) as (h1 & E1 & F1).
  destruct (setBasicHeaders_spec (with_header h1 s)) as (h2 & E2 & F2).
  destruct (acceptCompression_spec (with_header h2 s)) as (h3 & E3 & F3 & _).
  rewrite !with_header_twice in *.
  cbn [with_header with_req req set_ReqHeader ReqHeader t] in *.
  assert (h2 !! "Accept-Encoding" = ReqHeader (req s) !! "Accept-Encoding") as Hae.
  { destruct F1 as [_ F1], F2 as [_ F2]. rewrite F2, F1; [done | |].
    - destruct (userAgents (t s)); not_in_keys.
    - not_in_keys. }
  exists h3. split.
  - unfold RoundTrip, afterHeaders, mbind, M_bind, bind. rewrite E1, E2, E3.
    unfold had, Get. change (CanonicalMIMEHeaderKey "Accept-Encoding") with "Accept-Encoding".
    by rewrite Hae.
  - exact (fills_trans _ _ _ _ _ F1 (fills_trans _ _ _ _ _ F2 F3)).
Qed.

(** The two ways through the SOCKS5 step. *)
Lemma initSocks5_skip s :
  socks5Proxy (t s) = "" \/ socks5Initialized (t s) = true ->
  initSocks5 env s = (Ok (), s).
Proof.
  intros H. unfold initSocks5, mbind, M_bind, bind, gets.
  destruct H as [-> | ->]; [done |]. by rewrite andb_false_r.
Qed.

Lemma initSocks5_attempt s :
  socks5Proxy (t s) <> "" -> socks5Initialized (t s) = false ->
  initSocks5 env s =
    match SOCKS5 env (socks5Proxy (t s)) (socksAuth (t s)) with
    | Ok d =>
        match Transport (t s) with
        | HttpTransport _ => (Ok (), with_t (installed d) (counted s))
        | OtherRoundTripper =>
            (Panic "interface conversion: http.RoundTripper is not *http.Transport",
             counted s)
        end
    | Err e => (Err (ErrSocks5Init e), counted s)
    | Panic msg => (Panic msg, counted s)
    end.
Proof.
  intros Hp Hi. unfold initSocks5, mbind, M_bind, bind, gets.
  apply String.eqb_neq in Hp. rewrite Hp, Hi. cbn.
  destruct (SOCKS5 env _ _); [| done | done].
  by destruct (Transport (t s)).
Qed.

(** The pacing step, case by case. *)
Lemma delay_cases s :
  delay env s =
    if (0 <? minDelay (t s))%Z && (0 <? maxDelay (t s))%Z then
      match Int63n (draw_Int63n env) (wrap64 (maxDelay (t s) - minDelay (t s))) with
      | Ok n =>
          let wantDelay := wrap64 (n + minDelay (t s)) in
          let actualDelay := Sub (clock s) (lastRequest (t s)) in
          (Ok (), if (actualDelay <? wantDelay)%Z
                  then slept env (wrap64 (wantDelay - actualDelay)) s else s)
      | Err e => (Err e, s)
      | Panic msg => (Panic msg, s)
      end
    else (Ok (), s).
Proof.
  unfold delay, mbind, M_bind, bind, gets, lift, when.
  destruct (_ && _); [| done].
  destruct (Int63n _ _); [| done | done].
  cbn zeta. by destruct (_ <? _)%Z.
Qed.

(** [delay] changes the clock only. *)
Lemma delay_frame s :
  exists c, (delay env s).2 = mkState (t s) (req s) c (sent s) (socks5Calls s).
Proof.
  rewrite delay_cases.
  destruct (_ && _); [| exists (clock s); by destruct s].
  destruct (Int63n _ _); try (exists (clock s); by destruct s).
  cbn zeta. unfold slept. destruct (_ <? _)%Z; [| exists (clock s); by destruct s].
  destruct (_ <=? _)%Z; [exists (clock s); by destruct s |]. by eexists.
Qed.

Lemma dispatch_eq s : dispatch env s = (upstream env (req s), dispatchedAt s).
Proof. reflexivity. Qed.

Lemma decompress_state had res s : (decompress had res s).2 = s.
Proof.
  unfold decompress, mbind, M_bind, bind, gets, lift.
  by destruct (_ && _).
Qed.

Lemma decompress_had res s : decompress true res s = (Ok res, s).
Proof.
  unfold decompress, mbind, M_bind, bind, gets.
  by rewrite andb_false_r.
Qed.

(** After the SOCKS5 step nothing touches the request, the SOCKS5 fields
    or the options; a request is dispatched at most once, with the instant
    noted, and a caller that had its own [Accept-Encoding] gets what the
    underlying transport returned. *)
Lemma afterInit_spec had s :
  let r := (afterInit env had s).1 in
  let s' := (afterInit env had s).2 in
  req s' = req s /\ socks5Calls s' = socks5Calls s /\
  socks5Initialized (t s') = socks5Initialized (t s) /\
  Transport (t s') = Transport (t s) /\
  socks5Proxy (t s') = socks5Proxy (t s) /\
  ((sent s' = sent s /\ forall res, r <> Ok res) \/
   (sent s' = sent s ++ [(clock s', req s)] /\ lastRequest (t s') = clock s' /\
    (had = true -> r = upstream env (req s)))).
Proof.
  unfold afterInit, mbind, M_bind, bind.
  destruct (delay_frame s) as (c & E).
  destruct (delay env s) as [[[] | e | msg] s1]; cbn [snd] in E; subst s1; cbn [fst snd].
  - rewrite dispatch_eq.
    destruct (upstream env _) as [res | e | msg] eqn:Hup; cbn [req fst snd].
    + destruct (decompress had res _) as [r s2] eqn:Hd.
      pose proof (f_equal snd Hd) as Hs. rewrite decompress_state in Hs.
      cbn [snd fst] in *. subst s2. cbn.
      repeat split; try done. right. repeat split; try done.
      intros ->. rewrite decompress_had in Hd. by inversion Hd.
    + cbn. repeat split; try done. right. by repeat split.
    + cbn. repeat split; try done. right. by repeat split.
  - cbn. repeat split; try done. by left.
  - cbn. repeat split; try done. by left.
Qed.

(** The SOCKS5 step leaves the request, the clock and the log alone. *)
Lemma initSocks5_frame s :
  let s' := (initSocks5 env s).2 in
  req s' = req s /\ sent s' = sent s /\ clock s' = clock s /\
  socks5Proxy (t s') = socks5Proxy (t s).
Proof.
  destruct (decide (socks5Proxy (t s) = "")) as [Hp | Hp].
  { rewrite initSocks5_skip by auto. done. }
  destruct (socks5Initialized (t s)) eqn:Hi.
  { rewrite initSocks5_skip by auto. done. }
  rewrite initSocks5_attempt by done.
  destruct (SOCKS5 env _ _); [| done | done]. by destruct (Transport (t s)).
Qed.

(** C8. A caller's non-empty [User-Agent] is never overwritten, whatever
    the configured list of agents; and with an empty list the
    [User-Agent] entry of the header is left as it is, present or not.
    This holds for the request when [RoundTrip] ends, however it ends, and
    for the request handed to the underlying transport. *)
Theorem user_agent_kept s :
  Get (ReqHeader (req s)) "User-Agent" <> "" \/ userAgents (t s) = [] ->
  let s' := (RoundTrip env s).2 in
  ReqHeader (req s') !! "User-Agent" = ReqHeader (req s) !! "User-Agent" /\
  (sent s' = sent s \/ exists now, sent s' = sent s ++ [(now, req s')]).
Proof.
  intros Hua. destruct (RoundTrip_headers s) as (h' & -> & [Hkeep Honly]).
  unfold afterHeaders, mbind, M_bind, bind.
  pose proof (initSocks5_frame (with_header h' s)) as (Hreq1 & Hsent1 & _).
  destruct (initSocks5 env _) as [[[] | e | msg] s1]; cbn [fst snd] in *.
  2, 3: rewrite Hreq1, Hsent1; cbn; split; [| by left].
  1: pose proof (afterInit_spec true s1) as (Hreq2 & _ & _ & _ & _ & Hsent2);
     pose proof (afterInit_spec false s1) as (Hreq3 & _ & _ & _ & _ & Hsent3);
     destruct (negb _); [rewrite Hreq2 | rewrite Hreq3]; rewrite Hreq1; cbn; split.
  all: try (destruct Hua as [Hne | Hnil];
            [ apply Hkeep; by rewrite Get_first in Hne
            | apply Honly; rewrite Hnil; not_in_keys ]).
  - destruct Hsent2 as [[-> _] | (-> & _)]; rewrite Hsent1; cbn; [by left | right].
    eexists. by rewrite Hreq1.
  - destruct Hsent3 as [[-> _] | (-> & _)]; rewrite Hsent1; cbn; [by left | right].
    eexists. by rewrite Hreq1.
Qed.

(** C7. When the request arrives with a non-empty [Accept-Encoding], the
    transport neither replaces nor adds that header, and what it returns
    is what the underlying transport returned for the request, response
    or error, with nothing decompressed; this does not depend on whether
    compression is enabled.  (When the SOCKS5 step or the pacing step ends
    the call, nothing is dispatched.) *)
Theorem accept_encoding_respected s :
  Get (ReqHeader (req s)) "Accept-Encoding" <> "" ->
  let r := (RoundTrip env s).1 in
  let s' := (RoundTrip env s).2 in
  ReqHeader (req s') !! "Accept-Encoding" = ReqHeader (req s) !! "Accept-Encoding" /\
  ((sent s' = sent s /\ forall res, r <> Ok res) \/
   (exists now, sent s' = sent s ++ [(now, req s')]) /\ r = upstream env (req s')).
Proof.
  intros Hae. destruct (RoundTrip_headers s) as (h' & -> & [Hkeep _]).
  apply String.eqb_neq in Hae as Hae'. rewrite Hae'. cbn [negb].
  unfold afterHeaders, mbind, M_bind, bind.
  pose proof (initSocks5_frame (with_header h' s)) as (Hreq1 & Hsent1 & _).
  destruct (initSocks5 env _) as [[[] | e | msg] s1]; cbn [fst snd] in *.
  2, 3: rewrite Hreq1, Hsent1; cbn; split;
        [apply Hkeep; by rewrite Get_first in Hae | by left].
  pose proof (afterInit_spec true s1) as (Hreq2 & _ & _ & _ & _ & Hsent2).
  rewrite Hreq2, Hreq1. cbn. split; [apply Hkeep; by rewrite Get_first in Hae |].
  destruct Hsent2 as [[-> Hno] | (-> & _ & Hr)]; rewrite Hsent1; cbn; [by left | right].
  rewrite Hr, Hreq1 by done. split; [by eexists | done].
Qed.

(** Once the flag is set, no call constructs a dialer again. *)
Lemma initialized_stays s :
  socks5Initialized (t s) = true ->
  let s' := (RoundTrip env s).2 in
  socks5Initialized (t s') = true /\ socks5Calls s' = socks5Calls s /\
  Transport (t s') = Transport (t s).
Proof.
  intros Hi. destruct (RoundTrip_headers s) as (h' & -> & _).
  unfold afterHeaders, mbind, M_bind, bind.
  rewrite initSocks5_skip by (right; exact Hi).
  pose proof (afterInit_spec true (with_header h' s)) as (_ & Hc2 & Hi2 & Ht2 & _).
  pose proof (afterInit_spec false (with_header h' s)) as (_ & Hc3 & Hi3 & Ht3 & _).
  destruct (negb _); cbn in *; by rewrite ?Hc2, ?Hi2, ?Ht2, ?Hc3, ?Hi3, ?Ht3.
Qed.

End Facts.

Lemma initialized_forever `{lib : Codecs} calls s :
  socks5Initialized (t s) = true ->
  socks5Initialized (t (RoundTrips calls s)) = true /\
  socks5Calls (RoundTrips calls s) = socks5Calls s.
Proof.
  revert s. induction calls as [| [[env r] pause] calls IH]; intros s Hi; [done |].
  cbn [RoundTrips].
  pose proof (initialized_stays env
                (mkState (t s) r (clock s + pause)%Z (sent s) (socks5Calls s)) Hi)
    as (Hi' & Hc' & _).
  destruct (IH _ Hi') as (? & ->). by rewrite Hc'.
Qed.

Section Socks5.
Context `{lib : Codecs}.
Variable env : Env.

(** C6. The SOCKS5 dialer is constructed at most once per success.  With
    the flag set, a call constructs nothing and leaves the flag set, and so
    does every later call.  With an address configured and the flag unset,
    the call constructs a dialer (once); when the construction succeeds,
    the dialer is installed in the [*http.Transport] and the flag is set,
    so that no later call constructs one; when it fails, the flag stays
    unset and the address stays, so that the next call constructs again,
    and the call ends with the initialization error and no dispatch. *)
Theorem socks5_initialized_once s :
  let r := (RoundTrip env s).1 in
  let s' := (RoundTrip env s).2 in
  (socks5Initialized (t s) = true ->
   socks5Initialized (t s') = true /\ socks5Calls s' = socks5Calls s /\
   forall calls, socks5Calls (RoundTrips calls s') = socks5Calls s) /\
  (socks5Proxy (t s) <> "" -> socks5Initialized (t s) = false ->
   socks5Calls s' = S (socks5Calls s) /\
   (forall d dial,
      SOCKS5 env (socks5Proxy (t s)) (socksAuth (t s)) = Ok d ->
      Transport (t s) = HttpTransport dial ->
      socks5Initialized (t s') = true /\
      Transport (t s') = HttpTransport (Some d) /\
      forall calls, socks5Calls (RoundTrips calls s') = S (socks5Calls s)) /\
   (forall e,
      SOCKS5 env (socks5Proxy (t s)) (socksAuth (t s)) = Err e ->
      r = Err (ErrSocks5Init e) /\
      socks5Initialized (t s') = false /\ socks5Proxy (t s') = socks5Proxy (t s) /\
      sent s' = sent s)).
Proof.
  split.
  - intros Hi. destruct (initialized_stays env s Hi) as (Hi' & Hc' & _).
    repeat split; try done. intros calls.
    destruct (initialized_forever calls _ Hi') as (_ & ->). done.
  - intros Hp Hi. cbn zeta.
    destruct (RoundTrip_headers env s) as (h' & -> & _).
    unfold afterHeaders, mbind, M_bind, bind.
    rewrite (initSocks5_attempt env (with_header h' s)) by done.
    cbn [with_header with_req t socksAuth].
    destruct (SOCKS5 env _ _) as [d | e | msg].
    + destruct (Transport (t s)) as [dial |] eqn:Ht.
      * set (s1 := with_t _ _).
        pose proof (afterInit_spec env true s1) as (_ & Hc2 & Hi2 & Ht2 & _).
        pose proof (afterInit_spec env false s1) as (_ & Hc3 & Hi3 & Ht3 & _).
        assert (socks5Calls (afterInit env
                  (negb (Get (ReqHeader (req s)) "Accept-Encoding" =? "")) s1).2
                  = S (socks5Calls s) /\
                socks5Initialized (t (afterInit env
                  (negb (Get (ReqHeader (req s)) "Accept-Encoding" =? "")) s1).2) = true /\
                Transport (t (afterInit env
                  (negb (Get (ReqHeader (req s)) "Accept-Encoding" =? "")) s1).2)
                  = HttpTransport (Some d)) as (Hc & Hi' & Ht').
        { destruct (negb _); by rewrite ?Hc2, ?Hi2, ?Ht2, ?Hc3, ?Hi3, ?Ht3. }
        destruct (afterInit env _ s1) as [r2 s2]. cbn [fst snd] in *.
        split; [done |]. split; [| intros e [=]].
        intros d0 dial0 [= <-] _. repeat split; try done.
        intros calls. destruct (initialized_forever calls _ Hi') as (_ & ->). done.
      * cbn. split; [done |]. split; [intros ? ? _ [=] | intros ? [=]].
    + cbn. split; [done |]. split; [intros ? ? [=] |]. intros e0 [= <-]. by rewrite Hi.
    + cbn. split; [done |]. split; [intros ? ? [=] | intros ? [=]].
Qed.

End Socks5.
Lemma wrap64_small z : (minInt64 <= z <= maxInt64)%Z -> wrap64 z = z.
Proof.
  unfold wrap64, minInt64, maxInt64. intros H.
  rewrite Z.mod_small by lia. lia.
Qed.

Section Pacing.
Context `{lib : Codecs}.
Variable env : Env.

(** With equal non-zero delays the bound handed to [rand.Int63n] is zero,
    and the call panics. *)
Lemma delay_equal_panics s :
  (0 < minDelay (t s))%Z -> maxDelay (t s) = minDelay (t s) ->
  delay env s = (Panic "invalid argument to Int63n", s).
Proof.
  intros Hmin Hmax. rewrite delay_cases, Hmax.
  destruct (Z.ltb_spec 0 (minDelay (t s))) as [_ | ?]; [| lia]. cbn [andb].
  by rewrite Z.sub_diag.
Qed.

(** C1. A transport built with [WithDelay(time.Second, time.Second)] does
    not pace its requests: every [RoundTrip] panics in the pacing step,
    in [rand.Int63n(0)], and nothing is dispatched. *)
Theorem equal_delays_panic (r : Request) (now : Z) (log : list (Z * Request)) (n : nat) :
  let s := mkState (NewStealthTransport [WithDelay Second Second]) r now log n in
  (RoundTrip env s).1 = Panic "invalid argument to Int63n" /\
  sent (RoundTrip env s).2 = log.
Proof.
  cbn zeta. set (s := mkState _ _ _ _ _).
  destruct (RoundTrip_headers env s) as (h' & -> & _).
  unfold afterHeaders, mbind, M_bind, bind.
  rewrite initSocks5_skip by (by left).
  unfold afterInit, mbind, M_bind, bind.
  by rewrite delay_equal_panics.
Qed.

(** With [0 < minDelay < maxDelay] the pacing step ends with the clock at
    least [minDelay] after the last dispatch. *)
Lemma delay_paces s :
  (0 < minDelay (t s) < maxDelay (t s))%Z -> (maxDelay (t s) <= maxInt64)%Z ->
  (0 <= oversleep env)%Z -> (lastRequest (t s) <= clock s)%Z ->
  exists now,
    delay env s = (Ok (), mkState (t s) (req s) now (sent s) (socks5Calls s)) /\
    (minDelay (t s) <= now - lastRequest (t s))%Z /\ (clock s <= now)%Z.
Proof.
  intros [Hmin Hlt] Hmax Hover Hmono. rewrite delay_cases.
  destruct (Z.ltb_spec 0 (minDelay (t s))) as [_ | ?]; [| lia].
  destruct (Z.ltb_spec 0 (maxDelay (t s))) as [_ | ?]; [| lia]. cbn [andb].
  assert (Hb : (maxInt64 = 9223372036854775807)%Z) by reflexivity.
  assert (Hb' : (minInt64 = -9223372036854775808)%Z) by reflexivity.
  rewrite wrap64_small by lia. unfold Int63n.
  destruct (Z.leb_spec (maxDelay (t s) - minDelay (t s)) 0) as [? | _]; [lia |].
  pose proof (Z.mod_pos_bound (draw_Int63n env) (maxDelay (t s) - minDelay (t s))
                ltac:(lia)) as Hn.
  set (n := (draw_Int63n env mod (maxDelay (t s) - minDelay (t s)))%Z) in *.
  cbn zeta. rewrite (wrap64_small (n + _)) by lia.
  unfold Sub.
  destruct (Z.ltb_spec (Z.max minInt64 (Z.min maxInt64 (clock s - lastRequest (t s))))
              (n + minDelay (t s))) as [Hslp | Hno].
  - rewrite wrap64_small by lia. unfold slept.
    destruct (Z.leb_spec (n + minDelay (t s)
                - Z.max minInt64 (Z.min maxInt64 (clock s - lastRequest (t s)))) 0)
      as [? | _]; [lia |].
    eexists. split; [reflexivity |]. lia.
  - exists (clock s). split; [by destruct s |]. lia.
Qed.

(** So with [0 < minDelay < maxDelay] and no SOCKS5 address a call
    dispatches its request once, at least [minDelay] after the previous
    dispatch. *)
Lemma RoundTrip_paces s :
  (0 < minDelay (t s) < maxDelay (t s))%Z -> (maxDelay (t s) <= maxInt64)%Z ->
  (0 <= oversleep env)%Z -> (lastRequest (t s) <= clock s)%Z ->
  socks5Proxy (t s) = "" ->
  let s' := (RoundTrip env s).2 in
  sent s' = sent s ++ [(lastRequest (t s'), req s')] /\
  (minDelay (t s) <= lastRequest (t s') - lastRequest (t s))%Z.
Proof.
  intros Hd Hmax Hover Hmono Hp.
  destruct (RoundTrip_headers env s) as (h' & -> & _).
  unfold afterHeaders, mbind, M_bind, bind.
  rewrite initSocks5_skip by (by left).
  unfold afterInit, mbind, M_bind, bind.
  destruct (delay_paces (with_header h' s) Hd Hmax Hover Hmono) as (now & -> & Hnow & _).
  rewrite dispatch_eq.
  destruct (upstream env _) as [res | e | msg]; cbn [fst snd req].
  - pose proof (decompress_state
                 (negb (Get (ReqHeader (req s)) "Accept-Encoding" =? "")) res) as Hs.
    destruct (decompress _ res _) as [r2 s2] eqn:Hd2.
    specialize (Hs (dispatchedAt
      {| t := t (with_header h' s); req := req (with_header h' s); clock := now;
         sent := sent (with_header h' s); socks5Calls := socks5Calls (with_header h' s) |})).
    rewrite Hd2 in Hs. cbn [snd] in Hs. subst s2. by cbn.
  - by cbn.
  - by cbn.
Qed.

End Pacing.
Section Witnesses.
Import Fixtures.
#[local] Existing Instance storedCodecs.

Lemma user_agent_kept_witness :
  let s := call (NewStealthTransport [WithUserAgents ["Mozilla/5.0"; "Opera/9.80"]])
             (get {["User-Agent" := ["curl/8.4"]]}) in
  (Get (ReqHeader (req s)) "User-Agent" <> "" \/ userAgents (t s) = []) /\
  ReqHeader (req (RoundTrip plainEnv s).2) !! "User-Agent" = Some ["curl/8.4"].
Proof.
  cbn zeta.
  assert (Hua : Get (ReqHeader (req (call
              (NewStealthTransport [WithUserAgents ["Mozilla/5.0"; "Opera/9.80"]])
              (get {["User-Agent" := ["curl/8.4"]]})))) "User-Agent" <> "")
    by (vm_compute; discriminate).
  split; [by left |].
  pose proof (proj1 (user_agent_kept plainEnv _ (or_introl Hua))) as H.
  rewrite H. reflexivity.
Defined.

Lemma accept_encoding_respected_witness :
  let s := call (NewStealthTransport [WithCompression])
             (get {["Accept-Encoding" := ["identity"]]}) in
  Get (ReqHeader (req s)) "Accept-Encoding" <> "" /\
  ReqHeader (req (RoundTrip plainEnv s).2) !! "Accept-Encoding" = Some ["identity"].
Proof.
  cbn zeta.
  assert (Hae : Get (ReqHeader (req (call (NewStealthTransport [WithCompression])
             (get {["Accept-Encoding" := ["identity"]]})))) "Accept-Encoding" <> "")
    by (vm_compute; discriminate).
  split; [exact Hae |].
  pose proof (proj1 (accept_encoding_respected plainEnv _ Hae)) as H.
  rewrite H. reflexivity.
Defined.

Lemma socks5_initialized_once_witness :
  let s := call (NewStealthTransport [WithSocks5 "127.0.0.1:9090" None]) (get ∅) in
  (socks5Proxy (t s) <> "" /\ socks5Initialized (t s) = false) /\
  (socks5Initialized (t (RoundTrip plainEnv s).2) = true /\
   Transport (t (RoundTrip plainEnv s).2)
     = HttpTransport (Some (mkDialer "127.0.0.1:9090" None)) /\
   forall calls, socks5Calls (RoundTrips calls (RoundTrip plainEnv s).2) = 1%nat) /\
  ((RoundTrip brokenSocksEnv s).1 = Err (ErrSocks5Init (ErrOther "socks5: unreachable")) /\
   socks5Initialized (t (RoundTrip brokenSocksEnv s).2) = false /\
   socks5Proxy (t (RoundTrip brokenSocksEnv s).2) = "127.0.0.1:9090" /\
   sent (RoundTrip brokenSocksEnv s).2 = []).
Proof.
  cbn zeta.
  set (s := call (NewStealthTransport [WithSocks5 "127.0.0.1:9090" None]) (get ∅)).
  assert (Hp : socks5Proxy (t s) <> "") by (vm_compute; discriminate).
  assert (Hi : socks5Initialized (t s) = false) by reflexivity.
  split; [done |].
  pose proof (proj2 (socks5_initialized_once plainEnv s) Hp Hi) as (_ & Hok & _).
  pose proof (proj2 (socks5_initialized_once brokenSocksEnv s) Hp Hi) as (_ & _ & Herr).
  split.
  - apply (Hok (mkDialer "127.0.0.1:9090" None) None); reflexivity.
  - apply (Herr (ErrOther "socks5: unreachable")). reflexivity.
Defined.

End Witnesses.

End StealthFacts.

(** ** The link rewriting of [copyBody] *)

Module RewritingFacts.
Import Strings Internal Url Http Html Effects Proxy Rewriting.

(** Induction on documents: the children of an element satisfy the
    property. *)
Lemma Node_ind (P : Node -> Prop) :
  (forall data, P (Other data)) ->
  (forall tag attrs children, Forall P children -> P (Element tag attrs children)) ->
  forall n, P n.
Proof.
  intros Hother Helem. fix IH 1. intros [tag attrs children | data]; [| apply Hother].
  apply Helem. induction children as [| c cs IHcs]; constructor; [apply IH | apply IHcs].
Qed.

Lemma Attr_SetAttr_eq attrs k v v' : Attr attrs k = Some v' -> Attr (SetAttr attrs k v) k = Some v.
Proof.
  induction attrs as [| [k0 v0] attrs IH]; cbn; [done |].
  destruct (String.eqb_spec k0 k) as [-> | Hne]; cbn.
  - by rewrite String.eqb_refl.
  - intros H. apply String.eqb_neq in Hne. rewrite Hne. by apply IH.
Qed.

Lemma Attr_SetAttr_ne attrs k k' v : k <> k' -> Attr (SetAttr attrs k v) k' = Attr attrs k'.
Proof.
  intros Hne. induction attrs as [| [k0 v0] attrs IH]; cbn.
  - apply String.eqb_neq in Hne. by rewrite Hne.
  - destruct (String.eqb_spec k0 k) as [-> | Hne0]; cbn.
    + apply String.eqb_neq in Hne. by rewrite Hne.
    + by rewrite IH.
Qed.

Lemma SetAttr_same attrs k v : Attr attrs k = Some v -> SetAttr attrs k v = attrs.
Proof.
  induction attrs as [| [k0 v0] attrs IH]; cbn; [done |].
  destruct (String.eqb_spec k0 k) as [-> | Hne]; [by intros [= ->] |].
  intros H. by rewrite IH.
Qed.

Lemma Attr_mapAttr_ne f attrs k k' : k <> k' -> Attr (mapAttr f k attrs) k' = Attr attrs k'.
Proof.
  intros Hne. unfold mapAttr. destruct (Attr attrs k); [| done].
  by apply Attr_SetAttr_ne.
Qed.

Lemma Attr_mapAttr_eq f attrs k : Attr (mapAttr f k attrs) k = f <$> Attr attrs k.
Proof.
  unfold mapAttr. destruct (Attr attrs k) as [v |] eqn:E; cbn; [| done].
  by apply Attr_SetAttr_eq with v.
Qed.

Lemma set_Path_same u : set_Path (Path u) u = u.
Proof. by destruct u. Qed.

Lemma assigned_app l ps qs s : assigned l (ps ++ qs) s = assigned l qs (assigned l ps s).
Proof. apply fold_left_app. Qed.

Lemma last_cons {A} (x d d' : A) xs : List.last (x :: xs) d = List.last xs x.
Proof.
  revert x d. induction xs as [| y ys IH]; intros x d; [done |].
  change (List.last (y :: ys) d = List.last (y :: ys) x). by rewrite !IH.
Qed.

Lemma assigned_cons l path paths s :
  assigned l (path :: paths) s = assigned l paths (with_heap (alter (set_Path path) l) s).
Proof. reflexivity. Qed.

(** The assignments change the cell behind [l] only, and only its path. *)
Lemma assigned_heap l paths s u x :
  heap s !! l = Some (set_Path x u) ->
  heap (assigned l paths s) = <[l := set_Path (List.last paths x) u]> (heap s).
Proof.
  revert s x. induction paths as [| path paths IH]; intros s x Hl.
  - cbn. by rewrite insert_id.
  - rewrite assigned_cons, (IH _ path).
    + cbn [with_heap heap]. by rewrite insert_alter_eq, (last_cons path x x).
    + cbn. rewrite lookup_alter_eq, Hl. done.
Qed.

Lemma assigned_frame l paths s :
  listeners (assigned l paths s) = listeners s /\
  dispatched (assigned l paths s) = dispatched s /\
  w (assigned l paths s) = w s.
Proof.
  revert s. induction paths as [| path paths IH]; intros s; [done |].
  rewrite assigned_cons.
  destruct (IH (with_heap (alter (set_Path path) l) s)) as (-> & -> & ->). done.
Qed.

Lemma assigned_cell l paths s u x :
  heap s !! l = Some (set_Path x u) ->
  heap (assigned l paths s) !! l = Some (set_Path (List.last paths x) u).
Proof. intros H. rewrite (assigned_heap _ _ _ _ _ H). apply lookup_insert_eq. Qed.


Section Loop.
Variables (p : Proxy) (target : Target) (l : loc) (u : URL).
Hypothesis addr_p : addr p = Some l.

Lemma load_cell s x : heap s !! l = Some x -> load (Some l) s = (Ok x, s).
Proof. intros H. unfold load. cbn. by rewrite H. Qed.

Lemma store_cell s x f :
  heap s !! l = Some x ->
  store (Some l) f s = (Ok (), with_heap (alter f l) s).
Proof.
  intros H. unfold store, mbind, M_bind, bind. rewrite (load_cell _ _ H).
  unfold modify. f_equal. unfold with_heap. by rewrite (alter_alt_Some _ _ _ _ H).
Qed.

Lemma rewriteAttr_spec attr attrs s x :
  heap s !! l = Some (set_Path x u) ->
  rewriteAttr p target attr attrs s =
    (Ok (mapAttr (codeValue u target) attr attrs),
     assigned l (map (joined target) (option_list (Attr attrs attr))) s).
Proof using addr_p.
  intros Hl. unfold rewriteAttr, mapAttr. rewrite addr_p.
  destruct (Attr attrs attr) as [val |] eqn:Hval; [| done].
  unfold mbind, M_bind, bind. rewrite (store_cell _ _ _ Hl). cbn [option_list map assigned fold_left].
  unfold codeValue. fold (joined target val).
  destruct (HasPrefix val "/" || HasPrefix val (BaseUrl target)).
  - erewrite load_cell; [done |]. cbn. by rewrite lookup_alter_eq, Hl.
  - by rewrite (SetAttr_same _ _ _ Hval).
Qed.

Lemma rewriteElement_spec attrs s x :
  heap s !! l = Some (set_Path x u) ->
  rewriteElement p target attrs s =
    (Ok (mapAttr (codeValue u target) "src" (mapAttr (codeValue u target) "href" attrs)),
     assigned l (map (joined target) (examinedAttrs attrs)) s).
Proof using addr_p.
  intros Hl. unfold rewriteElement, mbind, M_bind, bind.
  rewrite (rewriteAttr_spec _ _ _ _ Hl).
  erewrite rewriteAttr_spec; [| by eapply assigned_cell].
  rewrite Attr_mapAttr_ne by done.
  unfold examinedAttrs. by rewrite map_app, assigned_app.
Qed.

Lemma forEach_spec (nodes : list Node) :
  Forall (fun n => forall s x,
            heap s !! l = Some (set_Path x u) ->
            rewriteNode p target n s =
              (Ok (rewritten (codeValue u target) n),
               assigned l (map (joined target) (examined n)) s)) nodes ->
  forall s x,
  heap s !! l = Some (set_Path x u) ->
  forEach (rewriteNode p target) nodes s =
    (Ok (map (rewritten (codeValue u target)) nodes),
     assigned l (map (joined target) (concat (map examined nodes))) s).
Proof.
  induction 1 as [| n nodes Hn _ IH]; intros s x Hl; [done |].
  cbn [forEach]. unfold mbind, M_bind, bind.
  rewrite (Hn _ _ Hl).
  erewrite IH; [| by eapply assigned_cell].
  cbn [map concat]. by rewrite map_app, assigned_app.
Qed.

Lemma rewriteNode_spec n : forall s x,
  heap s !! l = Some (set_Path x u) ->
  rewriteNode p target n s =
    (Ok (rewritten (codeValue u target) n),
     assigned l (map (joined target) (examined n)) s).
Proof using addr_p.
  induction n as [data | tag attrs children IH] using Node_ind; intros s x Hl; [done |].
  cbn [rewriteNode rewritten examined]. unfold mbind, M_bind, bind.
  rewrite map_app, assigned_app.
  destruct (selected tag attrs).
  - rewrite (rewriteElement_spec _ _ _ Hl).
    erewrite forEach_spec; [done | done | by eapply assigned_cell].
  - cbn [mret M_ret ret]. erewrite forEach_spec; [done | done | exact Hl].
Qed.

Lemma rewriteNodes_spec nodes s x :
  heap s !! l = Some (set_Path x u) ->
  rewriteNodes p target nodes s =
    (Ok (map (rewritten (codeValue u target)) nodes),
     assigned l (map (joined target) (concat (map examined nodes))) s).
Proof using addr_p.
  apply forEach_spec, Forall_forall. intros n _. apply rewriteNode_spec.
Qed.

End Loop.


Lemma escape_plain path : plain path = true -> escape path encodePath = path.
Proof.
  unfold plain, allBytes. induction path as [| c path IH]; [done |].
  cbn [list_ascii_of_string forallb escape]. intros [Hc Hpath]%andb_true_iff.
  apply negb_true_iff in Hc. rewrite Hc. by rewrite IH.
Qed.

Lemma append_empty_r s : s +:+ "" = s.
Proof.
  induction s as [| c s IH]; [done |].
  change (String c (s +:+ "") = String c s). by f_equal.
Qed.

Lemma JoinUrl_two a b : JoinUrl [a; b] = TrimSuffix a "/" +:+ "/" +:+ TrimPrefix b "/".
Proof. reflexivity. Qed.

(** A prefix with a leading slash gives a joined path with a leading
    slash. *)
Lemma JoinUrl_rooted a b : HasPrefix a "/" = true -> HasPrefix (JoinUrl [a; b]) "/" = true.
Proof.
  rewrite JoinUrl_two. intros Ha. destruct a as [| c a]; [done |]. cbn [HasPrefix] in Ha.
  destruct (Ascii.eqb_spec "/" c) as [<- | ?]; [clear Ha | done].
  unfold TrimSuffix. destruct (HasSuffix _ _); [| reflexivity].
  cbn [String.length Nat.sub]. rewrite Nat.sub_0_r.
  destruct (String.length a); reflexivity.
Qed.

(** For a path with a leading slash and no byte to escape, the string
    form of the address with that path is the string form of the bare
    address followed by the path. *)
Lemma String_plain u path :
  Host u <> "" -> RawQuery u = "" ->
  HasPrefix path "/" = true -> plain path = true ->
  String_ (set_Path path u) = String_ (set_Path "" u) +:+ path.
Proof.
  intros Hhost Hquery Hroot Hplain.
  destruct path as [| c path]; [done |]. cbn [HasPrefix] in Hroot.
  destruct (Ascii.eqb_spec "/" c) as [<- | ?]; [clear Hroot | done].
  destruct u as [scheme host p0 query]. cbn [Host RawQuery] in *. subst query.
  unfold String_, EscapedPath. cbn [set_Path Scheme Host Path RawQuery].
  rewrite (escape_plain _ Hplain).
  apply String.eqb_neq in Hhost. rewrite Hhost.
  change (String "/" path =? "*") with false.
  change (String "/" path =? "") with false.
  change ("" =? "*") with false.
  change (escape "" encodePath) with "".
  change (HasPrefix (String "/" path) "/") with true.
  change ("" =? "") with true.
  cbn [negb orb andb].
  rewrite !orb_true_r.
  destruct scheme as [| x scheme].
  - change ("" =? "") with true. cbn [negb].
    change (("" +:+ "//") +:+ escape host encodeHost)
      with (String "/" (String "/" (escape host encodeHost))).
    change (String "/" (String "/" (escape host encodeHost)) =? "") with false.
    cbn [andb]. by rewrite append_empty_r.
  - change (String x scheme =? "") with false. cbn [negb].
    change (((String x scheme +:+ ":") +:+ "//") +:+ escape host encodeHost)
      with (String x (((scheme +:+ ":") +:+ "//") +:+ escape host encodeHost)).
    change (String x (((scheme +:+ ":") +:+ "//") +:+ escape host encodeHost) =? "")
      with false.
    cbn [andb]. by rewrite append_empty_r.
Qed.


Section CopyBody.
Variable html_Parse : string -> option Document.
Variable html_Render : Document -> option string.
Variables (p : Proxy) (target : Target) (l : loc) (u : URL).
Variables (resp : Response) (body : string) (doc : Document).
Hypothesis addr_p : addr p = Some l.
Hypothesis is_html : Contains (Get (RespHeader resp) "Content-Type") "text/html" = true.
Hypothesis body_read : ReadAll (RespBody resp) = Some body.
Hypothesis body_parsed : html_Parse body = Some doc.

Lemma copyBody_html s :
  heap s !! l = Some u ->
  copyBody html_Parse html_Render p resp target s =
    (match html_Render (map (rewritten (codeValue u target)) doc) with
     | Some newBody => Ok newBody
     | None => Err (ErrOther "error getting modified HTML content")
     end,
     assigned l (map (joined target) (examinedIn doc)) s).
Proof using addr_p is_html body_read body_parsed.
  intros Hl. unfold copyBody, readBody. rewrite is_html, body_read. cbn [negb].
  unfold mbind, M_bind, bind. cbn [mret M_ret ret]. rewrite body_parsed.
  rewrite (rewriteNodes_spec p target l u addr_p doc s (Path u))
    by (by rewrite set_Path_same).
  by destruct (html_Render _).
Qed.

(** X29. [copyBody] on an HTML response returns the print of the
    document in which, on every element matched by
    [a[href], img[src], link[href], script[src]], the value of [href] and
    of [src] is replaced by [codeValue]: a value that begins neither with
    a slash nor with the origin of the target stays as it is; any other
    value becomes the string form of the address of the proxy with the
    joined path, which is the address followed by [JoinUrl(prefix, value
    without the origin)] whenever that joined path has no byte that
    [URL.String] escapes. *)
Theorem links_rewritten s :
  heap s !! l = Some u ->
  Host u <> "" -> RawQuery u = "" -> HasPrefix (Prefix target) "/" = true ->
  (copyBody html_Parse html_Render p resp target s).1 =
    match html_Render (map (rewritten (codeValue u target)) doc) with
    | Some newBody => Ok newBody
    | None => Err (ErrOther "error getting modified HTML content")
    end /\
  forall val,
    (HasPrefix val "/" || HasPrefix val (BaseUrl target) = false ->
     codeValue u target val = val) /\
    (HasPrefix val "/" || HasPrefix val (BaseUrl target) = true ->
     codeValue u target val = String_ (set_Path (joined target val) u)) /\
    (plain (joined target val) = true ->
     codeValue u target val = specValue u target val).
Proof using addr_p is_html body_read body_parsed.
  intros Hl Hhost Hquery Hprefix. split; [by rewrite (copyBody_html _ Hl) |].
  intros val. unfold codeValue, specValue.
  destruct (HasPrefix val "/" || HasPrefix val (BaseUrl target)); repeat split; try done.
  intros Hplain. apply String_plain; try done. by apply JoinUrl_rooted.
Qed.

(** C10, amended. [copyBody] works on the address of the proxy itself:
    after it ran on an HTML document, the path of that address is the
    joined path of the last attribute value the callback examined,
    rewritten or not (and is unchanged when none was examined);
    [Proxy.Addr] then returns a string with that path; nothing else in
    the store, and no other field of the address, changes. *)
Theorem address_path_overwritten s :
  heap s !! l = Some u ->
  let s' := (copyBody html_Parse html_Render p resp target s).2 in
  let path := List.last (map (joined target) (examinedIn doc)) (Path u) in
  heap s' = <[l := set_Path path u]> (heap s) /\
  listeners s' = listeners s /\ dispatched s' = dispatched s /\ w s' = w s /\
  Addr p s' = (Ok (String_ (set_Path path u)), s').
Proof using addr_p is_html body_read body_parsed.
  intros Hl. cbn zeta. rewrite (copyBody_html _ Hl). cbn [snd].
  assert (Hl' : heap s !! l = Some (set_Path (Path u) u)) by (by rewrite set_Path_same).
  pose proof (assigned_frame l (map (joined target) (examinedIn doc)) s) as (-> & -> & ->).
  repeat split; try done.
  - by apply assigned_heap.
  - unfold Addr, mbind, M_bind, bind. rewrite addr_p.
    by rewrite (load_cell _ _ _ (assigned_cell _ _ _ _ _ Hl')).
Qed.

End CopyBody.

Section Examples.
Import Fixtures.

(** The three anchors of the example of the specification. *)
Example three_links :
  (copyExample threeLinks).1 =
    Ok ("<a href=http://localhost:8080/ex/path></a>"
        +:+ "<a href=http://localhost:8080/ex/path></a>"
        +:+ "<a href=https://other.com/x></a>").
Proof. vm_compute. reflexivity. Qed.

(** On a matched element both attributes are examined: the [href] of an
    image is rewritten like its [src]. *)
Example both_attributes_examined :
  (rewriteNodes exampleProxy exampleTarget
     [Element "img" [("src", "logo.png"); ("href", "/big")] []] exampleWorld).1
  = Ok [Element "img" [("src", "logo.png"); ("href", "http://localhost:8080/ex/big")] []].
Proof. vm_compute. reflexivity. Qed.

(** C3. A link with a query does not survive the rewriting.  The page
    [<a href=/search?q=go>] of the target [https://example.com] under
    [/ex/], served by the proxy at [http://localhost:8080], is delivered
    with [href=http://localhost:8080/ex/search%3Fq=go]: the callback puts
    the whole value into [url.Path], and [URL.String] escapes the [?].
    The claim gives the address followed by the prefix and the value,
    [http://localhost:8080/ex/search?q=go]. *)
Lemma query_link_escaped :
  (copyExample queryLink).1 = Ok "<a href=http://localhost:8080/ex/search%3Fq=go></a>" /\
  print (map (rewritten (specValue (mkURL "http" "localhost:8080" "" "") exampleTarget))
           queryLink)
  = Some "<a href=http://localhost:8080/ex/search?q=go></a>" /\
  codeValue (mkURL "http" "localhost:8080" "" "") exampleTarget "/search?q=go"
  <> specValue (mkURL "http" "localhost:8080" "" "") exampleTarget "/search?q=go".
Proof. vm_compute. repeat split; discriminate. Qed.

(** C10, as stated, fails when the last link of the document is not
    rewritten: the path of the address is the joined path of that link,
    not the one of the last rewritten link. *)
Lemma last_examined_not_last_rewritten :
  (copyExample threeLinks).1 =
    Ok ("<a href=http://localhost:8080/ex/path></a>"
        +:+ "<a href=http://localhost:8080/ex/path></a>"
        +:+ "<a href=https://other.com/x></a>") /\
  Path <$> heap (copyExample threeLinks).2 !! 0%nat = Some "/ex/https://other.com/x" /\
  joined exampleTarget "https://example.com/path" = "/ex/path" /\
  Path <$> heap (copyExample threeLinks).2 !! 0%nat
  <> Some (joined exampleTarget "https://example.com/path").
Proof. vm_compute. repeat split; discriminate. Qed.

Lemma links_rewritten_witness :
  (heap exampleWorld !! 0%nat = Some (mkURL "http" "localhost:8080" "" "") /\
   plain (joined exampleTarget "/path") = true) /\
  codeValue (mkURL "http" "localhost:8080" "" "") exampleTarget "/path"
  = specValue (mkURL "http" "localhost:8080" "" "") exampleTarget "/path".
Proof.
  split; [by vm_compute |].
  pose proof (links_rewritten (parseAmong pages) print exampleProxy exampleTarget 0%nat
                (mkURL "http" "localhost:8080" "" "") (htmlResponse threeLinks)
                (default "" (print threeLinks)) threeLinks
                eq_refl eq_refl eq_refl eq_refl exampleWorld eq_refl
                ltac:(discriminate) eq_refl eq_refl) as [_ H].
  apply (H "/path"). reflexivity.
Defined.

Lemma address_path_overwritten_witness :
  heap exampleWorld !! 0%nat = Some (mkURL "http" "localhost:8080" "" "") /\
  Addr exampleProxy (copyExample threeLinks).2
  = (Ok "http://localhost:8080/ex/https://other.com/x", (copyExample threeLinks).2).
Proof.
  split; [by vm_compute |].
  pose proof (address_path_overwritten (parseAmong pages) print exampleProxy exampleTarget
                0%nat (mkURL "http" "localhost:8080" "" "") (htmlResponse threeLinks)
                (default "" (print threeLinks)) threeLinks
                eq_refl eq_refl eq_refl eq_refl exampleWorld eq_refl)
    as (_ & _ & _ & _ & H).
  exact H.
Defined.

End Examples.

End RewritingFacts.

(** ** The registry and the handler *)

Module ProxyFacts.
Import Strings Internal Url Http Html Compression Effects Proxy Registry.
Import HandlerViews.

Section NewProxy.
Variable url_Parse : string -> option URL.
Variable DefaultTransport : Request -> result Response.

Lemma normalized_rooted prefix : HasPrefix (normalized prefix) "/" = true.
Proof. unfold normalized. by destruct (HasPrefix prefix "/") eqn:E. Qed.

Lemma drop_cons_inv {A} (xs : list A) i x rest :
  drop i xs = x :: rest -> xs !! i = Some x /\ drop (S i) xs = rest.
Proof.
  intros H. split.
  - rewrite <- (Nat.add_0_r i), <- lookup_drop, H. done.
  - change (S i) with (1 + i)%nat. rewrite Nat.add_comm, <- drop_drop, H. done.
Qed.

Lemma registerTargets_step targets i target rest m :
  targets !! i = Some target ->
  registerTargets url_Parse targets i (target :: rest) m =
    match url_Parse (BaseUrl target) with
    | None => Err (ErrParseTarget (BaseUrl target))
    | Some _ =>
        registerTargets url_Parse targets (S i) rest
          (<[normalized (Prefix target) := target]> m)
    end.
Proof.
  intros Hi. cbn [registerTargets]. unfold normalized.
  destruct (negb (HasPrefix (Prefix target) "/")); cbn [BaseUrl Prefix set_Prefix];
    destruct (url_Parse (BaseUrl target)); by rewrite ?Hi.
Qed.

(** A target that does not parse ends the loop with an error: that of the
    first such target. *)
Lemma registerTargets_fails targets rest : forall i m,
  drop i targets = rest ->
  (exists target, target ∈ rest /\ url_Parse (BaseUrl target) = None) ->
  exists target, target ∈ rest /\ url_Parse (BaseUrl target) = None /\
    registerTargets url_Parse targets i rest m = Err (ErrParseTarget (BaseUrl target)).
Proof.
  induction rest as [| target rest IH]; intros i m Hdrop (bad & Hin & Hbad).
  { by apply elem_of_nil in Hin. }
  apply drop_cons_inv in Hdrop as [Hi Hdrop].
  rewrite (registerTargets_step _ _ _ _ _ Hi).
  destruct (url_Parse (BaseUrl target)) as [u |] eqn:Hparse.
  - apply elem_of_cons in Hin as [-> | Hin]; [congruence |].
    destruct (IH (S i) (<[normalized (Prefix target) := target]> m) Hdrop)
      as (t' & Hin' & Hbad' & ->); [by exists bad |].
    exists t'. split; [by right | done].
  - exists target. split; [by left | done].
Qed.

(** When the loop ends without an error, every entry it added is one of
    the targets as given, under its normalized prefix. *)
Lemma registerTargets_entries targets rest : forall i m m',
  drop i targets = rest ->
  registerTargets url_Parse targets i rest m = Ok m' ->
  forall key target, m' !! key = Some target ->
    m !! key = Some target \/ (target ∈ rest /\ key = normalized (Prefix target)).
Proof.
  induction rest as [| target rest IH]; intros i m m' Hdrop Hok key stored Hkey.
  { left. by injection Hok as <-. }
  apply drop_cons_inv in Hdrop as [Hi Hdrop].
  rewrite (registerTargets_step _ _ _ _ _ Hi) in Hok.
  destruct (url_Parse (BaseUrl target)); [| done].
  destruct (IH _ _ _ Hdrop Hok _ _ Hkey) as [Hm | [Hin ->]].
  - apply lookup_insert_Some in Hm as [[<- <-] | [_ Hm]]; [right | by left].
    split; [by left | done].
  - right. split; [by right | done].
Qed.

(** The keys of the registry begin with a slash; the targets stored are
    the targets as given. *)
Lemma registry_entries targets opts s p s' :
  NewProxy url_Parse DefaultTransport targets opts s = (Ok p, s') ->
  exists registry,
    registerTargets url_Parse targets 0 targets ∅ = Ok registry /\
    forall key target, registry !! key = Some target ->
      target ∈ targets /\ key = normalized (Prefix target) /\ HasPrefix key "/" = true.
Proof.
  unfold NewProxy, mbind, M_bind, bind, lift.
  destruct (registerTargets url_Parse targets 0 targets ∅) as [registry | |] eqn:Hreg;
    [intros _ | done | done].
  exists registry. split; [done |]. intros key target Hkey.
  destruct (registerTargets_entries targets targets 0 ∅ registry eq_refl Hreg _ _ Hkey)
    as [Hm | [Hin ->]]; [by rewrite lookup_empty in Hm |].
  repeat split; [done | apply normalized_rooted].
Qed.

(** C9, amended. When [url.Parse] rejects the [BaseUrl] of one of the
    targets, [NewProxy] returns the error for the first such target and no
    proxy; the store and the listeners are as before. *)
Theorem unparsable_target_fails targets opts s :
  (exists target, target ∈ targets /\ url_Parse (BaseUrl target) = None) ->
  exists target, target ∈ targets /\ url_Parse (BaseUrl target) = None /\
    NewProxy url_Parse DefaultTransport targets opts s
    = (Err (ErrParseTarget (BaseUrl target)), s).
Proof.
  intros Hbad.
  destruct (registerTargets_fails targets targets 0 ∅ eq_refl Hbad)
    as (target & Hin & Hparse & Herr).
  exists target. repeat split; try done.
  unfold NewProxy, mbind, M_bind, bind, lift. by rewrite Herr.
Qed.

End NewProxy.

Lemma Get_Set_other (h : Header) key key' value :
  CanonicalMIMEHeaderKey key <> CanonicalMIMEHeaderKey key' ->
  Get (Set_ h key value) key' = Get h key'.
Proof. intros Hne. unfold Get, Set_. by rewrite lookup_insert_ne. Qed.

(** *** The response writer *)

Lemma Get_Del_ne (h : Header) key key' :
  CanonicalMIMEHeaderKey key <> CanonicalMIMEHeaderKey key' ->
  Get (Del h key) key' = Get h key'.
Proof. intros Hne. unfold Get, Del. by rewrite lookup_delete_ne. Qed.

Lemma announced_Set (h : Header) key value :
  CanonicalMIMEHeaderKey key <> "Content-Length" ->
  announced (Set_ h key value) = announced h.
Proof. intros Hne. unfold announced. by rewrite Get_Set_other. Qed.

Lemma Get_settled (h : Header) key :
  CanonicalMIMEHeaderKey key <> "Content-Length" -> Get (settled h) key = Get h key.
Proof.
  intros Hne. unfold settled. destruct (_ || _); [done |].
  apply Get_Del_ne. intros Heq. apply Hne. by rewrite <- Heq.
Qed.

Lemma WriteHeader_fresh code s :
  wStatus (w s) = None -> (200 <= code <= 999)%Z ->
  WriteHeader code s =
    (Ok (), with_w (fun w => mkWriter (settled (wHeader w)) (Some code) (wBody w)
                               (wInterim w) (announced (wHeader w)) 0) s).
Proof.
  intros Hfresh Hcode. unfold WriteHeader. rewrite Hfresh.
  assert ((code <? 100)%Z || (999 <? code)%Z = false) as -> by lia.
  assert ((100 <=? code)%Z && (code <=? 199)%Z && negb (code =? 101)%Z = false) as -> by lia.
  f_equal. unfold with_w. f_equal. unfold settled, announced.
  destruct (String.eqb_spec (Get (wHeader (w s)) "Content-Length") "") as [-> | _]; [done |].
  destruct (ParseInt _) as [v |]; [| done].
  cbn [orb]. destruct (0 <=? v)%Z eqn:Hv; [by rewrite Hv | done].
Qed.

Lemma Write_started b code s :
  wStatus (w s) = Some code -> wWritten (w s) = 0%Z ->
  Write b s =
    (Ok (if String.eqb b "" then None
         else if negb (bodyAllowedForStatus code) then Some ErrBodyNotAllowed
         else if negb (wLength (w s) =? -1)%Z && (wLength (w s) <? Z.of_nat (String.length b))%Z
              then Some ErrContentLength else None),
     with_w (fun w =>
       mkWriter (wHeader w) (wStatus w)
         (if String.eqb b "" || negb (bodyAllowedForStatus code)
             || negb (wLength w =? -1)%Z && (wLength w <? Z.of_nat (String.length b))%Z
          then wBody w else wBody w +:+ b)
         (wInterim w) (wLength w)
         (if String.eqb b "" || negb (bodyAllowedForStatus code) then 0%Z
          else Z.of_nat (String.length b))) s).
Proof.
  intros Hst Hwr. unfold Write, gets, when, modify, mbind, M_bind, bind, mret, M_ret, ret.
  rewrite Hst. cbn [bool_decide negb fst snd].
  destruct s as [hp ls ds [h st body interim len wr]]. cbn in Hst, Hwr. subst st wr.
  unfold with_w. cbn [w wStatus wLength wWritten wBody wHeader wInterim heap listeners dispatched].
  cbn. destruct (b =? ""); [done |]. cbn.
  destruct (bodyAllowedForStatus code); cbn; [| done].
  rewrite Z.add_0_l.
  by destruct (negb (len =? -1)%Z && (len <? Z.of_nat (String.length b))%Z).
Qed.

Lemma reply_fresh code b s :
  wStatus (w s) = None -> (200 <= code <= 999)%Z ->
  (WriteHeader code;; _ ← Write b; mret ()) s = (Ok (), with_w (replied code b) s).
Proof.
  intros Hfresh Hcode. unfold mbind at 1, M_bind at 1, bind at 1.
  rewrite WriteHeader_fresh by done.
  unfold mbind, M_bind, bind. rewrite (Write_started b code) by done.
  cbn [mret M_ret ret]. f_equal.
  destruct s as [hp ls ds [h st body interim len wr]].
  unfold with_w, replied, offered, accepts.
  cbn [w wStatus wLength wWritten wBody wHeader wInterim heap listeners dispatched].
  f_equal. f_equal.
  destruct (String.eqb_spec b "") as [-> | _]; [by rewrite RewritingFacts.append_empty_r |]. cbn [orb].
  destruct (bodyAllowedForStatus code); cbn [negb orb andb]; [| done].
  destruct (announced h =? -1)%Z eqn:E1; cbn [negb orb andb]; [done |].
  destruct (announced h <? Z.of_nat (String.length b))%Z eqn:E2;
    destruct (Z.of_nat (String.length b) <=? announced h)%Z eqn:E3; try done; lia.
Qed.

Lemma Error_fresh msg code s :
  wStatus (w s) = None -> (200 <= code <= 999)%Z ->
  Error msg code s = (Ok (), with_w (refused msg code) s).
Proof.
  intros Hfresh Hcode. unfold Error.
  unfold mbind at 1, M_bind at 1, bind at 1, wSet at 1, modify at 1.
  unfold mbind at 1, M_bind at 1, bind at 1, wSet at 1, modify at 1.
  rewrite reply_fresh by done. by destruct s.
Qed.

Lemma Error_bad_gateway msg s :
  wStatus (w s) = None ->
  Error msg StatusBadGateway s = (Ok (), with_w (refused msg StatusBadGateway) s).
Proof. intros Hfresh. by apply Error_fresh. Qed.

Lemma WriteHeader_outside code s : sameOutside s (WriteHeader code s).2.
Proof.
  unfold WriteHeader. destruct (wStatus (w s)); [done |].
  destruct (_ || _); [done |]. by destruct (_ && _).
Qed.

(** *** The client *)

Section Client.
Variable url_Resolve : URL -> string -> option URL.
Variable redirect_Header : Request -> Request -> URL -> Header.
Variable rt : Request -> result Response.

Lemma send_direct n ireq req answer s :
  rt req = Ok answer -> followed answer = false ->
  send url_Resolve redirect_Header rt (S n) ireq req s
  = (Ok (Some answer, None), logged req s).
Proof.
  intros Hrt Hdirect. cbn [send]. unfold mbind, M_bind, bind, modify. rewrite Hrt.
  unfold followed in Hdirect.
  destruct (shouldRedirect (StatusCode answer)); [| done].
  cbn in Hdirect. apply negb_false_iff in Hdirect. by rewrite Hdirect.
Qed.

Lemma send_failed n ireq req e s :
  rt req = Err e ->
  send url_Resolve redirect_Header rt (S n) ireq req s
  = (Ok (None, Some (ErrWrap (Method ireq) e)), logged req s).
Proof. intros Hrt. cbn [send]. unfold mbind, M_bind, bind, modify. by rewrite Hrt. Qed.

(** The client reads and writes nothing but the log of requests, sends
    the request it is given first, and sends no more requests than its
    budget. *)
Lemma send_frame budget : forall ireq req s,
  let out := send url_Resolve redirect_Header rt budget ireq req s in
  heap out.2 = heap s /\ listeners out.2 = listeners s /\ w out.2 = w s /\
  (forall e, out.1 <> Err e) /\
  exists more, dispatched out.2 = dispatched s ++ more /\
    (length more <= budget)%nat /\
    match budget with
    | O => True
    | S _ =>
        exists rest, more = req :: rest /\
          match rt req with
          | Ok answer => followed answer = false -> rest = []
          | _ => rest = []
          end
    end.
Proof.
  induction budget as [| n IH]; intros ireq req s; cbn zeta.
  { repeat split; try done. exists []. by rewrite app_nil_r. }
  cbn [send]. unfold mbind, M_bind, bind, modify.
  destruct (rt req) as [resp | e | msg] eqn:Hrt.
  - destruct (negb (shouldRedirect (StatusCode resp)) || _) eqn:Hgo.
    { repeat split; try done. exists [req]. repeat split; [cbn; lia |]. by exists []. }
    assert (Hfollowed : followed resp = true).
    { unfold followed. apply orb_false_iff in Hgo as [H1 H2].
      apply negb_false_iff in H1. by rewrite H1, H2. }
    destruct (url_Resolve (ReqURL req) _) as [u |].
    2: { repeat split; try done. exists [req]. repeat split; [cbn; lia |].
         exists []. split; [done |]. by rewrite Hfollowed. }
    destruct n as [| n'].
    { repeat split; try done. exists [req]. repeat split; [cbn; lia |].
      exists []. split; [done |]. by rewrite Hfollowed. }
    match goal with |- context [send _ _ _ _ _ ?q ?s1] =>
      destruct (IH ireq q s1) as (Hh & Hl & Hw & Herr & more & Hd & Hlen & _) end.
    cbn zeta in *.
    repeat split; try done.
    cbn [dispatched] in Hd.
    exists (req :: more). split; [by rewrite Hd, <- app_assoc |].
    split; [cbn; lia |]. exists more. split; [done |]. by rewrite Hfollowed.
  - repeat split; try done. exists [req]. repeat split; [cbn; lia |]. by exists [].
  - repeat split; try done. exists [req]. repeat split; [cbn; lia |]. by exists [].
Qed.

End Client.

Section Forward.
Context `{codecs : Codecs}.
Variable url_Parse : string -> option URL.
Variable html_Parse : string -> option Document.
Variable html_Render : Document -> option string.
Variable url_Resolve : URL -> string -> option URL.
Variable redirect_Header : Request -> Request -> URL -> Header.

(** The handler, case by case. *)
Lemma forwardRequest_eq p target r s :
  forwardRequest url_Parse html_Parse html_Render url_Resolve redirect_Header p target r s =
    match buildRequest url_Parse r target with
    | Ok newReq =>
        match Do url_Resolve redirect_Header (transport p) (outgoing target newReq) s with
        | (Ok (resp, Some _), s1) => Error "Error forwarding request" StatusBadGateway s1
        | (Ok (resp, None), s1) =>
            if String.eqb (Method r) MethodOptions then
              WriteHeader StatusOK (with_w (with_wHeader withCors) s1)
            else
              match copyResponse html_Parse html_Render p (incoming target resp) target s1 with
              | (Err _, s') => Error "Error copying response" StatusBadGateway s'
              | done => done
              end
        | (Err e, s1) => (Err e, s1)
        | (Panic msg, s1) => (Panic msg, s1)
        end
    | _ => Error "Error constructing new request" StatusBadGateway s
    end.
Proof.
  unfold forwardRequest.
  destruct (buildRequest url_Parse r target) as [newReq | e | msg]; [| done | done].
  fold (outgoing target newReq). cbn zeta.
  unfold mbind at 1, M_bind at 1, bind at 1.
  destruct (Do _ _ _ _ s) as [[[resp [err |]] | e | msg] s1]; [done | | done | done].
  fold (incoming target resp).
  destruct (Method r =? MethodOptions); [| done].
  unfold wSet, modify, mbind, M_bind, bind. by destruct s1.
Qed.

(** C2, amended. On an [OPTIONS] request under a registered prefix the
    handler first builds the upstream request and hands it to the
    client, which sends it to the transport, and again for each redirect
    it follows: at least one request and at most ten reach the
    transport.  When the client returns a response, the handler responds
    200 on the header map it found, with the three CORS headers set
    ([Access-Control-Allow-Origin: *]), and takes nothing from the
    response of the upstream: no header, no status, no byte of the body.
    When the client returns an error, the handler responds 502.  Only
    when the upstream request cannot be built is nothing dispatched, and
    the response is 502. *)
Theorem preflight_after_dispatch (p : Proxy) prefix target (r : Request) (s : World) :
  targets p !! prefix = Some target ->
  Method r = MethodOptions ->
  wStatus (w s) = None ->
  let s' := (forwardRequest url_Parse html_Parse html_Render url_Resolve redirect_Header
               p target r s).2 in
  match buildRequest url_Parse r target with
  | Ok newReq =>
      (exists more,
         dispatched s' = dispatched s ++ outgoing target newReq :: more /\
         (length more < 10)%nat) /\
      match (Do url_Resolve redirect_Header (transport p) (outgoing target newReq) s).1 with
      | Ok (_, None) =>
          wStatus (w s') = Some StatusOK /\
          Get (wHeader (w s')) "Access-Control-Allow-Origin" = "*" /\
          wHeader (w s') = settled (withCors (wHeader (w s))) /\
          wBody (w s') = wBody (w s) /\ heap s' = heap s
      | Ok (_, Some _) => wStatus (w s') = Some StatusBadGateway
      | _ => True
      end
  | _ => dispatched s' = dispatched s /\ wStatus (w s') = Some StatusBadGateway
  end.
Proof.
  intros _ Hmethod Hfresh. cbn zeta. rewrite forwardRequest_eq, Hmethod.
  change (MethodOptions =? MethodOptions) with true. cbn iota.
  destruct (buildRequest url_Parse r target) as [newReq | e | msg];
    [| rewrite Error_bad_gateway by done; split; reflexivity ..].
  unfold Do.
  destruct (send_frame url_Resolve redirect_Header (transport p) 10
              (outgoing target newReq) (outgoing target newReq) s)
    as (Hh & Hl & Hw & Herr & more & Hd & Hlen & rest & -> & _).
  cbn zeta in *.
  destruct (send _ _ _ _ _ _ s) as [[[resp [err |]] | e | msg] s1];
    cbn [fst snd] in *.
  - rewrite Error_bad_gateway by (by rewrite ?Hw).
    cbn [snd with_w dispatched w refused replied wStatus].
    split; [| done]. exists rest. split; [done |]. cbn in Hlen. lia.
  - rewrite WriteHeader_fresh; [| cbn; by rewrite Hw | unfold StatusOK; lia].
    cbn [snd with_w dispatched w wStatus wHeader wBody with_wHeader heap].
    rewrite Hw, Hh.
    split; [exists rest; split; [done |]; cbn in Hlen; lia |].
    repeat split; try done.
    rewrite Get_settled by (vm_compute; discriminate).
    unfold withCors. rewrite !Get_Set_other by (vm_compute; discriminate).
    unfold Get, Set_. by rewrite lookup_insert_eq.
  - by destruct (Herr e).
  - split; [| done]. exists rest. split; [done |]. cbn in Hlen. lia.
Qed.

End Forward.

Section Closed.
Import Fixtures.
#[local] Existing Instance storedCodecs.

(** C5. [NewProxy] on a target with the prefix [ex/]: the key of the
    registry is [/ex/], but the target stored under it still has the
    prefix [ex/]: the loop normalizes its copy [target] and stores
    [targets[i]]. *)
Theorem stored_prefix_not_normalized :
  exists p s,
    NewProxy Parse okTransport [mkTarget "https://example.com" "ex/" None None] []
      emptyWorld = (Ok p, s) /\
    Prefix <$> targets p !! "/ex/" = Some "ex/" /\
    targets p !! "ex/" = None.
Proof. eexists _, _. vm_compute. done. Qed.

(** C9, as stated, fails: an origin without scheme and host parses, and
    the proxy is constructed. *)
Lemma relative_origin_accepted :
  absolute Parse "example.com" = false /\
  exists p s,
    NewProxy Parse okTransport [mkTarget "example.com" "/ex/" None None] [] emptyWorld
    = (Ok p, s).
Proof. split; [reflexivity |]. eexists _, _. vm_compute. done. Qed.

Lemma unparsable_target_fails_witness :
  (exists target, target ∈ [mkTarget "http://exa mple.com" "/ex/" None None] /\
                  Parse (BaseUrl target) = None) /\
  exists target,
    NewProxy Parse okTransport [mkTarget "http://exa mple.com" "/ex/" None None] []
      emptyWorld = (Err (ErrParseTarget (BaseUrl target)), emptyWorld).
Proof.
  assert (Hbad : exists target,
            target ∈ [mkTarget "http://exa mple.com" "/ex/" None None] /\
            Parse (BaseUrl target) = None).
  { eexists. split; [by left | reflexivity]. }
  split; [exact Hbad |].
  destruct (unparsable_target_fails Parse okTransport _ [] emptyWorld Hbad)
    as (target & _ & _ & H).
  by exists target.
Defined.

(** C2, as stated, fails: the preflight is answered 200, after one
    request went to the transport. *)
Lemma preflight_reaches_upstream :
  let s' := (forwardRequest Parse (parseAmong pages) print resolve redirectHeader
               exampleProxy exampleTarget optionsRequest exampleWorld).2 in
  targets exampleProxy !! "/ex/" = Some exampleTarget /\
  Method optionsRequest = "OPTIONS" /\
  wStatus (w s') = Some 200%Z /\
  dispatched exampleWorld = [] /\ length (dispatched s') = 1%nat.
Proof. vm_compute. done. Qed.

Lemma preflight_after_dispatch_witness :
  let s' := (forwardRequest Parse (parseAmong pages) print resolve redirectHeader
               exampleProxy exampleTarget optionsRequest exampleWorld).2 in
  (targets exampleProxy !! "/ex/" = Some exampleTarget /\
   Method optionsRequest = MethodOptions /\ wStatus (w exampleWorld) = None) /\
  wStatus (w s') = Some StatusOK /\
  wHeader (w s') = withCors ∅ /\ wBody (w s') = "" /\
  length (dispatched s') = 1%nat.
Proof.
  cbn zeta. split; [by vm_compute |].
  pose proof (preflight_after_dispatch Parse (parseAmong pages) print resolve redirectHeader
                exampleProxy "/ex/" exampleTarget optionsRequest exampleWorld
                eq_refl eq_refl eq_refl) as H.
  cbn zeta in H.
  destruct (buildRequest Parse optionsRequest exampleTarget) as [newReq | |] eqn:Hbuild;
    [| vm_compute in Hbuild; discriminate Hbuild ..].
  destruct H as [(more & Hlog & Hmore) H].
  assert (Hdo : (Do resolve redirectHeader (transport exampleProxy)
                   (outgoing exampleTarget newReq) exampleWorld).1
                = Ok (Some emptyResponse, None)).
  { unfold Do. by rewrite send_direct with (answer := emptyResponse). }
  rewrite Hdo in H. destruct H as (H1 & _ & H3 & H4 & _).
  split; [exact H1 |]. split; [exact H3 |]. split; [exact H4 |].
  by vm_compute.
Defined.

End Closed.
End ProxyFacts.

(** ** The stealth transport: headers, dispatch and pacing *)

Module TransportFacts.
Import Strings Http Time Compression Effects Stealth StealthSteps StealthFacts HeaderDefaults.

Lemma addHeaderIfNotExists_fill key value s :
  addHeaderIfNotExists key value s = (Ok (), with_header (fill key value (ReqHeader (req s))) s).
Proof.
  unfold addHeaderIfNotExists, modify, fill. f_equal.
  destruct s as [? [] ? ? ?]; unfold with_header, with_req, set_ReqHeader; cbn.
  by destruct (_ =? _).
Qed.

Lemma fill_other key value (h : Header) c :
  c <> CanonicalMIMEHeaderKey key -> fill key value h !! c = h !! c.
Proof.
  intros Hne. unfold fill, Set_. destruct (_ =? _); [| done].
  by rewrite lookup_insert_ne.
Qed.

Lemma Get_fill_other key value (h : Header) key' :
  CanonicalMIMEHeaderKey key' <> CanonicalMIMEHeaderKey key ->
  Get (fill key value h) key' = Get h key'.
Proof. intros Hne. unfold Get. by rewrite fill_other. Qed.

Lemma Get_fill key value (h : Header) :
  Get (fill key value h) key = if String.eqb (Get h key) "" then value else Get h key.
Proof.
  unfold fill. destruct (Get h key =? "") eqn:E; [| by rewrite ?E].
  unfold Get, Set_. by rewrite lookup_insert_eq.
Qed.

(** A filled header keeps every entry that had a value. *)
Lemma fill_keeps key value (h : Header) c :
  first h c <> "" -> fill key value h !! c = h !! c.
Proof.
  intros Hc. unfold fill. destruct (String.eqb_spec (Get h key) "") as [E | _]; [| done].
  unfold Set_. apply lookup_insert_ne. intros <-. by rewrite Get_first in E.
Qed.

Lemma fillAll_other defaults (h : Header) c :
  c ∉ map (fun kv => CanonicalMIMEHeaderKey kv.1) defaults ->
  fillAll defaults h !! c = h !! c.
Proof.
  revert h. induction defaults as [| [k v] defaults IH]; intros h Hc; [done |].
  cbn in Hc. apply not_elem_of_cons in Hc as [Hne Hc].
  cbn [fillAll fold_left]. fold (fillAll defaults). rewrite IH by done.
  by apply fill_other.
Qed.

Lemma fillAll_keeps defaults (h : Header) c :
  first h c <> "" -> fillAll defaults h !! c = h !! c.
Proof.
  revert h. induction defaults as [| [k v] defaults IH]; intros h Hc; [done |].
  cbn [fillAll fold_left]. fold (fillAll defaults).
  rewrite IH; [by apply fill_keeps |]. unfold first. by rewrite fill_keeps.
Qed.

(** With distinct keys, each default is applied to the header as it came
    in. *)
Lemma Get_fillAll defaults (h : Header) key value :
  NoDup (map (fun kv => CanonicalMIMEHeaderKey kv.1) defaults) ->
  (key, value) ∈ defaults ->
  Get (fillAll defaults h) key = if String.eqb (Get h key) "" then value else Get h key.
Proof.
  revert h. induction defaults as [| [k v] defaults IH]; intros h Hnd Hin.
  { by apply elem_of_nil in Hin. }
  cbn in Hnd. apply NoDup_cons in Hnd as [Hk Hnd].
  cbn [fillAll fold_left]. fold (fillAll defaults).
  apply elem_of_cons in Hin as [[= -> ->] | Hin].
  - unfold Get at 1. rewrite fillAll_other by done. apply Get_fill.
  - rewrite IH by done.
    assert (CanonicalMIMEHeaderKey key <> CanonicalMIMEHeaderKey k) as Hne.
    { intros E. apply Hk. rewrite <- E.
      apply (list_elem_of_fmap_2 (fun kv => CanonicalMIMEHeaderKey kv.1) _ (key, value) Hin). }
    by rewrite !Get_fill_other.
Qed.

Lemma setBasicHeaders_fillAll s :
  setBasicHeaders s = (Ok (), with_header (fillAll basicDefaults (ReqHeader (req s))) s).
Proof.
  unfold setBasicHeaders, mbind, M_bind, bind.
  by rewrite !addHeaderIfNotExists_fill.
Qed.

Lemma Get_Set_other' (h : Header) key key' value :
  CanonicalMIMEHeaderKey key' <> CanonicalMIMEHeaderKey key ->
  Get (Set_ h key value) key' = Get h key'.
Proof. intros Hne. unfold Get, Set_. by rewrite lookup_insert_ne. Qed.

Section Header.
Context `{lib : Codecs}.
Variable env : Env.

Lemma RoundTrip_defaulted s :
  RoundTrip env s =
    afterHeaders env (negb (String.eqb (Get (ReqHeader (req s)) "Accept-Encoding") ""))
      (with_header (defaulted env (t s) (ReqHeader (req s))) s).
Proof.
  unfold RoundTrip, defaulted, mbind at 1 2 3, M_bind at 1 2 3, bind at 1 2 3.
  assert (setUserAgent env s =
            (Ok (), with_header
                      match userAgents (t s) with
                      | [] => ReqHeader (req s)
                      | _ => fill "User-Agent" (picked env (userAgents (t s))) (ReqHeader (req s))
                      end s)) as ->.
  { unfold setUserAgent, mbind, M_bind, bind, gets.
    destruct (userAgents (t s)) as [| ua uas] eqn:Hua; cbn [length Nat.ltb Nat.leb].
    - by rewrite with_header_same.
    - unfold lift, Intn. destruct (Z.leb_spec (Z.of_nat (length (ua :: uas))) 0) as [Hle | _].
      { cbn [length] in Hle. lia. }
      apply addHeaderIfNotExists_fill. }
  rewrite setBasicHeaders_fillAll, with_header_twice.
  cbn [with_header with_req req set_ReqHeader ReqHeader].
  set (h1 := match userAgents (t s) with [] => _ | _ => _ end).
  assert (Get (fillAll basicDefaults h1) "Accept-Encoding"
          = Get (ReqHeader (req s)) "Accept-Encoding") as Hae.
  { unfold Get. rewrite fillAll_other by not_in_keys. subst h1.
    destruct (userAgents (t s)); [done |]. by rewrite fill_other. }
  unfold acceptCompression, mbind, M_bind, bind, gets, when.
  cbn [with_header with_req req set_ReqHeader ReqHeader t].
  rewrite Hae. destruct (Get (ReqHeader (req s)) "Accept-Encoding" =? "") eqn:E; cbn [negb].
  - rewrite andb_true_r. by destruct (compression (t s)).
  - by rewrite andb_false_r.
Qed.

Lemma afterInit_eq had s :
  afterInit env had s =
    match delay env s with
    | (Ok _, s1) => (answer env had (t s1) (req s1), dispatchedAt s1)
    | (Err e, s1) => (Err e, s1)
    | (Panic msg, s1) => (Panic msg, s1)
    end.
Proof.
  unfold afterInit, mbind, M_bind, bind.
  destruct (delay env s) as [[[] | e | msg] s1]; [| done | done].
  rewrite dispatch_eq. unfold answer.
  destruct (upstream env (req s1)) as [res | e | msg]; [| done | done].
  unfold decompress, mbind, M_bind, bind, gets, lift. cbn [dispatchedAt t compression].
  by destruct (_ && _).
Qed.

(** The whole of [RoundTrip]: the steps on the header never fail; the
    SOCKS5 step and the pacing step may end the call; otherwise the request
    is dispatched once. *)
Lemma RoundTrip_eq s :
  let had := negb (String.eqb (Get (ReqHeader (req s)) "Accept-Encoding") "") in
  RoundTrip env s =
    match initSocks5 env (with_header (defaulted env (t s) (ReqHeader (req s))) s) with
    | (Ok _, s1) =>
        match delay env s1 with
        | (Ok _, s2) => (answer env had (t s2) (req s2), dispatchedAt s2)
        | (Err e, s2) => (Err e, s2)
        | (Panic msg, s2) => (Panic msg, s2)
        end
    | (Err e, s1) => (Err e, s1)
    | (Panic msg, s1) => (Panic msg, s1)
    end.
Proof.
  cbn zeta. rewrite RoundTrip_defaulted. unfold afterHeaders, mbind, M_bind, bind.
  destruct (initSocks5 env _) as [[[] | e | msg] s1]; [| done | done].
  apply afterInit_eq.
Qed.

(** The SOCKS5 step changes the transport and the count only; of the
    transport, the [Transport] field and the flag. *)
Lemma initSocks5_transport s :
  let s' := (initSocks5 env s).2 in
  req s' = req s /\ sent s' = sent s /\ clock s' = clock s /\
  userAgents (t s') = userAgents (t s) /\ minDelay (t s') = minDelay (t s) /\
  maxDelay (t s') = maxDelay (t s) /\ lastRequest (t s') = lastRequest (t s) /\
  socks5Proxy (t s') = socks5Proxy (t s) /\ compression (t s') = compression (t s).
Proof.
  destruct (decide (socks5Proxy (t s) = "")) as [Hp | Hp].
  { rewrite initSocks5_skip by auto. done. }
  destruct (socks5Initialized (t s)) eqn:Hi.
  { rewrite initSocks5_skip by auto. done. }
  rewrite initSocks5_attempt by done.
  destruct (SOCKS5 env _ _); [| done | done]. by destruct (Transport (t s)).
Qed.


Lemma defaulted_keeps t0 (h : Header) c :
  first h c <> "" -> defaulted env t0 h !! c = h !! c.
Proof.
  intros Hc. unfold defaulted.
  set (h1 := match userAgents t0 with [] => h | _ => _ end).
  assert (h1 !! c = h !! c) as H1.
  { subst h1. destruct (userAgents t0); [done |]. by apply fill_keeps. }
  assert (fillAll basicDefaults h1 !! c = h !! c) as H2.
  { rewrite fillAll_keeps; [done |]. unfold first. by rewrite H1. }
  destruct (String.eqb_spec (Get (fillAll basicDefaults h1) "Accept-Encoding") "") as [E | _];
    rewrite ?andb_false_r; [| done].
  destruct (compression t0); [| done]. cbn [andb]. unfold Set_.
  rewrite lookup_insert_ne; [done |]. intros <-.
  rewrite Get_first in E. unfold first in E, Hc. rewrite H2 in E. done.
Qed.

Lemma defaulted_other t0 (h : Header) c :
  c ∉ touchedKeys -> defaulted env t0 h !! c = h !! c.
Proof.
  intros Hc. unfold defaulted.
  set (h1 := match userAgents t0 with [] => h | _ => _ end).
  assert (h1 !! c = h !! c) as H1.
  { subst h1. destruct (userAgents t0); [done |]. apply fill_other.
    intros ->. apply Hc. by apply (bool_decide_unpack _). }
  assert (fillAll basicDefaults h1 !! c = h !! c) as H2.
  { rewrite fillAll_other; [done |]. intros Hin. apply Hc. cbn in Hin.
    repeat (apply elem_of_cons in Hin as [-> | Hin]; [by apply (bool_decide_unpack _) |]).
    by apply elem_of_nil in Hin. }
  destruct (_ && _); [| done]. unfold Set_. rewrite lookup_insert_ne; [done |].
  intros <-. apply Hc. by apply (bool_decide_unpack _).
Qed.

(** The request after [RoundTrip], however the call ends: the request as
    it came, with the defaults in its header. *)
Lemma RoundTrip_request s :
  req (RoundTrip env s).2 =
    set_ReqHeader (defaulted env (t s) (ReqHeader (req s))) (req s).
Proof.
  rewrite RoundTrip_eq.
  pose proof (initSocks5_transport
                (with_header (defaulted env (t s) (ReqHeader (req s))) s)) as (Hreq & _).
  destruct (initSocks5 env _) as [[[] | e | msg] s1]; cbn [snd] in *; try done.
  destruct (delay_frame env s1) as (c & Hd).
  destruct (delay env s1) as [[[] | e | msg] s2]; cbn [snd] in *; subst s2; done.
Qed.

(** X1. [RoundTrip] writes a header only where the request has none: an
    entry with a non-empty first value is left as it is, and so is every
    entry under a key other than the eight keys of the defaults. *)
Theorem headers_only_filled s key :
  Get (ReqHeader (req s)) key <> "" \/ CanonicalMIMEHeaderKey key ∉ touchedKeys ->
  ReqHeader (req (RoundTrip env s).2) !! CanonicalMIMEHeaderKey key
  = ReqHeader (req s) !! CanonicalMIMEHeaderKey key.
Proof.
  intros H. rewrite RoundTrip_request. cbn [set_ReqHeader ReqHeader].
  destruct H as [H | H]; [apply defaulted_keeps; by rewrite <- Get_first
                         | by apply defaulted_other].
Qed.

(** X2. Each of the six canned headers is in the request after
    [RoundTrip]: with the canned value where the request had none, with
    the value of the caller otherwise. *)
Theorem basic_defaults_applied s key value :
  (key, value) ∈ basicDefaults ->
  Get (ReqHeader (req (RoundTrip env s).2)) key
  = if String.eqb (Get (ReqHeader (req s)) key) "" then value
    else Get (ReqHeader (req s)) key.
Proof.
  intros Hin. rewrite RoundTrip_request. cbn [set_ReqHeader ReqHeader]. unfold defaulted.
  set (h1 := match userAgents (t s) with [] => _ | _ => _ end).
  assert (CanonicalMIMEHeaderKey key <> "User-Agent" /\
          CanonicalMIMEHeaderKey key <> "Accept-Encoding") as [Hua Hae].
  { unfold basicDefaults in Hin.
    repeat (apply elem_of_cons in Hin as [Heq | Hin];
            [apply (f_equal fst) in Heq; cbn in Heq; subst key; by vm_compute |]).
    by apply elem_of_nil in Hin. }
  assert (Get h1 key = Get (ReqHeader (req s)) key) as H1.
  { subst h1. destruct (userAgents (t s)); [done |]. by apply Get_fill_other. }
  assert (Get (fillAll basicDefaults h1) key
          = if String.eqb (Get (ReqHeader (req s)) key) "" then value
            else Get (ReqHeader (req s)) key) as <-.
  { rewrite <- H1. apply Get_fillAll; [| done].
    by apply (bool_decide_unpack _). }
  destruct (_ && _); [| done]. by apply Get_Set_other'.
Qed.


Lemma initSocks5_after h s :
  let s' := (initSocks5 env (with_header h s)).2 in
  sent s' = sent s /\ clock s' = clock s /\
  minDelay (t s') = minDelay (t s) /\ maxDelay (t s') = maxDelay (t s) /\
  lastRequest (t s') = lastRequest (t s) /\ compression (t s') = compression (t s).
Proof.
  pose proof (initSocks5_transport (with_header h s)) as (_ & ? & ? & _ & ? & ? & ? & _ & ?).
  done.
Qed.

Lemma picked_in agents : agents <> [] -> picked env agents ∈ agents.
Proof.
  intros Hne. unfold picked. apply list_elem_of_In, nth_In.
  assert (0 < Z.of_nat (length agents))%Z by (destruct agents; [done | cbn; lia]).
  pose proof (Z.mod_pos_bound (draw_Intn env) (Z.of_nat (length agents)) ltac:(lia)).
  lia.
Qed.

(** X3. With a non-empty list of agents and no [User-Agent] in the
    request, the request gets one of the agents of the list. *)
Theorem user_agent_from_list s :
  userAgents (t s) <> [] ->
  Get (ReqHeader (req s)) "User-Agent" = "" ->
  Get (ReqHeader (req (RoundTrip env s).2)) "User-Agent" ∈ userAgents (t s).
Proof.
  intros Hne Hua. rewrite RoundTrip_request. cbn [set_ReqHeader ReqHeader].
  unfold defaulted. destruct (userAgents (t s)) as [| ua uas] eqn:E; [done |].
  set (h1 := fill _ _ _).
  assert (Get h1 "User-Agent" = picked env (ua :: uas)) as H1.
  { subst h1. by rewrite Get_fill, Hua. }
  assert (Get (fillAll basicDefaults h1) "User-Agent" = picked env (ua :: uas)) as H2.
  { rewrite <- H1. unfold Get. by rewrite fillAll_other by not_in_keys. }
  destruct (_ && _); [rewrite Get_Set_other' by (by vm_compute) |];
    rewrite H2; by apply picked_in.
Qed.

Lemma decompressResponse_clears (res res' : Response) :
  decompressResponse res = Ok res' -> Get (RespHeader res') "Content-Encoding" = "".
Proof.
  unfold decompressResponse.
  destruct (String.eqb_spec (Get (RespHeader res) "Content-Encoding") "") as [E | _].
  { by intros [= <-]. }
  match goal with |- match ?r with _ => _ end = _ -> _ => destruct r end; [| done | done].
  intros [= <-]. cbn [RespHeader]. unfold Get, Del. by rewrite lookup_delete_eq.
Qed.

(** X4. With compression on and no [Accept-Encoding] from the caller,
    the request advertises [gzip, deflate, br], and a response that
    [RoundTrip] returns never has a [Content-Encoding]. *)
Theorem compression_is_transparent s :
  compression (t s) = true ->
  Get (ReqHeader (req s)) "Accept-Encoding" = "" ->
  Get (ReqHeader (req (RoundTrip env s).2)) "Accept-Encoding" = "gzip, deflate, br" /\
  forall res, (RoundTrip env s).1 = Ok res -> Get (RespHeader res) "Content-Encoding" = "".
Proof.
  intros Hc Hae. split.
  - rewrite RoundTrip_request. cbn [set_ReqHeader ReqHeader]. unfold defaulted.
    set (h1 := match userAgents (t s) with [] => _ | _ => _ end).
    assert (Get (fillAll basicDefaults h1) "Accept-Encoding" = "") as ->.
    { unfold Get. rewrite fillAll_other by not_in_keys. subst h1.
      destruct (userAgents (t s)); [exact Hae |]. rewrite fill_other by done. exact Hae. }
    rewrite Hc. cbn. unfold Get, Set_. by rewrite lookup_insert_eq.
  - intros res. rewrite RoundTrip_eq, Hae. cbn [String.eqb negb].
    pose proof (initSocks5_after (defaulted env (t s) (ReqHeader (req s))) s)
      as (_ & _ & _ & _ & _ & Hc1).
    destruct (initSocks5 env _) as [[[] | e | msg] s1]; cbn [fst snd] in *; [| done | done].
    destruct (delay_frame env s1) as (c & Hd).
    destruct (delay env s1) as [[[] | e | msg] s2]; cbn [fst snd] in *; [| done | done].
    subst s2. cbn [t req]. unfold answer. rewrite Hc1, Hc. cbn [andb negb].
    destruct (upstream env (req s1)) as [res0 | e | msg]; [| done | done].
    destruct (String.eqb_spec (Get (RespHeader res0) "Content-Encoding") "") as [E | _];
      cbn [negb].
    + by intros [= <-].
    + apply decompressResponse_clears.
Qed.

(** X6. A call dispatches its request at most once and never retries:
    either nothing is handed to the underlying transport, the instant of
    the last dispatch stays and no response is returned; or the request is
    handed over once, that instant is noted as the last dispatch, also
    when the underlying transport fails, and an error of the underlying
    transport is returned as it is. *)
Theorem dispatch_at_most_once s :
  let r := (RoundTrip env s).1 in
  let s' := (RoundTrip env s).2 in
  (sent s' = sent s /\ lastRequest (t s') = lastRequest (t s) /\ forall res, r <> Ok res) \/
  (sent s' = sent s ++ [(clock s', req s')] /\ lastRequest (t s') = clock s' /\
   forall e, upstream env (req s') = Err e -> r = Err e).
Proof.
  cbn zeta. rewrite RoundTrip_eq.
  pose proof (initSocks5_after (defaulted env (t s) (ReqHeader (req s))) s)
    as (Hsent & _ & _ & _ & Hlast & _).
  destruct (initSocks5 env _) as [[[] | e | msg] s1]; cbn [fst snd] in *;
    [| left; by rewrite Hsent, Hlast | left; by rewrite Hsent, Hlast].
  destruct (delay_frame env s1) as (c & Hd).
  destruct (delay env s1) as [[[] | e | msg] s2]; cbn [fst snd] in *; subst s2;
    [| left; by rewrite <- Hsent, <- Hlast | left; by rewrite <- Hsent, <- Hlast].
  right. cbn. rewrite Hsent. repeat split; try done.
  intros e He. unfold answer. by rewrite He.
Qed.

(** X5. Without compression the transport leaves the [Accept-Encoding]
    entry alone, and the result of a dispatched call is the answer of the
    underlying transport, whatever [Content-Encoding] it has. *)
Theorem without_compression_untouched s :
  compression (t s) = false ->
  let r := (RoundTrip env s).1 in
  let s' := (RoundTrip env s).2 in
  ReqHeader (req s') !! "Accept-Encoding" = ReqHeader (req s) !! "Accept-Encoding" /\
  (sent s' = sent s \/ r = upstream env (req s')).
Proof.
  intros Hc. cbn zeta. split.
  - rewrite RoundTrip_request. cbn [set_ReqHeader ReqHeader]. unfold defaulted.
    rewrite Hc. cbn [andb]. rewrite fillAll_other by not_in_keys.
    destruct (userAgents (t s)); [done |]. by rewrite fill_other.
  - rewrite RoundTrip_eq.
    pose proof (initSocks5_after (defaulted env (t s) (ReqHeader (req s))) s)
      as (Hsent & _ & _ & _ & _ & Hc1).
    destruct (initSocks5 env _) as [[[] | e | msg] s1]; cbn [fst snd] in *;
      [| by left | by left].
    destruct (delay_frame env s1) as (c & Hd).
    destruct (delay env s1) as [[[] | e | msg] s2]; cbn [fst snd] in *; subst s2;
      [| by left | by left].
    right. cbn. unfold answer. rewrite Hc1, Hc. cbn [andb].
    by destruct (upstream env (req s1)).
Qed.

(** X7. Without a delay configured (one of the two bounds is not
    positive) the call does not sleep: the clock is where it was. *)
Theorem no_delay_without_bounds s :
  (minDelay (t s) <= 0)%Z \/ (maxDelay (t s) <= 0)%Z ->
  clock (RoundTrip env s).2 = clock s.
Proof.
  intros Hz. rewrite RoundTrip_eq.
  pose proof (initSocks5_after (defaulted env (t s) (ReqHeader (req s))) s)
    as (_ & Hclock & Hmin & Hmax & _).
  destruct (initSocks5 env _) as [[[] | e | msg] s1]; cbn [fst snd] in *; [| done | done].
  rewrite delay_cases, Hmin, Hmax.
  assert ((0 <? minDelay (t s))%Z && (0 <? maxDelay (t s))%Z = false) as ->.
  { apply andb_false_iff. destruct Hz; [left | right]; by apply Z.ltb_ge. }
  done.
Qed.

(** With an upper bound of the delay that is not above the lower bound,
    the pacing step panics. *)
Lemma delay_bounds_panic s :
  (0 < maxDelay (t s) <= minDelay (t s))%Z -> (minDelay (t s) <= maxInt64)%Z ->
  delay env s = (Panic "invalid argument to Int63n", s).
Proof.
  intros [Hmax Hle] Hbound. rewrite delay_cases.
  destruct (Z.ltb_spec 0 (minDelay (t s))) as [_ | ?]; [| lia].
  destruct (Z.ltb_spec 0 (maxDelay (t s))) as [_ | ?]; [| lia]. cbn [andb].
  assert (Hb : (maxInt64 = 9223372036854775807)%Z) by reflexivity.
  assert (Hb' : (minInt64 = -9223372036854775808)%Z) by reflexivity.
  rewrite wrap64_small by lia. unfold Int63n.
  destruct (Z.leb_spec (maxDelay (t s) - minDelay (t s)) 0) as [_ | ?]; [done | lia].
Qed.

(** X8. When the upper bound of the delay is not above the lower bound,
    no call returns a response and nothing is dispatched: the bound of
    the random draw is not positive, and the call panics in the pacing
    step, unless the SOCKS5 step before it has ended the call, with the
    error of the dialer or the panic of the type assertion. *)
Theorem delay_bounds_not_increasing_panic s :
  (0 < maxDelay (t s) <= minDelay (t s))%Z -> (minDelay (t s) <= maxInt64)%Z ->
  sent (RoundTrip env s).2 = sent s /\
  (RoundTrip env s).1 =
    if String.eqb (socks5Proxy (t s)) "" || socks5Initialized (t s)
    then Panic "invalid argument to Int63n"
    else
      match SOCKS5 env (socks5Proxy (t s)) (socksAuth (t s)) with
      | Ok _ =>
          match Transport (t s) with
          | HttpTransport _ => Panic "invalid argument to Int63n"
          | OtherRoundTripper =>
              Panic "interface conversion: http.RoundTripper is not *http.Transport"
          end
      | Err e => Err (ErrSocks5Init e)
      | Panic msg => Panic msg
      end.
Proof.
  intros Hdelay Hbound. rewrite RoundTrip_eq.
  set (s0 := with_header _ s).
  assert (Ht : t s0 = t s) by done. assert (Hs : sent s0 = sent s) by done.
  rewrite <- Ht, <- Hs in *. clearbody s0.
  destruct (String.eqb_spec (socks5Proxy (t s0)) "") as [Hp | Hp].
  { rewrite initSocks5_skip by (by left). by rewrite delay_bounds_panic. }
  destruct (socks5Initialized (t s0)) eqn:Hi.
  { rewrite initSocks5_skip by (by right). by rewrite delay_bounds_panic. }
  rewrite initSocks5_attempt by done. cbn [orb].
  destruct (SOCKS5 env _ _) as [d | e | msg]; [| done | done].
  destruct (Transport (t s0)); [| done].
  by rewrite delay_bounds_panic.
Qed.

(** X9. A SOCKS5 address needs the [*http.Transport]: with another
    [RoundTripper] in the field [Transport], the call panics after the
    dialer was constructed; the flag stays unset and nothing is
    dispatched. *)
Theorem socks5_needs_http_transport s d :
  Transport (t s) = OtherRoundTripper ->
  socks5Proxy (t s) <> "" -> socks5Initialized (t s) = false ->
  SOCKS5 env (socks5Proxy (t s)) (socksAuth (t s)) = Ok d ->
  (RoundTrip env s).1
    = Panic "interface conversion: http.RoundTripper is not *http.Transport" /\
  socks5Initialized (t (RoundTrip env s).2) = false /\
  sent (RoundTrip env s).2 = sent s.
Proof.
  intros Ht Hp Hi Hd. rewrite RoundTrip_eq.
  rewrite initSocks5_attempt by done. cbn [with_header with_req t].
  by rewrite Hd, Ht.
Qed.

(** One call under pacing: the delays stay, the clock does not go back,
    and a dispatch comes at least [minDelay] after the one before. *)
Lemma RoundTrip_step s :
  (0 < minDelay (t s) < maxDelay (t s))%Z -> (maxDelay (t s) <= maxInt64)%Z ->
  (0 <= oversleep env)%Z -> (lastRequest (t s) <= clock s)%Z ->
  let s' := (RoundTrip env s).2 in
  minDelay (t s') = minDelay (t s) /\ maxDelay (t s') = maxDelay (t s) /\
  (clock s <= clock s')%Z /\ (lastRequest (t s') <= clock s')%Z /\
  ((sent s' = sent s /\ lastRequest (t s') = lastRequest (t s)) \/
   (sent s' = sent s ++ [(lastRequest (t s'), req s')] /\
    (minDelay (t s) <= lastRequest (t s') - lastRequest (t s))%Z)).
Proof.
  intros Hd Hmax Hover Hmono. cbn zeta. rewrite RoundTrip_eq.
  pose proof (initSocks5_after (defaulted env (t s) (ReqHeader (req s))) s)
    as (Hsent & Hclock & Hmin & Hmx & Hlast & _).
  destruct (initSocks5 env _) as [[[] | e | msg] s1]; cbn [fst snd] in *;
    [| rewrite Hsent, Hclock, Hmin, Hmx, Hlast; repeat split; try lia; by left ..].
  destruct (delay_paces env s1) as (now & Hdel & Hnow & Hge); [lia .. |].
  rewrite Hdel. cbn [snd dispatchedAt t req clock sent lastRequest minDelay maxDelay].
  rewrite Hsent, Hmin, Hmx in *. repeat split; try lia.
  right. split; [done | lia].
Qed.

End Header.

Section Session.
Context `{lib : Codecs}.

Lemma spaced_cons d a b l :
  (d <= b - a)%Z -> spaced d (b :: l) -> spaced d (a :: b :: l).
Proof.
  intros Hab Hl [| i] x y Hx Hy; cbn in *.
  - injection Hx as <-. injection Hy as <-. done.
  - by apply (Hl i).
Qed.

(** X10. Pacing over a session.  On a transport with
    [0 < minDelay < maxDelay], whatever the requests, the answers, the
    pauses of the caller and the outcome of the SOCKS5 step: every
    dispatch of the session comes at least [minDelay] after the dispatch
    before it, the first one after the last dispatch noted in the
    transport. *)
Theorem session_paced (calls : list (Env * Request * Duration)) s :
  (0 < minDelay (t s) < maxDelay (t s))%Z -> (maxDelay (t s) <= maxInt64)%Z ->
  (lastRequest (t s) <= clock s)%Z ->
  Forall (fun c => (0 <= oversleep c.1.1)%Z /\ (0 <= c.2)%Z) calls ->
  exists new,
    sent (RoundTrips calls s) = sent s ++ new /\
    spaced (minDelay (t s)) (lastRequest (t s) :: new.*1).
Proof.
  intros Hd Hmax Hmono Hcalls. revert s Hd Hmax Hmono.
  induction Hcalls as [| [[env r] pause] calls [Hover Hpause] _ IH]; intros s Hd Hmax Hmono.
  { exists []. split; [by rewrite app_nil_r |]. by intros [| i] a b Ha Hb. }
  cbn [RoundTrips]. cbn [fst snd] in *.
  set (s0 := mkState (t s) r (clock s + pause) (sent s) (socks5Calls s)).
  destruct (RoundTrip_step env s0) as (Hmin & Hmx & Hclock & Hlast & Hcase);
    [done | done | done | cbn; lia |].
  cbn [s0 t sent clock] in Hmin, Hmx, Hcase.
  destruct (IH (RoundTrip env s0).2) as (new & Hsent & Hsp); [lia | lia | lia |].
  rewrite Hmin in Hsp.
  destruct Hcase as [[Hs Hl] | [Hs Hl]].
  - exists new. rewrite Hsent, Hs. by rewrite <- Hl.
  - exists ((lastRequest (t (RoundTrip env s0).2), req (RoundTrip env s0).2) :: new).
    rewrite Hsent, Hs, <- app_assoc. split; [done |].
    cbn [fmap list_fmap fst]. by apply spaced_cons.
Qed.

End Session.


Section TransportWitnesses.
Import Fixtures.
#[local] Existing Instance storedCodecs.

Lemma headers_only_filled_witness :
  let s := call (NewStealthTransport [WithCompression]) (get {["X-Trace" := ["abc"]]}) in
  (Get (ReqHeader (req s)) "x-trace" <> "" \/
   CanonicalMIMEHeaderKey "x-trace" ∉ touchedKeys) /\
  ReqHeader (req (RoundTrip plainEnv s).2) !! CanonicalMIMEHeaderKey "x-trace"
  = Some ["abc"].
Proof.
  cbn zeta.
  set (s := call (NewStealthTransport [WithCompression]) (get {["X-Trace" := ["abc"]]})).
  assert (Hk : Get (ReqHeader (req s)) "x-trace" <> "") by (vm_compute; discriminate).
  split; [by left |].
  pose proof (headers_only_filled plainEnv s "x-trace" (or_introl Hk)) as H.
  rewrite H. reflexivity.
Defined.

Lemma basic_defaults_applied_witness :
  let s := call (NewStealthTransport []) (get {["Accept" := ["text/html"]]}) in
  (("DNT", "1") ∈ basicDefaults /\ ("Accept", "*/*") ∈ basicDefaults) /\
  Get (ReqHeader (req (RoundTrip plainEnv s).2)) "DNT" = "1" /\
  Get (ReqHeader (req (RoundTrip plainEnv s).2)) "Accept" = "text/html".
Proof.
  cbn zeta.
  set (s := call (NewStealthTransport []) (get {["Accept" := ["text/html"]]})).
  assert (Hd : ("DNT", "1") ∈ basicDefaults) by (by apply (bool_decide_unpack _)).
  assert (Ha : ("Accept", "*/*") ∈ basicDefaults) by (by apply (bool_decide_unpack _)).
  split; [done |].
  pose proof (basic_defaults_applied plainEnv s "DNT" "1" Hd) as H1.
  pose proof (basic_defaults_applied plainEnv s "Accept" "*/*" Ha) as H2.
  rewrite H1, H2. split; reflexivity.
Defined.

Lemma user_agent_from_list_witness :
  let s := call (NewStealthTransport [WithUserAgents ["Mozilla/5.0"; "Opera/9.80"]])
             (get ∅) in
  (userAgents (t s) <> [] /\ Get (ReqHeader (req s)) "User-Agent" = "") /\
  Get (ReqHeader (req (RoundTrip plainEnv s).2)) "User-Agent"
    ∈ ["Mozilla/5.0"; "Opera/9.80"].
Proof.
  cbn zeta.
  set (s := call (NewStealthTransport [WithUserAgents ["Mozilla/5.0"; "Opera/9.80"]])
              (get ∅)).
  assert (Hne : userAgents (t s) <> []) by (vm_compute; discriminate).
  assert (Hua : Get (ReqHeader (req s)) "User-Agent" = "") by reflexivity.
  split; [done |].
  exact (user_agent_from_list plainEnv s Hne Hua).
Defined.

Lemma compression_is_transparent_witness :
  let s := call (NewStealthTransport [WithCompression]) (get ∅) in
  (compression (t s) = true /\ Get (ReqHeader (req s)) "Accept-Encoding" = "") /\
  Get (ReqHeader (req (RoundTrip plainEnv s).2)) "Accept-Encoding" = "gzip, deflate, br" /\
  forall res, (RoundTrip plainEnv s).1 = Ok res ->
              Get (RespHeader res) "Content-Encoding" = "".
Proof.
  cbn zeta. split; [done |].
  exact (compression_is_transparent plainEnv
           (call (NewStealthTransport [WithCompression]) (get ∅)) eq_refl eq_refl).
Defined.

Lemma without_compression_untouched_witness :
  let s := call (NewStealthTransport []) (get ∅) in
  compression (t s) = false /\
  ReqHeader (req (RoundTrip plainEnv s).2) !! "Accept-Encoding"
    = ReqHeader (req s) !! "Accept-Encoding" /\
  (sent (RoundTrip plainEnv s).2 = sent s \/
   (RoundTrip plainEnv s).1 = upstream plainEnv (req (RoundTrip plainEnv s).2)).
Proof.
  cbn zeta. split; [done |].
  exact (without_compression_untouched plainEnv
           (call (NewStealthTransport []) (get ∅)) eq_refl).
Defined.

Lemma no_delay_without_bounds_witness :
  let s := call (NewStealthTransport [WithDelay 0 Second]) (get ∅) in
  ((minDelay (t s) <= 0)%Z \/ (maxDelay (t s) <= 0)%Z) /\
  clock (RoundTrip plainEnv s).2 = clock s.
Proof.
  cbn zeta.
  set (s := call (NewStealthTransport [WithDelay 0 Second]) (get ∅)).
  assert (Hz : (minDelay (t s) <= 0)%Z) by (vm_compute; discriminate).
  split; [by left |].
  exact (no_delay_without_bounds plainEnv s (or_introl Hz)).
Defined.

Lemma delay_bounds_not_increasing_panic_witness :
  let s := call (NewStealthTransport [WithDelay (2 * Second) Second]) (get ∅) in
  ((0 < maxDelay (t s) <= minDelay (t s))%Z /\ (minDelay (t s) <= maxInt64)%Z) /\
  (RoundTrip plainEnv s).1 = Panic "invalid argument to Int63n" /\
  sent (RoundTrip plainEnv s).2 = sent s.
Proof.
  cbn zeta.
  set (s := call (NewStealthTransport [WithDelay (2 * Second) Second]) (get ∅)).
  assert (H1 : (0 < maxDelay (t s) <= minDelay (t s))%Z)
    by (vm_compute; split; [done | discriminate]).
  assert (H2 : (minDelay (t s) <= maxInt64)%Z) by (vm_compute; discriminate).
  split; [done |].
  destruct (delay_bounds_not_increasing_panic plainEnv s H1 H2) as [Hsent Hresult].
  split; [exact Hresult | exact Hsent].
Defined.

Lemma socks5_needs_http_transport_witness :
  let s := call (mkStealth OtherRoundTripper [] 0 0 zeroTime "127.0.0.1:9090" None false false)
             (get ∅) in
  (Transport (t s) = OtherRoundTripper /\ socks5Proxy (t s) <> "" /\
   socks5Initialized (t s) = false /\
   SOCKS5 plainEnv (socks5Proxy (t s)) (socksAuth (t s))
     = Ok (mkDialer "127.0.0.1:9090" None)) /\
  (RoundTrip plainEnv s).1
    = Panic "interface conversion: http.RoundTripper is not *http.Transport" /\
  socks5Initialized (t (RoundTrip plainEnv s).2) = false /\
  sent (RoundTrip plainEnv s).2 = sent s.
Proof.
  cbn zeta.
  set (s := call (mkStealth OtherRoundTripper [] 0 0 zeroTime "127.0.0.1:9090" None
                    false false) (get ∅)).
  assert (Hp : socks5Proxy (t s) <> "") by (vm_compute; discriminate).
  split; [done |].
  exact (socks5_needs_http_transport plainEnv s (mkDialer "127.0.0.1:9090" None)
           eq_refl Hp eq_refl eq_refl).
Defined.

Lemma session_paced_witness :
  let s := call (NewStealthTransport [WithDelay Second (3 * Second)]) (get ∅) in
  let calls := [(plainEnv, get ∅, 0%Z); (brokenSocksEnv, get ∅, Second)] in
  ((0 < minDelay (t s) < maxDelay (t s))%Z /\ (maxDelay (t s) <= maxInt64)%Z /\
   (lastRequest (t s) <= clock s)%Z /\
   Forall (fun c => (0 <= oversleep c.1.1)%Z /\ (0 <= c.2)%Z) calls) /\
  exists new,
    sent (RoundTrips calls s) = sent s ++ new /\
    spaced (minDelay (t s)) (lastRequest (t s) :: new.*1).
Proof.
  cbn zeta.
  set (s := call (NewStealthTransport [WithDelay Second (3 * Second)]) (get ∅)).
  assert (H1 : (0 < minDelay (t s) < maxDelay (t s))%Z) by (by vm_compute).
  assert (H2 : (maxDelay (t s) <= maxInt64)%Z) by (vm_compute; discriminate).
  assert (H3 : (lastRequest (t s) <= clock s)%Z) by (vm_compute; discriminate).
  assert (H4 : Forall (fun c : Env * Request * Z => (0 <= oversleep c.1.1)%Z /\ (0 <= c.2)%Z)
                 [(plainEnv, get ∅, 0%Z); (brokenSocksEnv, get ∅, Second)]).
  { repeat constructor; vm_compute; discriminate. }
  split; [done |].
  exact (session_paced _ s H1 H2 H3 H4).
Defined.

End TransportWitnesses.

End TransportFacts.

(** ** The codec bridge: decompression *)

Module BridgeFacts.
Import Strings Http Compression.

Lemma Get_Del_eq (h : Header) key : Get (Del h key) key = "".
Proof. unfold Get, Del. by rewrite lookup_delete_eq. Qed.

Lemma Get_Del_other (h : Header) key key' :
  CanonicalMIMEHeaderKey key <> CanonicalMIMEHeaderKey key' ->
  Get (Del h key) key' = Get h key'.
Proof. intros Hne. unfold Get, Del. by rewrite lookup_delete_ne. Qed.

Section Bridge.
Context `{lib : Codecs}.

Lemma compressBody_unknown body enc :
  ~ token enc -> compressBody body enc = Err (ErrUnknownCompression enc).
Proof.
  intros Hno. unfold compressBody.
  destruct (String.eqb_spec enc Gzip) as [-> | _]; [destruct Hno; constructor |].
  destruct (String.eqb_spec enc Deflate) as [-> | _]; [destruct Hno; constructor |].
  destruct (String.eqb_spec enc Brotli) as [-> | _]; [destruct Hno; constructor |].
  done.
Qed.

(** What a successful [decompressResponse] leaves. *)
Lemma decompressResponse_ok res res' :
  decompressResponse res = Ok res' ->
  (Get (RespHeader res) "Content-Encoding" = "" /\ res' = res) \/
  (Get (RespHeader res) "Content-Encoding" <> "" /\
   exists plain,
     res' = mkResponse (StatusCode res) (Del (RespHeader res) "Content-Encoding")
              (BodyBytes plain) (Z.of_nat (String.length plain))).
Proof.
  unfold decompressResponse.
  destruct (String.eqb_spec (Get (RespHeader res) "Content-Encoding") "") as [E | E].
  { intros [= <-]. by left. }
  match goal with |- match ?r with _ => _ end = _ -> _ => destruct r as [plain | |] end;
    [| done | done].
  intros [= <-]. right. split; [done |]. by exists plain.
Qed.

(** X11. A response that [decompressResponse] accepted is plain: it has no
    [Content-Encoding], its status and its other headers are those of
    the response given, a body that was decoded is held in memory with
    [ContentLength] its length, and decompressing it again changes
    nothing. *)
Theorem decompress_once res res' :
  decompressResponse res = Ok res' ->
  Get (RespHeader res') "Content-Encoding" = "" /\
  decompressResponse res' = Ok res' /\
  StatusCode res' = StatusCode res /\
  (forall key, CanonicalMIMEHeaderKey key <> "Content-Encoding" ->
     Get (RespHeader res') key = Get (RespHeader res) key) /\
  (Get (RespHeader res) "Content-Encoding" = "" \/
   exists plain, RespBody res' = BodyBytes plain /\
                 ContentLength res' = Z.of_nat (String.length plain)).
Proof.
  intros [[E ->] | [E (plain & ->)]]%decompressResponse_ok.
  - repeat split; try done; [| by left]. unfold decompressResponse. by rewrite E.
  - cbn [RespHeader StatusCode RespBody ContentLength].
    assert (Hclear : Get (Del (RespHeader res) "Content-Encoding") "Content-Encoding" = "")
      by apply Get_Del_eq.
    repeat split; try done.
    + unfold decompressResponse. cbn [RespHeader]. by rewrite Hclear.
    + intros key Hkey. apply Get_Del_other. intros Heq. apply Hkey. by rewrite <- Heq.
    + right. by exists plain.
Qed.

End Bridge.

Section BridgeWitnesses.
Import Fixtures.
#[local] Existing Instance storedCodecs.

Lemma decompress_once_witness :
  let res := mkResponse 200 {["Content-Encoding" := ["x-gzip"]; "Etag" := ["7"]]}
               (BodyBytes "Ghello") 6 in
  let res' := mkResponse 200 {["Etag" := ["7"]]} (BodyBytes "hello") 5 in
  decompressResponse res = Ok res' /\
  Get (RespHeader res') "Content-Encoding" = "" /\
  decompressResponse res' = Ok res' /\
  StatusCode res' = StatusCode res /\
  (forall key, CanonicalMIMEHeaderKey key <> "Content-Encoding" ->
     Get (RespHeader res') key = Get (RespHeader res) key) /\
  (Get (RespHeader res) "Content-Encoding" = "" \/
   exists plain, RespBody res' = BodyBytes plain /\
                 ContentLength res' = Z.of_nat (String.length plain)).
Proof.
  cbn zeta.
  assert (H : decompressResponse
                (mkResponse 200 {["Content-Encoding" := ["x-gzip"]; "Etag" := ["7"]]}
                   (BodyBytes "Ghello") 6)
              = Ok (mkResponse 200 {["Etag" := ["7"]]} (BodyBytes "hello") 5))
    by (by vm_compute).
  split; [exact H |].
  exact (decompress_once _ _ H).
Defined.

End BridgeWitnesses.
End BridgeFacts.

(** ** The handler *)

Module HandlerFacts.
Import Strings Internal Url Http Html Compression InternalCompression Effects Proxy.
Import Rewriting Registry.
Import HandlerViews.

(** *** Copying a header map *)

Lemma addValues_lookup name values (dst : Header) key :
  CanonicalMIMEHeaderKey name = name ->
  fold_left (fun dst value => Add dst name value) values dst !! key =
    if decide (key = name)
    then match values with
         | [] => dst !! key
         | _ => Some (default [] (dst !! key) ++ values)
         end
    else dst !! key.
Proof.
  intros Hname. revert dst. induction values as [| v values IH]; intros dst.
  { by destruct (decide _). }
  cbn [fold_left]. rewrite IH. unfold Add. rewrite Hname.
  destruct (decide (key = name)) as [-> | Hne].
  - rewrite lookup_insert_eq. destruct values; [done |].
    cbn. by rewrite <- app_assoc.
  - by rewrite lookup_insert_ne.
Qed.

Lemma addAll_lookup (h dst : Header) :
  wellFormed h ->
  forall key, addAll h dst !! key =
    match h !! key with
    | Some values => Some (default [] (dst !! key) ++ values)
    | None => dst !! key
    end.
Proof.
  unfold addAll.
  apply (map_fold_weak_ind
    (fun (r : Header) (m : Header) => wellFormed m -> forall key,
       r !! key = match m !! key with
                  | Some values => Some (default [] (dst !! key) ++ values)
                  | None => dst !! key
                  end)).
  { intros _ key. by rewrite lookup_empty. }
  intros name values m r Hfresh IH Hwf key.
  destruct (Hwf name values) as [Hname Hvalues]; [by rewrite lookup_insert_eq |].
  assert (Hm : wellFormed m).
  { intros k vs Hk. apply (Hwf k vs). rewrite lookup_insert_ne; [done |]. congruence. }
  rewrite addValues_lookup by done.
  destruct (decide (key = name)) as [-> | Hne].
  - rewrite lookup_insert_eq, (IH Hm), Hfresh. by destruct values.
  - rewrite lookup_insert_ne by done. by apply IH.
Qed.

Lemma addAll_empty (h : Header) : wellFormed h -> addAll h ∅ = h.
Proof.
  intros Hwf. apply map_eq. intros key. rewrite addAll_lookup by done.
  rewrite lookup_empty. by destruct (h !! key).
Qed.

(** *** What the steps of the handler leave alone *)

Lemma sameOutside_refl s : sameOutside s s.
Proof. done. Qed.

Lemma sameOutside_trans s1 s2 s3 :
  sameOutside s1 s2 -> sameOutside s2 s3 -> sameOutside s1 s3.
Proof. intros [? ?] [? ?]. split; congruence. Qed.

Lemma sameWriter_refl s : sameWriter s s.
Proof. done. Qed.

Lemma sameWriter_trans s1 s2 s3 :
  sameWriter s1 s2 -> sameWriter s2 s3 -> sameWriter s1 s3.
Proof. intros [[? ?] ?] [[? ?] ?]. repeat split; congruence. Qed.

Lemma sameWriter_outside s s' : sameWriter s s' -> sameOutside s s'.
Proof. by intros [? _]. Qed.

Section Frames.
Variable R : World -> World -> Prop.
Hypothesis R_refl : forall s, R s s.
Hypothesis R_trans : forall s1 s2 s3, R s1 s2 -> R s2 s3 -> R s1 s3.

Lemma bind_keeps {A B} (m : M A) (f : A -> M B) s :
  R s (m s).2 -> (forall a s', R s' (f a s').2) -> R s ((m ≫= f) s).2.
Proof using R_trans.
  intros Hm Hf. unfold mbind, M_bind, bind.
  destruct (m s) as [[a | e | msg] s']; cbn [snd] in *; [| done | done].
  by eapply R_trans.
Qed.

Lemma wrapErr_keeps {A} context (m : M A) s : R s (m s).2 -> R s (wrapErr context m s).2.
Proof. unfold wrapErr. by destruct (m s) as [[a | e | msg] s']. Qed.

Lemma forEach_keeps {A B} (f : A -> M B) xs :
  Forall (fun x => forall s, R s (f x s).2) xs ->
  forall s, R s (forEach f xs s).2.
Proof using R_refl R_trans.
  induction 1 as [| x xs Hx _ IH]; intros s; [apply R_refl |].
  cbn [forEach]. apply bind_keeps; [apply Hx |]. intros y s'.
  apply bind_keeps; [apply IH |]. intros ys s''. apply R_refl.
Qed.

End Frames.

Lemma load_state l s : (load l s).2 = s.
Proof. unfold load. by destruct (l ≫= _). Qed.

Lemma store_writer l f s : sameWriter s (store l f s).2.
Proof.
  unfold store, mbind, M_bind, bind.
  pose proof (load_state l s) as H. destruct (load l s) as [[u | e | msg] s']; cbn in *;
    by subst s'.
Qed.

Lemma rewriteAttr_writer p target attr attrs s :
  sameWriter s (rewriteAttr p target attr attrs s).2.
Proof.
  unfold rewriteAttr. destruct (Attr attrs attr) as [val |]; [| done].
  apply (bind_keeps sameWriter sameWriter_trans); [apply store_writer |].
  intros [] s'. destruct (_ || _); [| done].
  apply (bind_keeps sameWriter sameWriter_trans); [by rewrite load_state | done].
Qed.

Lemma rewriteElement_writer p target attrs s :
  sameWriter s (rewriteElement p target attrs s).2.
Proof.
  unfold rewriteElement.
  apply (bind_keeps sameWriter sameWriter_trans); [apply rewriteAttr_writer |].
  intros attrs' s'. apply rewriteAttr_writer.
Qed.

Lemma rewriteNode_writer p target n : forall s, sameWriter s (rewriteNode p target n s).2.
Proof.
  induction n as [data | tag attrs children IH] using RewritingFacts.Node_ind; intros s;
    [done |].
  cbn [rewriteNode].
  apply (bind_keeps sameWriter sameWriter_trans).
  { destruct (selected tag attrs); [apply rewriteElement_writer | done]. }
  intros attrs' s'.
  apply (bind_keeps sameWriter sameWriter_trans); [| done].
  by apply (forEach_keeps sameWriter sameWriter_refl sameWriter_trans).
Qed.

Lemma rewriteNodes_writer p target nodes s :
  sameWriter s (rewriteNodes p target nodes s).2.
Proof.
  apply (forEach_keeps sameWriter sameWriter_refl sameWriter_trans), Forall_forall.
  intros n _. apply rewriteNode_writer.
Qed.


Lemma copyHeaders_eq resp s :
  copyHeaders resp s =
    (Ok (), with_w (with_wHeader withCors) (copied resp s)).
Proof. by destruct s as [hp ls ds []]. Qed.

Lemma withCors_other (h : Header) key :
  key ∉ corsKeys -> withCors h !! key = h !! key.
Proof.
  intros Hkey. unfold withCors, Set_.
  rewrite !lookup_insert_ne; [done | intros <-; apply Hkey; by apply (bool_decide_unpack _) ..].
Qed.

Lemma Get_withCors_origin (h : Header) :
  Get (withCors h) "Access-Control-Allow-Origin" = "*".
Proof.
  unfold withCors. rewrite !ProxyFacts.Get_Set_other by (vm_compute; discriminate).
  unfold Get, Set_. by rewrite lookup_insert_eq.
Qed.

Lemma announced_withCors (h : Header) : announced (withCors h) = announced h.
Proof.
  unfold withCors. by rewrite !ProxyFacts.announced_Set by (vm_compute; discriminate).
Qed.

Lemma settled_lookup (h : Header) key :
  key <> "Content-Length" -> settled h !! key = h !! key.
Proof.
  intros Hkey. unfold settled. destruct (_ || _); [done |].
  unfold Del. by rewrite lookup_delete_ne.
Qed.

Lemma offered_same code (h h' : Header) b body :
  announced h' = announced h -> offered code h' b body = offered code h b body.
Proof. intros H. unfold offered, accepts. by rewrite H. Qed.

(** *** The writer *)

Lemma Write_outside b s : sameOutside s (Write b s).2.
Proof.
  unfold Write.
  apply (bind_keeps sameOutside sameOutside_trans); [done |]. intros started s1.
  apply (bind_keeps sameOutside sameOutside_trans).
  { destruct started; [done | apply ProxyFacts.WriteHeader_outside]. }
  intros [] s2. destruct (b =? ""); [done |].
  apply (bind_keeps sameOutside sameOutside_trans); [done |]. intros status s3.
  destruct (negb _); [done |].
  apply (bind_keeps sameOutside sameOutside_trans); [done |]. intros [] s4.
  apply (bind_keeps sameOutside sameOutside_trans); [done |]. intros overrun s5.
  destruct overrun; [done |].
  by apply (bind_keeps sameOutside sameOutside_trans).
Qed.

Lemma Error_outside msg code s : sameOutside s (Error msg code s).2.
Proof.
  unfold Error.
  apply (bind_keeps sameOutside sameOutside_trans); [done |]. intros [] s1.
  apply (bind_keeps sameOutside sameOutside_trans); [done |]. intros [] s2.
  apply (bind_keeps sameOutside sameOutside_trans); [apply ProxyFacts.WriteHeader_outside |].
  intros [] s3.
  apply (bind_keeps sameOutside sameOutside_trans); [apply Write_outside | done].
Qed.

Lemma Get_refused_type msg code w0 :
  Get (wHeader (refused msg code w0)) "Content-Type" = "text/plain; charset=utf-8".
Proof.
  unfold refused, replied, with_wHeader. cbn [wHeader].
  rewrite ProxyFacts.Get_settled by (vm_compute; discriminate).
  rewrite ProxyFacts.Get_Set_other by (vm_compute; discriminate).
  unfold Get, Set_. by rewrite lookup_insert_eq.
Qed.

Lemma refused_body msg code w0 :
  wBody (refused msg code w0) = offered code (wHeader w0) (errorLine msg) (wBody w0).
Proof.
  unfold refused, replied, with_wHeader. cbn [wBody wHeader].
  apply offered_same. by rewrite !ProxyFacts.announced_Set by (vm_compute; discriminate).
Qed.

(** What [http.Error] with the status 502 does to a response not yet
    begun. *)
Lemma Error_answered msg s :
  wStatus (w s) = None ->
  let out := Error msg StatusBadGateway s in
  out.1 = Ok () /\ heap out.2 = heap s /\ dispatched out.2 = dispatched s /\
  answeredWith StatusBadGateway msg s out.2.
Proof.
  intros Hfresh. cbn zeta. rewrite ProxyFacts.Error_bad_gateway by done.
  unfold answeredWith. cbn [fst snd with_w w heap dispatched].
  repeat split; [apply refused_body | apply Get_refused_type].
Qed.

Section Handler.
Context `{codecs : Codecs}.
Variable url_Parse : string -> option URL.
Variable html_Parse : string -> option Document.
Variable html_Render : Document -> option string.
Variable url_Resolve : URL -> string -> option URL.
Variable redirect_Header : Request -> Request -> URL -> Header.

Lemma copyBody_writer p resp target s :
  sameWriter s (copyBody html_Parse html_Render p resp target s).2.
Proof.
  unfold copyBody, readBody. destruct (negb _).
  { by destruct (ReadAll _). }
  destruct (ReadAll _) as [bytes |]; [| done].
  unfold mbind, M_bind, bind. cbn.
  destruct (html_Parse bytes) as [document |]; [| done].
  pose proof (rewriteNodes_writer p target document s) as H.
  destruct (rewriteNodes p target document s) as [[d | e | msg] s']; cbn in *; [| done | done].
  by destruct (html_Render d).
Qed.

Lemma copyResponse_outside p resp target s :
  sameOutside s (copyResponse html_Parse html_Render p resp target s).2.
Proof.
  unfold copyResponse. destruct resp as [resp |]; [| done].
  apply (bind_keeps sameOutside sameOutside_trans); [done |]. intros [] s1.
  apply (bind_keeps sameOutside sameOutside_trans).
  { destruct (negb _); [| done]. by apply wrapErr_keeps. }
  intros resp' s2.
  apply (bind_keeps sameOutside sameOutside_trans).
  { apply wrapErr_keeps, sameWriter_outside, copyBody_writer. }
  intros body s3.
  apply (bind_keeps sameOutside sameOutside_trans).
  { destruct (negb _); [| done].
    apply (bind_keeps sameOutside sameOutside_trans); [by apply wrapErr_keeps | done]. }
  intros body' s4.
  apply (bind_keeps sameOutside sameOutside_trans); [apply ProxyFacts.WriteHeader_outside |].
  intros [] s5.
  apply (bind_keeps sameOutside sameOutside_trans); [apply Write_outside | done].
Qed.

(** X12. Per incoming request the handler sends at least one and at most
    ten requests to the transport when the upstream request can be
    built, and none otherwise.  The first is the request after the
    [PreRequest] hook; the others are the redirects the client follows.
    When the transport fails on the first request, or answers it with
    anything but a redirect with a [Location], the first request is the
    only one, whatever happens while the answer is copied.  The handler
    binds no listener. *)
Theorem forward_dispatches_bounded p target r s :
  let s' := (forwardRequest url_Parse html_Parse html_Render url_Resolve redirect_Header
               p target r s).2 in
  listeners s' = listeners s /\
  match buildRequest url_Parse r target with
  | Ok newReq =>
      exists more,
        dispatched s' = dispatched s ++ outgoing target newReq :: more /\
        (length more < 10)%nat /\
        match transport p (outgoing target newReq) with
        | Ok answer => if followed answer then True else more = []
        | _ => more = []
        end
  | _ => dispatched s' = dispatched s
  end.
Proof.
  cbn zeta. rewrite ProxyFacts.forwardRequest_eq.
  destruct (buildRequest url_Parse r target) as [newReq | e | msg];
    [| apply Error_outside ..].
  unfold Do.
  destruct (ProxyFacts.send_frame url_Resolve redirect_Header (transport p) 10
              (outgoing target newReq) (outgoing target newReq) s)
    as (_ & Hl & _ & Herr & more & Hd & Hlen & rest & -> & Hrest).
  cbn zeta in *.
  assert (Hgoal : forall s',
            sameOutside (send url_Resolve redirect_Header (transport p) 10
                           (outgoing target newReq) (outgoing target newReq) s).2 s' ->
            listeners s' = listeners s /\
            exists more,
              dispatched s' = dispatched s ++ outgoing target newReq :: more /\
              (length more < 10)%nat /\
              match transport p (outgoing target newReq) with
              | Ok answer => if followed answer then True else more = []
              | _ => more = []
              end).
  { intros s' [Hl' Hd']. split; [congruence |]. exists rest.
    split; [congruence |]. split; [cbn in Hlen; lia |].
    destruct (transport p (outgoing target newReq)) as [answer | |]; [| done | done].
    destruct (followed answer); [done | by apply Hrest]. }
  destruct (send _ _ _ _ _ _ s) as [[[resp [err |]] | e | msg] s1]; cbn [fst snd] in *.
  - apply Hgoal, Error_outside.
  - destruct (Method r =? MethodOptions).
    { apply Hgoal.
      eapply sameOutside_trans; [| apply ProxyFacts.WriteHeader_outside]. done. }
    pose proof (copyResponse_outside p (incoming target resp) target s1) as Hcopy.
    destruct (copyResponse _ _ _ _ _ _) as [[[] | e | msg] s2]; cbn [snd] in Hcopy;
      [by apply Hgoal | | by apply Hgoal].
    apply Hgoal. eapply sameOutside_trans; [exact Hcopy | apply Error_outside].
  - by apply Hgoal.
  - by apply Hgoal.
Qed.

(** [copyResponse], case by case. *)
Lemma copyResponse_eq p resp target s :
  copyResponse html_Parse html_Render p (Some resp) target s =
    let enc := Get (RespHeader resp) "Content-Encoding" in
    let s1 := with_w (with_wHeader withCors) (copied resp s) in
    match (if negb (String.eqb enc "") then DecompressResponse resp else Ok resp) with
    | Ok resp' =>
        match copyBody html_Parse html_Render p resp' target s1 with
        | (Ok newBody, s2) =>
            match (if negb (String.eqb enc "") then CompressBody newBody enc
                   else Ok newBody) with
            | Ok out =>
                (WriteHeader (StatusCode resp');; _ ← Write out; mret ())
                  (if negb (String.eqb enc "")
                   then with_w (with_wHeader (fun h => Set_ h "Content-Encoding" enc)) s2
                   else s2)
            | Err e => (Err (ErrWrap "error compressing response body" e), s2)
            | Panic msg => (Panic msg, s2)
            end
        | (Err e, s2) => (Err (ErrWrap "error copying response body" e), s2)
        | (Panic msg, s2) => (Panic msg, s2)
        end
    | Err e => (Err (ErrWrap "error decompressing response body" e), s1)
    | Panic msg => (Panic msg, s1)
    end.
Proof.
  cbn zeta. unfold copyResponse.
  unfold mbind at 1, M_bind at 1, bind at 1. rewrite copyHeaders_eq.
  set (s1 := with_w _ (copied resp s)). clearbody s1.
  unfold mbind at 1, M_bind at 1, bind at 1.
  destruct (negb (Get (RespHeader resp) "Content-Encoding" =? "")) eqn:Henc.
  - unfold wrapErr at 1, lift at 1.
    destruct (DecompressResponse resp) as [resp' | e | msg]; [| done | done].
    unfold mbind at 1, M_bind at 1, bind at 1, wrapErr at 1.
    destruct (copyBody html_Parse html_Render p resp' target s1) as [[body | e | msg] s2];
      [| done | done].
    unfold mbind at 1, M_bind at 1, bind at 1.
    unfold mbind at 1, M_bind at 1, bind at 1, wrapErr at 1, lift at 1.
    destruct (CompressBody body _) as [out | e | msg]; [| done | done].
    unfold mbind at 1, M_bind at 1, bind at 1, wSet at 1, modify at 1.
    by cbn [mret M_ret ret].
  - cbn [mret M_ret ret].
    unfold mbind at 1, M_bind at 1, bind at 1, wrapErr at 1.
    by destruct (copyBody html_Parse html_Render p resp target s1) as [[body | e | msg] s2].
Qed.

(** The handler on an answer the client returns as it is. *)
Lemma forwardRequest_direct p target r newReq answer s :
  String.eqb (Method r) MethodOptions = false ->
  buildRequest url_Parse r target = Ok newReq ->
  transport p (outgoing target newReq) = Ok answer ->
  followed answer = false ->
  forwardRequest url_Parse html_Parse html_Render url_Resolve redirect_Header p target r s =
    match copyResponse html_Parse html_Render p (incoming target (Some answer)) target
            (logged (outgoing target newReq) s) with
    | (Err _, s') => Error "Error copying response" StatusBadGateway s'
    | done => done
    end.
Proof.
  intros Hmethod Hbuild Hanswer Hdirect.
  rewrite ProxyFacts.forwardRequest_eq, Hbuild. unfold Do.
  by rewrite (ProxyFacts.send_direct _ _ _ _ _ _ answer), Hmethod.
Qed.

(** X13. A request that cannot be forwarded is answered 502.  On a
    response not yet begun: when the upstream request cannot be built,
    the handler answers with the line [Error constructing new request]
    and the transport is not called; when the transport fails, the
    handler answers with the line [Error forwarding request].  In both
    cases the response is [text/plain], the handler returns, and the
    address of the proxy is not written.  The line is handed to the
    writer, which takes it unless the headers of the response already
    announce a [Content-Length] shorter than the line. *)
Theorem failures_answered_bad_gateway p target r s :
  wStatus (w s) = None ->
  let out := forwardRequest url_Parse html_Parse html_Render url_Resolve redirect_Header
               p target r s in
  match buildRequest url_Parse r target with
  | Ok newReq =>
      forall e, transport p (outgoing target newReq) = Err e ->
        out.1 = Ok () /\ heap out.2 = heap s /\
        answeredWith StatusBadGateway "Error forwarding request" s out.2
  | _ =>
      out.1 = Ok () /\ heap out.2 = heap s /\ dispatched out.2 = dispatched s /\
      answeredWith StatusBadGateway "Error constructing new request" s out.2
  end.
Proof.
  intros Hfresh. cbn zeta. rewrite ProxyFacts.forwardRequest_eq.
  destruct (buildRequest url_Parse r target) as [newReq | e | msg];
    [| by apply Error_answered ..].
  intros e He. unfold Do. rewrite (ProxyFacts.send_failed _ _ _ _ _ _ e) by done.
  destruct (Error_answered "Error forwarding request" (logged (outgoing target newReq) s))
    as (H1 & H2 & _ & H4); [done |].
  done.
Qed.

(** X14. A response whose [Content-Encoding] names none of the three
    codecs is never delivered: the handler answers 502 with the line
    [Error copying response], on top of the headers of the upstream,
    which it has already copied, the [Content-Encoding] and the
    [Content-Length] among them; the address of the proxy is not
    written. *)
Theorem unknown_encoding_bad_gateway p target r newReq answer resp s :
  String.eqb (Method r) MethodOptions = false ->
  buildRequest url_Parse r target = Ok newReq ->
  transport p (outgoing target newReq) = Ok answer ->
  followed answer = false ->
  incoming target (Some answer) = Some resp ->
  Get (RespHeader resp) "Content-Encoding" <> "" ->
  matched (Get (RespHeader resp) "Content-Encoding") = None ->
  wellFormed (RespHeader resp) ->
  wStatus (w s) = None ->
  let out := forwardRequest url_Parse html_Parse html_Render url_Resolve redirect_Header
               p target r s in
  out.1 = Ok () /\ heap out.2 = heap s /\
  answeredWith StatusBadGateway "Error copying response" (copied resp s) out.2 /\
  forall key, key ∉ corsKeys -> key ∉ errorKeys ->
    wHeader (w out.2) !! key =
      match RespHeader resp !! key with
      | Some values => Some (default [] (wHeader (w s) !! key) ++ values)
      | None => wHeader (w s) !! key
      end.
Proof.
  intros Hmethod Hbuild Hanswer Hdirect Hresp Henc Hmatched Hwf Hfresh. cbn zeta.
  rewrite (forwardRequest_direct p target r newReq answer) by done.
  rewrite Hresp, copyResponse_eq. cbn zeta.
  apply String.eqb_neq in Henc as Henc'. rewrite Henc'. cbn [negb].
  unfold DecompressResponse. rewrite Henc', Hmatched.
  set (s1 := with_w _ _).
  rewrite ProxyFacts.Error_bad_gateway by done.
  cbn [fst snd]. split; [done |]. split; [done |]. split.
  - unfold answeredWith. cbn [with_w w]. split; [done |].
    split; [| apply Get_refused_type].
    rewrite refused_body. subst s1. cbn [with_w w with_wHeader wHeader wBody copied].
    apply offered_same, announced_withCors.
  - intros key Hkey Herr. subst s1.
    cbn [with_w w refused replied with_wHeader wHeader copied].
    assert (key <> "Content-Length" /\ key <> "Content-Type" /\
            key <> "X-Content-Type-Options") as (H1 & H2 & H3).
    { repeat split; intros ->; apply Herr; by apply (bool_decide_unpack _). }
    rewrite settled_lookup by done. unfold Set_.
    rewrite !lookup_insert_ne by (by intros <-).
    rewrite withCors_other by done. by apply addAll_lookup.
Qed.

(** X15. A response that is not HTML and carries no [Content-Encoding],
    and that the client returns as it is, passes through: the handler
    writes the status of the upstream response and hands its bytes to
    the writer, which takes them when the status allows a body and they
    do not exceed a [Content-Length] among the copied headers;
    [Access-Control-Allow-Origin] is [*], whatever the upstream sent;
    every header of the upstream outside the three CORS headers is added
    to the headers of the response under way; one request went to the
    transport; and the address of the proxy is not written. *)
Theorem plain_response_passes_through p target r newReq answer resp bytes s :
  String.eqb (Method r) MethodOptions = false ->
  buildRequest url_Parse r target = Ok newReq ->
  transport p (outgoing target newReq) = Ok answer ->
  followed answer = false ->
  incoming target (Some answer) = Some resp ->
  Get (RespHeader resp) "Content-Encoding" = "" ->
  Contains (Get (RespHeader resp) "Content-Type") "text/html" = false ->
  ReadAll (RespBody resp) = Some bytes ->
  (200 <= StatusCode resp <= 999)%Z ->
  wellFormed (RespHeader resp) ->
  wStatus (w s) = None ->
  let out := forwardRequest url_Parse html_Parse html_Render url_Resolve redirect_Header
               p target r s in
  out.1 = Ok () /\
  dispatched out.2 = dispatched s ++ [outgoing target newReq] /\
  wStatus (w out.2) = Some (StatusCode resp) /\
  wBody (w out.2)
  = offered (StatusCode resp) (wHeader (w (copied resp s))) bytes (wBody (w s)) /\
  heap out.2 = heap s /\
  Get (wHeader (w out.2)) "Access-Control-Allow-Origin" = "*" /\
  forall key, key ∉ corsKeys -> key <> "Content-Length" ->
    wHeader (w out.2) !! key =
      match RespHeader resp !! key with
      | Some values => Some (default [] (wHeader (w s) !! key) ++ values)
      | None => wHeader (w s) !! key
      end.
Proof.
  intros Hmethod Hbuild Hanswer Hdirect Hresp Henc Htype Hread Hcode Hwf Hfresh. cbn zeta.
  rewrite (forwardRequest_direct p target r newReq answer) by done.
  rewrite Hresp, copyResponse_eq. cbn zeta. rewrite Henc. cbn [String.eqb negb].
  unfold copyBody, readBody. rewrite Htype, Hread. cbn [negb mret M_ret ret].
  rewrite ProxyFacts.reply_fresh by done.
  cbn [fst snd with_w w heap dispatched replied with_wHeader wHeader wBody wStatus copied
       logged].
  repeat split; try done.
  - apply offered_same, announced_withCors.
  - rewrite ProxyFacts.Get_settled by (vm_compute; discriminate). apply Get_withCors_origin.
  - intros key Hkey Hlen. rewrite settled_lookup, withCors_other by done.
    by apply addAll_lookup.
Qed.

Lemma matched_nonempty enc c name : matched enc = Some (c, name) -> enc <> "".
Proof. by intros H ->. Qed.

Lemma DecompressResponse_matched resp enc c name y :
  Get (RespHeader resp) "Content-Encoding" = enc -> matched enc = Some (c, name) ->
  ReadAll (RespBody resp) = Some y ->
  DecompressResponse resp =
    match inflate_all c y with
    | Some plain =>
        Ok (mkResponse (StatusCode resp) (Del (RespHeader resp) "Content-Encoding")
              (BodyBytes plain) (Z.of_nat (String.length plain)))
    | None => Err (ErrCodec name)
    end.
Proof.
  intros Henc Hmatched Hread. unfold DecompressResponse, readThrough.
  rewrite Henc, Hmatched, Hread.
  apply matched_nonempty, String.eqb_neq in Hmatched as ->.
  by destruct (inflate_all c y).
Qed.

(** X16. An encoded response that is not HTML, and that the client
    returns as it is, is decoded and encoded again with the codec its
    [Content-Encoding] names: for a body the library decodes to [plain],
    the handler writes the status and the [Content-Encoding] of the
    upstream and hands the bytes the writer of the library makes of
    [plain], not the bytes of the upstream, to the response writer,
    which takes them when the status allows a body and they do not
    exceed a [Content-Length] among the copied headers; a body the
    library rejects gives 502. *)
Theorem encoded_response_recoded p target r newReq answer resp enc c name y s :
  String.eqb (Method r) MethodOptions = false ->
  buildRequest url_Parse r target = Ok newReq ->
  transport p (outgoing target newReq) = Ok answer ->
  followed answer = false ->
  incoming target (Some answer) = Some resp ->
  Get (RespHeader resp) "Content-Encoding" = enc ->
  matched enc = Some (c, name) ->
  Contains (Get (RespHeader resp) "Content-Type") "text/html" = false ->
  ReadAll (RespBody resp) = Some y ->
  (200 <= StatusCode resp <= 999)%Z ->
  wStatus (w s) = None ->
  let out := forwardRequest url_Parse html_Parse html_Render url_Resolve redirect_Header
               p target r s in
  out.1 = Ok () /\
  match inflate_all c y with
  | Some plain =>
      wStatus (w out.2) = Some (StatusCode resp) /\
      Get (wHeader (w out.2)) "Content-Encoding" = enc /\
      wBody (w out.2)
      = offered (StatusCode resp) (wHeader (w (copied resp s))) (deflate_all c plain)
          (wBody (w s))
  | None => answeredWith StatusBadGateway "Error copying response" (copied resp s) out.2
  end.
Proof.
  intros Hmethod Hbuild Hanswer Hdirect Hresp Henc Hmatched Htype Hread Hcode Hfresh.
  cbn zeta.
  rewrite (forwardRequest_direct p target r newReq answer) by done.
  rewrite Hresp, copyResponse_eq. cbn zeta. rewrite Henc.
  pose proof (matched_nonempty _ _ _ Hmatched) as Hne. apply String.eqb_neq in Hne.
  rewrite Hne. cbn [negb].
  rewrite (DecompressResponse_matched resp enc c name y) by done.
  destruct (inflate_all c y) as [plain |].
  - unfold copyBody, readBody. cbn [RespHeader RespBody ReadAll].
    rewrite BridgeFacts.Get_Del_other by (vm_compute; discriminate).
    rewrite Htype. cbn [negb mret M_ret ret].
    unfold CompressBody. rewrite Hmatched.
    rewrite ProxyFacts.reply_fresh by done.
    cbn [fst snd with_w w heap dispatched replied with_wHeader wHeader wBody wStatus copied
         logged StatusCode].
    repeat split; try done.
    + rewrite ProxyFacts.Get_settled by (vm_compute; discriminate).
      unfold Get, Set_. by rewrite lookup_insert_eq.
    + apply offered_same.
      rewrite ProxyFacts.announced_Set by (vm_compute; discriminate).
      apply announced_withCors.
  - rewrite ProxyFacts.Error_bad_gateway by done. split; [done |]. unfold answeredWith.
    cbn [snd with_w w]. split; [done |]. split; [| apply Get_refused_type].
    rewrite refused_body.
    cbn [with_w w with_wHeader wHeader wBody copied logged].
    apply offered_same, announced_withCors.
Qed.

(** X17. The upstream request is the incoming one pointed at the origin:
    [buildRequest] keeps the method (an empty one reads [GET]), the body
    and, for a header map as the server hands it over, the headers, and
    asks for the connection to be closed; the URL is the one
    [http.NewRequest] parses from the origin's scheme and host, the path
    without the prefix of the target and the query of the incoming
    request. *)
Theorem buildRequest_copies r target newReq :
  wellFormed (ReqHeader r) ->
  buildRequest url_Parse r target = Ok newReq ->
  Method newReq = (if String.eqb (Method r) "" then "GET" else Method r) /\
  ReqHeader newReq = ReqHeader r /\
  ReadAll (ReqBody newReq) = ReadAll (ReqBody r) /\
  Close newReq = true /\
  exists origin u,
    url_Parse (BaseUrl target) = Some origin /\
    url_Parse (String_ (mkURL (Scheme origin) (Host origin)
                          (TrimPrefix (Path (ReqURL r)) (Prefix target))
                          (RawQuery (ReqURL r)))) = Some u /\
    ReqURL newReq = set_Host (TrimSuffix (Host u) ":") u.
Proof.
  intros Hwf. unfold buildRequest, NewRequest.
  destruct (url_Parse (BaseUrl target)) as [origin |]; [| done].
  destruct (ReadAll (ReqBody r)) as [bytes |] eqn:Hread; [| done].
  cbn [set_Scheme set_Host set_Path Scheme Host Path RawQuery].
  destruct (negb (validMethod _)); [done |].
  destruct (url_Parse (String_ _)) as [u |] eqn:Hu; [| done].
  intros [= <-]. cbn [Method ReqHeader ReqBody Close ReqURL ReadAll].
  repeat split; try done; [by apply addAll_empty |].
  by exists origin, u.
Qed.

End Handler.

Section HandlerWitnesses.
Import Fixtures Samples.
#[local] Existing Instance storedCodecs.

Lemma wellFormed_singleton key values :
  CanonicalMIMEHeaderKey key = key -> values <> [] -> wellFormed {[key := values]}.
Proof. intros Hkey Hvalues k vs [<- <-]%lookup_singleton_Some. by split. Qed.

Lemma wellFormed_insert key values (h : Header) :
  CanonicalMIMEHeaderKey key = key -> values <> [] -> wellFormed h ->
  wellFormed (<[key := values]> h).
Proof.
  intros Hkey Hvalues Hh k vs [[<- <-] | [_ Hk]]%lookup_insert_Some; [done |].
  by apply Hh.
Qed.

Lemma wellFormed_empty : wellFormed ∅.
Proof. intros k vs H. by rewrite lookup_empty in H. Qed.

(** A transport that redirects without end is called ten times for one
    incoming request, and the handler answers 502. *)
Lemma redirects_stop_after_ten :
  let out := forwardRequest Parse (parseAmong pages) print resolve redirectHeader
               (proxyOver redirecting) exampleTarget getRequest exampleWorld in
  out.1 = Ok () /\ length (dispatched out.2) = 10%nat /\
  wStatus (w out.2) = Some StatusBadGateway.
Proof. vm_compute. done. Qed.

(** A body longer than the [Content-Length] the upstream sent is not
    written: the status and the headers are, the bytes are not. *)
Lemma stale_length_drops_body :
  let out := forwardRequest Parse (parseAmong pages) print resolve redirectHeader
               (proxyOver (fun _ => Ok staleResponse)) exampleTarget getRequest
               exampleWorld in
  out.1 = Ok () /\ wStatus (w out.2) = Some 200%Z /\
  Get (wHeader (w out.2)) "Content-Length" = "1" /\ wBody (w out.2) = "".
Proof. vm_compute. done. Qed.

Lemma failures_answered_bad_gateway_witness :
  let out := forwardRequest Parse (parseAmong pages) print resolve redirectHeader
               (proxyOver refusing) exampleTarget getRequest exampleWorld in
  wStatus (w exampleWorld) = None /\
  out.1 = Ok () /\ heap out.2 = heap exampleWorld /\
  answeredWith StatusBadGateway "Error forwarding request" exampleWorld out.2.
Proof.
  cbn zeta. split; [done |].
  pose proof (failures_answered_bad_gateway Parse (parseAmong pages) print resolve
                redirectHeader (proxyOver refusing) exampleTarget getRequest exampleWorld
                eq_refl) as H.
  cbn zeta in H.
  destruct (buildRequest Parse getRequest exampleTarget) as [newReq | |] eqn:Hbuild;
    [| vm_compute in Hbuild; discriminate Hbuild ..].
  exact (H (ErrUpstream "dial tcp: connection refused") eq_refl).
Defined.

Lemma unknown_encoding_bad_gateway_witness :
  let out := forwardRequest Parse (parseAmong pages) print resolve redirectHeader
               (proxyOver (fun _ => Ok identityResponse))
               exampleTarget getRequest exampleWorld in
  (Get (RespHeader identityResponse) "Content-Encoding" <> "" /\
   matched (Get (RespHeader identityResponse) "Content-Encoding") = None /\
   wellFormed (RespHeader identityResponse) /\
   wStatus (w exampleWorld) = None) /\
  out.1 = Ok () /\
  answeredWith StatusBadGateway "Error copying response"
    (copied identityResponse exampleWorld) out.2 /\
  wHeader (w out.2) !! "Content-Encoding" = Some ["identity"].
Proof.
  cbn zeta.
  assert (Henc : Get (RespHeader identityResponse) "Content-Encoding" <> "")
    by (vm_compute; discriminate).
  assert (Hmatched : matched (Get (RespHeader identityResponse) "Content-Encoding") = None)
    by (vm_compute; reflexivity).
  assert (Hwf : wellFormed (RespHeader identityResponse)).
  { apply wellFormed_insert; [done | done |]. by apply wellFormed_singleton. }
  split; [exact (conj Henc (conj Hmatched (conj Hwf eq_refl))) |].
  destruct (buildRequest Parse getRequest exampleTarget) as [newReq | |] eqn:Hbuild;
    [| vm_compute in Hbuild; discriminate Hbuild ..].
  destruct (unknown_encoding_bad_gateway Parse (parseAmong pages) print resolve
              redirectHeader (proxyOver (fun _ => Ok identityResponse)) exampleTarget
              getRequest newReq identityResponse identityResponse exampleWorld
              eq_refl Hbuild eq_refl eq_refl eq_refl Henc Hmatched Hwf eq_refl)
    as (H1 & _ & H3 & H4).
  split; [exact H1 |]. split; [exact H3 |].
  assert (Hcors : "Content-Encoding" ∉ corsKeys)
    by (apply (bool_decide_unpack _); by vm_compute).
  assert (Herr : "Content-Encoding" ∉ errorKeys)
    by (apply (bool_decide_unpack _); by vm_compute).
  rewrite (H4 "Content-Encoding" Hcors Herr). by vm_compute.
Defined.

Lemma plain_response_passes_through_witness :
  let out := forwardRequest Parse (parseAmong pages) print resolve redirectHeader
               (proxyOver (fun _ => Ok jsonResponse))
               exampleTarget getRequest exampleWorld in
  (followed jsonResponse = false /\
   Get (RespHeader jsonResponse) "Content-Encoding" = "" /\
   Contains (Get (RespHeader jsonResponse) "Content-Type") "text/html" = false /\
   (200 <= StatusCode jsonResponse <= 999)%Z /\
   wellFormed (RespHeader jsonResponse) /\ wStatus (w exampleWorld) = None) /\
  out.1 = Ok () /\
  wStatus (w out.2) = Some 200%Z /\
  wBody (w out.2) = "{}" /\
  Get (wHeader (w out.2)) "Access-Control-Allow-Origin" = "*".
Proof.
  cbn zeta.
  assert (Hwf : wellFormed (RespHeader jsonResponse)).
  { apply wellFormed_insert; [done | done |]. by apply wellFormed_singleton. }
  assert (Henc : Get (RespHeader jsonResponse) "Content-Encoding" = "")
    by (vm_compute; reflexivity).
  assert (Htype : Contains (Get (RespHeader jsonResponse) "Content-Type") "text/html"
                  = false) by (vm_compute; reflexivity).
  assert (Hcode : (200 <= StatusCode jsonResponse <= 999)%Z) by (vm_compute; by split).
  split; [exact (conj eq_refl (conj Henc (conj Htype (conj Hcode (conj Hwf eq_refl))))) |].
  destruct (buildRequest Parse getRequest exampleTarget) as [newReq | |] eqn:Hbuild;
    [| vm_compute in Hbuild; discriminate Hbuild ..].
  destruct (plain_response_passes_through Parse (parseAmong pages) print resolve
              redirectHeader (proxyOver (fun _ => Ok jsonResponse)) exampleTarget
              getRequest newReq jsonResponse jsonResponse "{}" exampleWorld
              eq_refl Hbuild eq_refl eq_refl eq_refl Henc Htype eq_refl Hcode Hwf eq_refl)
    as (H1 & _ & H3 & H4 & _ & H6 & _).
  split; [exact H1 |]. split; [exact H3 |]. split; [| exact H6].
  rewrite H4. by vm_compute.
Defined.

Lemma encoded_response_recoded_witness :
  let out := forwardRequest Parse (parseAmong pages) print resolve redirectHeader
               (proxyOver (fun _ => Ok gzipResponse))
               exampleTarget getRequest exampleWorld in
  (followed gzipResponse = false /\
   Get (RespHeader gzipResponse) "Content-Encoding" = "gzip" /\
   matched "gzip" = Some (gzip, "gzip") /\
   (200 <= StatusCode gzipResponse <= 999)%Z /\
   wStatus (w exampleWorld) = None) /\
  out.1 = Ok () /\
  wStatus (w out.2) = Some 200%Z /\
  Get (wHeader (w out.2)) "Content-Encoding" = "gzip" /\
  wBody (w out.2) = "G{}".
Proof.
  cbn zeta.
  assert (Hcode : (200 <= StatusCode gzipResponse <= 999)%Z) by (vm_compute; by split).
  assert (Htype : Contains (Get (RespHeader gzipResponse) "Content-Type") "text/html"
                  = false) by (vm_compute; reflexivity).
  assert (Henc : Get (RespHeader gzipResponse) "Content-Encoding" = "gzip")
    by (vm_compute; reflexivity).
  split; [exact (conj eq_refl (conj Henc (conj eq_refl (conj Hcode eq_refl)))) |].
  destruct (buildRequest Parse getRequest exampleTarget) as [newReq | |] eqn:Hbuild;
    [| vm_compute in Hbuild; discriminate Hbuild ..].
  pose proof (encoded_response_recoded Parse (parseAmong pages) print resolve
                redirectHeader (proxyOver (fun _ => Ok gzipResponse)) exampleTarget
                getRequest newReq gzipResponse gzipResponse "gzip" gzip "gzip" "G{}"
                exampleWorld
                eq_refl Hbuild eq_refl eq_refl eq_refl Henc eq_refl Htype eq_refl Hcode
                eq_refl)
    as [H1 H2].
  split; [exact H1 |].
  change (inflate_all gzip "G{}") with (Some "{}") in H2.
  destruct H2 as (H2 & H3 & H4).
  split; [exact H2 |]. split; [exact H3 |]. rewrite H4. by vm_compute.
Defined.

Lemma buildRequest_copies_witness :
  wellFormed (ReqHeader getRequest) /\
  exists newReq,
    buildRequest Parse getRequest exampleTarget = Ok newReq /\
    Method newReq = "GET" /\ ReqHeader newReq = ReqHeader getRequest /\
    Close newReq = true.
Proof.
  assert (Hwf : wellFormed (ReqHeader getRequest)).
  { apply wellFormed_insert; [done | done |]. by apply wellFormed_singleton. }
  split; [exact Hwf |].
  destruct (buildRequest Parse getRequest exampleTarget) as [newReq | |] eqn:Hbuild;
    [| vm_compute in Hbuild; discriminate Hbuild ..].
  exists newReq. split; [done |].
  destruct (buildRequest_copies Parse getRequest exampleTarget newReq Hwf Hbuild)
    as (H1 & H2 & _ & H4 & _).
  done.
Defined.

End HandlerWitnesses.

End HandlerFacts.

(** ** The server: registry and address *)

Module ServerFacts.
Import Strings Internal Url Http Html Compression Effects Proxy Rewriting Registry.
Import HandlerViews.

Lemma escape_app a b mode : escape (a +:+ b) mode = escape a mode +:+ escape b mode.
Proof.
  induction a as [| c a IH]; [done |].
  change (String c a +:+ b) with (String c (a +:+ b)). cbn [escape].
  destruct (shouldEscape c mode); rewrite IH; reflexivity.
Qed.

Lemma escape_digits d :
  escape (NilEmpty.string_of_uint d) encodeHost = NilEmpty.string_of_uint d.
Proof.
  induction d as [| d IH | d IH | d IH | d IH | d IH | d IH | d IH | d IH | d IH | d IH];
    [done | cbn [NilEmpty.string_of_uint escape] ..];
    match goal with
    | |- (if ?b then _ else _) = _ => change b with false; cbn iota; by rewrite IH
    end.
Qed.

Lemma escape_uint d : escape (NilZero.string_of_uint d) encodeHost = NilZero.string_of_uint d.
Proof. destruct d; [done | apply escape_digits ..]. Qed.

Lemma escape_decimal n : escape (decimal n) encodeHost = decimal n.
Proof.
  unfold decimal, NilZero.string_of_int.
  destruct (Z.to_int n) as [d | d]; [apply escape_uint |].
  cbn [escape]. change (shouldEscape "-" encodeHost) with false. cbn iota.
  by rewrite escape_uint.
Qed.

Lemma append_assoc a b c : (a +:+ b) +:+ c = a +:+ (b +:+ c).
Proof.
  induction a as [| x a IH]; [done |].
  change (String x ((a +:+ b) +:+ c) = String x (a +:+ (b +:+ c))). by rewrite IH.
Qed.

(** The string form of an address with a scheme and a host only. *)
Lemma String_origin scheme host :
  scheme <> "" -> host <> "" ->
  String_ (mkURL scheme host "" "") = scheme +:+ "://" +:+ escape host encodeHost.
Proof.
  intros Hs Hh. unfold String_, EscapedPath. cbn [Scheme Host Path RawQuery].
  apply String.eqb_neq in Hs, Hh. rewrite Hs, Hh.
  change ("" =? "*") with false. change (escape "" encodePath) with "".
  change ("" =? "") with true. cbn [negb orb andb].
  destruct scheme as [| x scheme]; [done |].
  change ((((String x scheme +:+ ":") +:+ "//") +:+ escape host encodeHost) =? "")
    with false.
  cbn [andb]. rewrite RewritingFacts.append_empty_r, !append_assoc. reflexivity.
Qed.

Section Server.
Variable url_Parse : string -> option URL.
Variable DefaultTransport : Request -> result Response.

Lemma exported_keep opts p :
  Forall exported opts ->
  targets (fold_left (fun p opt => opt p) opts p) = targets p.
Proof.
  intros H. revert p. induction H as [| opt opts Hopt _ IH]; intros p; [done |].
  cbn [fold_left]. rewrite IH. by destruct Hopt.
Qed.

(** The loop of [NewProxy] when every origin parses: under each key the
    last target with that key. *)
Lemma registerTargets_last targets rest : forall i m,
  drop i targets = rest ->
  (forall target, target ∈ rest -> is_Some (url_Parse (BaseUrl target))) ->
  exists m',
    registerTargets url_Parse targets i rest m = Ok m' /\
    forall key,
      m' !! key =
        match last (filter (fun t => normalized (Prefix t) = key) rest) with
        | Some target => Some target
        | None => m !! key
        end.
Proof.
  induction rest as [| target rest IH]; intros i m Hdrop Hparse.
  { exists m. by split. }
  apply ProxyFacts.drop_cons_inv in Hdrop as [Hi Hdrop].
  rewrite (ProxyFacts.registerTargets_step url_Parse _ _ _ _ _ Hi).
  destruct (Hparse target) as [u Hu]; [by left |]. rewrite Hu.
  destruct (IH (S i) (<[normalized (Prefix target) := target]> m) Hdrop) as (m' & -> & Hm').
  { intros t' Hin. apply Hparse. by right. }
  exists m'. split; [done |]. intros key. rewrite Hm'.
  rewrite filter_cons. destruct (decide (normalized (Prefix target) = key)) as [<- | Hne].
  - rewrite last_cons, lookup_insert_eq. by destruct (last _).
  - rewrite lookup_insert_ne by done. done.
Qed.

(** X18. When the origin of every target parses, [NewProxy] succeeds with
    the options the package exports, and the registry holds, under each
    prefix with its leading slash, the last of the targets given with
    that prefix: an earlier target with the same prefix is dropped
    without an error; no other key is present. *)
Theorem registry_last_wins targets opts s :
  (forall target, target ∈ targets -> is_Some (url_Parse (BaseUrl target))) ->
  Forall exported opts ->
  exists p s',
    NewProxy url_Parse DefaultTransport targets opts s = (Ok p, s') /\
    forall key,
      Proxy.targets p !! key
      = last (filter (fun t => normalized (Prefix t) = key) targets).
Proof.
  intros Hparse Hopts.
  destruct (registerTargets_last targets targets 0 ∅ eq_refl Hparse) as (registry & Hreg & Hkeys).
  unfold NewProxy, mbind, M_bind, bind, lift. rewrite Hreg.
  unfold new. cbn [fst snd].
  set (p0 := fold_left (fun (p : Proxy) (opt : Proxy -> Proxy) => opt p) opts
               (mkProxy registry DefaultTransport 0 None None)).
  set (l := fresh _). set (s1 := with_heap _ s).
  assert (Hcell : heap s1 !! l
                  = Some (mkURL "http" ("0.0.0.0:" +:+ decimal (port p0)) "" "")).
  { subst s1. cbn. by rewrite lookup_insert_eq. }
  assert (Htargets : Proxy.targets (set_addr (Some l) p0) = registry).
  { cbn. subst p0. by rewrite exported_keep. }
  unfold when. cbn [cert set_addr].
  destruct (bool_decide (is_Some (cert p0))).
  - cbn [addr]. eexists _, _. split.
    + unfold mbind, M_bind, bind. rewrite (RewritingFacts.store_cell l s1 _ _ Hcell).
      reflexivity.
    + intros key. cbn [Proxy.targets]. change (Proxy.targets p0) with
        (Proxy.targets (set_addr (Some l) p0)). rewrite Htargets, Hkeys, lookup_empty.
      by destruct (last _).
  - eexists _, _. split; [reflexivity |].
    intros key. rewrite Htargets, Hkeys, lookup_empty. by destruct (last _).
Qed.

(** X19. The address of a new proxy: [Addr] gives [http://0.0.0.0:<port>],
    with the port of the options (0 without one) in decimal, and
    [https] in place of [http] when a certificate was given.  [NewProxy]
    binds no listener and leaves the cells of the store as they were:
    the address is a new cell. *)
Theorem new_proxy_address targets opts s p s' :
  NewProxy url_Parse DefaultTransport targets opts s = (Ok p, s') ->
  Addr p s' = (Ok (schemeOf p +:+ "://0.0.0.0:" +:+ decimal (port p)), s') /\
  listeners s' = listeners s /\
  (exists l, addr p = Some l /\ heap s !! l = None) /\
  (forall l u, heap s !! l = Some u -> heap s' !! l = Some u).
Proof.
  unfold NewProxy, mbind, M_bind, bind, lift.
  destruct (registerTargets url_Parse targets 0 targets ∅) as [registry | |]; [| done | done].
  unfold new. cbn [fst snd].
  set (p0 := fold_left (fun (p : Proxy) (opt : Proxy -> Proxy) => opt p) opts
               (mkProxy registry DefaultTransport 0 None None)).
  set (l := fresh _). set (s1 := with_heap _ s).
  assert (Hfresh : heap s !! l = None).
  { apply not_elem_of_dom. subst l. apply is_fresh. }
  assert (Hcell : heap s1 !! l
                  = Some (mkURL "http" ("0.0.0.0:" +:+ decimal (port p0)) "" "")).
  { subst s1. cbn. by rewrite lookup_insert_eq. }
  assert (Hhost : forall scheme, scheme <> "" ->
            String_ (mkURL scheme ("0.0.0.0:" +:+ decimal (port p0)) "" "")
            = scheme +:+ "://0.0.0.0:" +:+ decimal (port p0)).
  { intros scheme Hs. rewrite String_origin by done.
    change ("0.0.0.0:" +:+ decimal (port p0))
      with (String "0" (String "." (String "0" (String "." (String "0" (String "."
             (String "0" (String ":" (decimal (port p0)))))))))) at 1.
    cbn [escape]. rewrite escape_decimal.
    change "://0.0.0.0:" with ("://" +:+ "0.0.0.0:"). by rewrite append_assoc. }
  unfold when, schemeOf. cbn [cert set_addr].
  destruct (bool_decide (is_Some (cert p0))) eqn:Hcert.
  - cbn [addr]. unfold mbind, M_bind, bind.
    rewrite (RewritingFacts.store_cell l s1 _ _ Hcell). cbn [mret M_ret ret].
    intros [= <- <-]. cbn [cert port addr set_addr]. rewrite Hcert.
    unfold Addr, mbind, M_bind, bind. cbn [addr set_addr].
    erewrite RewritingFacts.load_cell;
      [| cbn [heap with_heap]; by rewrite lookup_alter_eq, Hcell].
    unfold set_Scheme. cbn [Scheme Host Path RawQuery mret M_ret ret].
    rewrite Hhost by done.
    repeat split; try done; [by exists l |].
    intros l' u Hl'. cbn. rewrite lookup_alter_ne, lookup_insert_ne by congruence. done.
  - cbn [mret M_ret ret]. intros [= <- <-]. cbn [cert port addr set_addr]. rewrite Hcert.
    unfold Addr, mbind, M_bind, bind. cbn [addr set_addr].
    rewrite (RewritingFacts.load_cell l s1 _ Hcell). cbn [mret M_ret ret].
    rewrite Hhost by done.
    repeat split; try done; [by exists l |].
    intros l' u Hl'. subst s1. cbn. rewrite lookup_insert_ne by congruence. done.
Qed.

Lemma ListenAndServe_eq net_Listen p l u s :
  addr p = Some l -> heap s !! l = Some u ->
  ListenAndServe net_Listen p s =
    match net_Listen (Host u) with
    | Ok bound =>
        (Ok (map_to_list (targets p)),
         mkWorld (alter (set_Host bound) l (heap s)) (listeners s ++ [bound])
           (dispatched s) (w s))
    | Err e => (Err (ErrWrap "error starting listener" e), s)
    | Panic msg => (Panic msg, s)
    end.
Proof.
  intros Hp Hl. unfold ListenAndServe, mbind, M_bind, bind.
  rewrite Hp. rewrite (RewritingFacts.load_cell l s u Hl).
  unfold wrapErr, lift. destruct (net_Listen (Host u)) as [bound | e | msg]; [| done | done].
  unfold modify at 1.
  set (s1 := mkWorld _ _ _ _).
  assert (Hl1 : heap s1 !! l = Some u) by done.
  by rewrite (RewritingFacts.store_cell l s1 u _ Hl1).
Qed.

(** X20. [ListenAndServe] listens on the host of the address and writes the
    address of the listener back: afterwards [Addr] gives the address the
    listener is bound to (with port 0, the port the system chose), and
    one handler is registered per entry of the registry.  When the
    listener cannot be started, the error is returned wrapped and
    nothing is changed. *)
Theorem listen_reports_bound_address net_Listen p l u s :
  addr p = Some l -> heap s !! l = Some u ->
  let out := ListenAndServe net_Listen p s in
  match net_Listen (Host u) with
  | Ok bound =>
      out.1 = Ok (map_to_list (targets p)) /\
      listeners out.2 = listeners s ++ [bound] /\
      heap out.2 = <[l := set_Host bound u]> (heap s) /\
      Addr p out.2 = (Ok (String_ (set_Host bound u)), out.2)
  | Err e => out = (Err (ErrWrap "error starting listener" e), s)
  | Panic msg => out = (Panic msg, s)
  end.
Proof.
  intros Hp Hl. cbn zeta. rewrite (ListenAndServe_eq _ _ _ _ _ Hp Hl).
  destruct (net_Listen (Host u)) as [bound | e | msg]; [| done | done].
  cbn [fst snd listeners heap].
  split; [done |]. split; [done |]. split.
  - by rewrite (alter_alt_Some _ _ _ _ Hl).
  - unfold Addr, mbind, M_bind, bind. rewrite Hp.
    erewrite RewritingFacts.load_cell; [done |]. cbn. by rewrite lookup_alter_eq, Hl.
Qed.

End Server.
Section ServerWitnesses.
Import Fixtures Samples.

Lemma registry_last_wins_witness :
  ((forall target, target ∈ shadowed -> is_Some (Parse (BaseUrl target))) /\
   Forall exported [WithPort 8080]) /\
  exists p s',
    NewProxy Parse okTransport shadowed [WithPort 8080] emptyWorld = (Ok p, s') /\
    forall key,
      targets p !! key = last (filter (fun t => normalized (Prefix t) = key) shadowed).
Proof.
  assert (Hparse : forall target, target ∈ shadowed -> is_Some (Parse (BaseUrl target))).
  { intros target Hin. unfold shadowed in Hin.
    apply elem_of_cons in Hin as [-> | Hin]; [vm_compute; by eexists |].
    apply elem_of_cons in Hin as [-> | Hin]; [vm_compute; by eexists |].
    by apply elem_of_nil in Hin. }
  assert (Hopts : Forall exported [WithPort 8080]) by (repeat constructor).
  split; [done |].
  exact (registry_last_wins Parse okTransport shadowed [WithPort 8080] emptyWorld
           Hparse Hopts).
Defined.

Lemma new_proxy_address_witness :
  exists p s',
    NewProxy Parse okTransport [exampleTarget] [WithPort 8443; WithSsl "cert"] emptyWorld
    = (Ok p, s') /\
    Addr p s' = (Ok (schemeOf p +:+ "://0.0.0.0:" +:+ decimal (port p)), s') /\
    schemeOf p = "https" /\ decimal (port p) = "8443".
Proof.
  destruct (NewProxy Parse okTransport [exampleTarget] [WithPort 8443; WithSsl "cert"]
              emptyWorld) as [[p | e | msg] s'] eqn:E;
    [| vm_compute in E; discriminate E ..].
  exists p, s'. split; [done |].
  destruct (new_proxy_address Parse okTransport _ _ _ _ _ E) as [H _].
  split; [exact H |].
  vm_compute in E. injection E as <- <-. by vm_compute.
Defined.

Lemma listen_reports_bound_address_witness :
  let out := ListenAndServe (listenOn "127.0.0.1:43125") exampleProxy exampleWorld in
  (addr exampleProxy = Some 0%nat /\
   heap exampleWorld !! 0%nat = Some (mkURL "http" "localhost:8080" "" "")) /\
  out.1 = Ok (map_to_list (targets exampleProxy)) /\
  listeners out.2 = listeners exampleWorld ++ ["127.0.0.1:43125"] /\
  heap out.2 = <[0%nat := mkURL "http" "127.0.0.1:43125" "" ""]> (heap exampleWorld) /\
  Addr exampleProxy out.2 = (Ok (String_ (mkURL "http" "127.0.0.1:43125" "" "")), out.2).
Proof.
  cbn zeta.
  assert (Hl : heap exampleWorld !! 0%nat = Some (mkURL "http" "localhost:8080" "" ""))
    by (by vm_compute).
  split; [done |].
  exact (listen_reports_bound_address (listenOn "127.0.0.1:43125") exampleProxy 0%nat
           (mkURL "http" "localhost:8080" "" "") exampleWorld eq_refl Hl).
Defined.

End ServerWitnesses.

End ServerFacts.

(** ** The rewriting: what it leaves alone *)

Module OutlineFacts.
Import Strings Internal Url Http Html Effects Proxy Rewriting HandlerViews.

Lemma blank_SetAttr attrs k v v' :
  k = "href" \/ k = "src" -> Attr attrs k = Some v' ->
  map blank (SetAttr attrs k v) = map blank attrs.
Proof.
  intros Hk. induction attrs as [| [k' v0] attrs IH]; [done |]. cbn [Attr SetAttr].
  destruct (String.eqb_spec k' k) as [-> | Hne].
  - intros _. cbn [map]. f_equal. unfold blank. cbn [fst].
    by destruct Hk as [-> | ->].
  - intros H. cbn [map]. by rewrite IH.
Qed.

Lemma blank_mapAttr f k attrs :
  k = "href" \/ k = "src" -> map blank (mapAttr f k attrs) = map blank attrs.
Proof.
  intros Hk. unfold mapAttr. destruct (Attr attrs k) eqn:E; [| done].
  by eapply blank_SetAttr.
Qed.

Lemma outline_rewritten f n : outline (rewritten f n) = outline n.
Proof.
  induction n as [data | tag attrs children IH] using RewritingFacts.Node_ind; [done |].
  cbn [rewritten outline]. f_equal.
  - destruct (selected tag attrs); [| done].
    rewrite !blank_mapAttr by auto. done.
  - rewrite map_map. apply map_ext_Forall.
    eapply Forall_impl; [exact IH |]. done.
Qed.

(** X21. The rewriting changes values of [href] and [src] and nothing
    else.  With the address of the proxy in the store, the callback runs
    over any document without an error or a panic, and the document it
    leaves has the tags, the attributes in their order, the values of
    all other attributes, the text and the structure of the document as
    parsed; outside the cell of the address the store is unchanged, and
    so are the response writer and the log of dispatched requests. *)
Theorem rewriting_keeps_outline p target l u (nodes : Document) s :
  addr p = Some l -> heap s !! l = Some u ->
  exists nodes' s',
    rewriteNodes p target nodes s = (Ok nodes', s') /\
    map outline nodes' = map outline nodes /\
    length nodes' = length nodes /\
    sameWriter s s' /\
    forall l', l' <> l -> heap s' !! l' = heap s !! l'.
Proof.
  intros Hp Hl.
  assert (Hl' : heap s !! l = Some (set_Path (Path u) u))
    by (by rewrite RewritingFacts.set_Path_same).
  eexists _, _. split; [by apply (RewritingFacts.rewriteNodes_spec p target l u Hp _ _ _ Hl') |].
  split; [| split; [| split]].
  - rewrite map_map. apply map_ext. intros n. apply outline_rewritten.
  - by rewrite length_map.
  - destruct (RewritingFacts.assigned_frame l
                (map (joined target) (concat (map examined nodes))) s) as (? & ? & ?).
    by repeat split.
  - intros l' Hne. rewrite (RewritingFacts.assigned_heap _ _ _ _ _ Hl').
    by rewrite lookup_insert_ne.
Qed.

Section OutlineWitnesses.
Import Fixtures.

Lemma rewriting_keeps_outline_witness :
  (addr exampleProxy = Some 0%nat /\
   heap exampleWorld !! 0%nat = Some (mkURL "http" "localhost:8080" "" "")) /\
  exists nodes' s',
    rewriteNodes exampleProxy exampleTarget threeLinks exampleWorld = (Ok nodes', s') /\
    map outline nodes' = map outline threeLinks /\
    length nodes' = length threeLinks /\
    sameWriter exampleWorld s' /\
    forall l', l' <> 0%nat -> heap s' !! l' = heap exampleWorld !! l'.
Proof.
  assert (Hl : heap exampleWorld !! 0%nat = Some (mkURL "http" "localhost:8080" "" ""))
    by (by vm_compute).
  split; [done |].
  exact (rewriting_keeps_outline exampleProxy exampleTarget 0%nat
           (mkURL "http" "localhost:8080" "" "") threeLinks exampleWorld eq_refl Hl).
Defined.

End OutlineWitnesses.

End OutlineFacts.

(** ** [JoinUrl] *)

Module JoinFacts.
Import Strings Internal.

Lemma substring_all s : String.substring 0 (String.length s) s = s.
Proof. induction s as [| c s IH]; [done |]. cbn. by rewrite IH. Qed.

Lemma length_append a b : String.length (a +:+ b) = (String.length a + String.length b)%nat.
Proof.
  induction a as [| c a IH]; [done |].
  change (S (String.length (a +:+ b)) = S (String.length a + String.length b)).
  by rewrite IH.
Qed.

Lemma substring_prefix a b :
  String.substring 0 (String.length a) (a +:+ b) = a.
Proof.
  induction a as [| c a IH]; [by destruct b |].
  change (String c (String.substring 0 (String.length a) (a +:+ b)) = String c a).
  by rewrite IH.
Qed.

Lemma substring_suffix a b :
  String.substring (String.length a) (String.length b) (a +:+ b) = b.
Proof. induction a as [| c a IH]; [apply substring_all |]. exact IH. Qed.

Lemma HasSuffix_append a b : HasSuffix (a +:+ b) b = true.
Proof.
  unfold HasSuffix. rewrite length_append.
  replace (String.length a + String.length b - String.length b)%nat
    with (String.length a) by lia.
  rewrite substring_suffix, String.eqb_refl.
  rewrite andb_true_r. apply Nat.leb_le. lia.
Qed.

Lemma TrimSuffix_append a b : TrimSuffix (a +:+ b) b = a.
Proof.
  unfold TrimSuffix. rewrite HasSuffix_append, length_append.
  replace (String.length a + String.length b - String.length b)%nat
    with (String.length a) by lia.
  apply substring_prefix.
Qed.

Lemma TrimSuffix_none s suffix : HasSuffix s suffix = false -> TrimSuffix s suffix = s.
Proof. unfold TrimSuffix. by intros ->. Qed.

Lemma CutPrefix_append prefix s : CutPrefix (prefix +:+ s) prefix = Some s.
Proof.
  induction prefix as [| c prefix IH]; [done |].
  change (String c prefix +:+ s) with (String c (prefix +:+ s)). cbn [CutPrefix].
  by rewrite Ascii.eqb_refl.
Qed.

Lemma TrimPrefix_append prefix s : TrimPrefix (prefix +:+ s) prefix = s.
Proof. unfold TrimPrefix. by rewrite CutPrefix_append. Qed.

Lemma CutPrefix_none s prefix : HasPrefix s prefix = false -> CutPrefix s prefix = None.
Proof.
  revert s. induction prefix as [| c prefix IH]; intros s; [done |].
  destruct s as [| d s]; [done |]. cbn [HasPrefix CutPrefix].
  destruct (Ascii.eqb c d); [apply IH | done].
Qed.

Lemma TrimPrefix_none s prefix : HasPrefix s prefix = false -> TrimPrefix s prefix = s.
Proof. intros H. unfold TrimPrefix. by rewrite CutPrefix_none. Qed.

(** X22. [JoinUrl] of two elements puts one slash at the seam: a slash at
    the end of the first element and one at the start of the second are
    dropped, so the result is the same with or without them.  Only one
    slash is dropped on each side: of more slashes the others stay. *)
Theorem JoinUrl_seam (a b : string) :
  JoinUrl [a +:+ "/"; "/" +:+ b] = a +:+ "/" +:+ b /\
  (HasSuffix a "/" = false -> JoinUrl [a; "/" +:+ b] = a +:+ "/" +:+ b) /\
  (HasPrefix b "/" = false -> JoinUrl [a +:+ "/"; b] = a +:+ "/" +:+ b) /\
  (HasSuffix a "/" = false -> HasPrefix b "/" = false ->
   JoinUrl [a; b] = a +:+ "/" +:+ b).
Proof.
  rewrite !RewritingFacts.JoinUrl_two.
  rewrite TrimSuffix_append, (TrimPrefix_append "/" b).
  repeat split.
  - intros Ha. by rewrite TrimSuffix_none.
  - intros Hb. by rewrite TrimPrefix_none.
  - intros Ha Hb. by rewrite TrimSuffix_none, TrimPrefix_none.
Qed.

Lemma imap_same {A} (f : nat -> A -> A) (l : list A) :
  (forall i x, l !! i = Some x -> f i x = x) -> imap f l = l.
Proof.
  revert f. induction l as [| x l IH]; intros f Hf; [done |].
  rewrite imap_cons. f_equal; [by apply (Hf 0%nat) |].
  apply IH. intros i y Hy. by apply (Hf (S i)).
Qed.

(** X23. [JoinUrl] of any number of elements: when no element but the
    first begins with a slash and no element but the last ends with one,
    the result is the elements with a slash between each two; a slash
    at the start of the first and at the end of the last element
    stays. *)
Theorem JoinUrl_clean (elements : list string) :
  (forall i e, elements !! i = Some e ->
     ((0 < i)%nat -> HasPrefix e "/" = false) /\
     ((i < length elements - 1)%nat -> HasSuffix e "/" = false)) ->
  JoinUrl elements = Join elements "/".
Proof.
  intros Hclean. unfold JoinUrl. f_equal. apply imap_same.
  intros i e He. destruct (Hclean i e He) as [Hp Hs]. unfold JoinUrl_step.
  destruct (Nat.ltb_spec 0 i) as [Hi | _].
  - rewrite TrimPrefix_none by auto.
    destruct (Nat.ltb_spec i (length elements - 1)) as [Hj | _]; [| done].
    by rewrite TrimSuffix_none by auto.
  - destruct (Nat.ltb_spec i (length elements - 1)) as [Hj | _]; [| done].
    by rewrite TrimSuffix_none by auto.
Qed.

Lemma JoinUrl_clean_witness :
  (forall i e, ["/api"; "targets"; "google/"] !! i = Some e ->
     ((0 < i)%nat -> HasPrefix e "/" = false) /\
     ((i < length ["/api"; "targets"; "google/"] - 1)%nat -> HasSuffix e "/" = false)) /\
  JoinUrl ["/api"; "targets"; "google/"] = Join ["/api"; "targets"; "google/"] "/".
Proof.
  assert (H : forall i e, ["/api"; "targets"; "google/"] !! i = Some e ->
     ((0 < i)%nat -> HasPrefix e "/" = false) /\
     ((i < length ["/api"; "targets"; "google/"] - 1)%nat -> HasSuffix e "/" = false)).
  { intros [| [| [| i]]] e He; cbn in He; [injection He as <- .. | done];
      (split; [intros Hi | intros Hi]); cbn in Hi; try lia; reflexivity. }
  split; [exact H |]. exact (JoinUrl_clean _ H).
Defined.

End JoinFacts.

(** ** The recorder of response statistics *)

Module StatsFacts.
Import Time Effects Stats StatsViews.

Lemma Sub_mono a b t : (a <= b)%Z -> (Sub a t <= Sub b t)%Z.
Proof. unfold Sub. lia. Qed.

Lemma Sub_self t : Sub t t = 0%Z.
Proof. unfold Sub. rewrite Z.sub_diag. reflexivity. Qed.

Lemma wrap64_id z : (minInt64 <= z <= maxInt64)%Z -> wrap64 z = z.
Proof.
  unfold wrap64, minInt64, maxInt64. intros H.
  rewrite Z.mod_small by lia. lia.
Qed.

Section Clock.
Variable now : nat -> Time.

Lemma prune_eq windowSize states : forall s,
  prune now windowSize states s =
    (Ok (keptFrom now windowSize (ticks s) states),
     mkState (recorder s) (ticks s + length states)).
Proof.
  induction states as [| state rest IH]; intros s.
  { cbn. rewrite Nat.add_0_r. by destruct s. }
  cbn [prune keptFrom length]. unfold Since, Now, mbind, M_bind, bind. cbn [mret M_ret ret].
  rewrite IH. cbn [ticks recorder]. rewrite Nat.add_succ_r.
  by destruct (_ <? _)%Z.
Qed.

Lemma keptFrom_sublist windowSize states : forall k,
  sublist (keptFrom now windowSize k states) states.
Proof.
  induction states as [| state rest IH]; intros k; [done |]. cbn [keptFrom].
  destruct (_ <? _)%Z; [apply sublist_skip | apply sublist_cons]; apply IH.
Qed.

Section Monotone.
Hypothesis clock_monotone : monotone now.

Lemma keptFrom_fresh windowSize states : forall k e,
  e ∈ keptFrom now windowSize k states ->
  (Sub (now k) (timeStamp e) < windowSize)%Z.
Proof using clock_monotone.
  induction states as [| state rest IH]; intros k e Hin; [by apply elem_of_nil in Hin |].
  cbn [keptFrom] in Hin.
  assert (Hnext : e ∈ keptFrom now windowSize (S k) rest ->
                  (Sub (now k) (timeStamp e) < windowSize)%Z).
  { intros H. apply IH in H.
    pose proof (Sub_mono (now k) (now (S k)) (timeStamp e) (clock_monotone k (S k) ltac:(lia))).
    lia. }
  destruct (Z.ltb_spec (Sub (now k) (timeStamp state)) windowSize) as [Hlt | _]; [| auto].
  apply elem_of_cons in Hin as [-> | Hin]; auto.
Qed.

Lemma keptFrom_keeps windowSize states : forall k e,
  e ∈ states ->
  (Sub (now (k + length states)) (timeStamp e) < windowSize)%Z ->
  e ∈ keptFrom now windowSize k states.
Proof using clock_monotone.
  induction states as [| state rest IH]; intros k e Hin Hfresh;
    [by apply elem_of_nil in Hin |].
  cbn [keptFrom length] in *. rewrite Nat.add_succ_r in Hfresh.
  assert (Hrest : e ∈ rest -> e ∈ keptFrom now windowSize (S k) rest).
  { intros H. by apply IH. }
  destruct (Z.ltb_spec (Sub (now k) (timeStamp state)) windowSize) as [Hlt | Hge].
  - apply elem_of_cons in Hin as [-> | Hin]; [by left | right; auto].
  - apply elem_of_cons in Hin as [-> | Hin]; [| auto].
    pose proof (Sub_mono (now k) (now (S (k + length rest))) (timeStamp state)
                  (clock_monotone k (S (k + length rest)) ltac:(lia))).
    lia.
Qed.

End Monotone.

(** [AddResponse], case by case. *)
Lemma AddResponse_eq responseTime statusCode s :
  let t := recorder s in
  let first := (firstRequest t =? zeroTime)%Z in
  let k := if first then S (ticks s) else ticks s in
  let started := if first then now (ticks s) else firstRequest t in
  let count := wrap64 (requestCount t + 1) in
  AddResponse now responseTime statusCode s =
    match div64 (wrap64 (wrap64 (avgResponseTime t * wrap64 (count - 1)) + responseTime))
            count with
    | Ok avg =>
        (Ok (),
         mkState
           (mkStatRecorder started (windowSize t)
              (keptFrom now (windowSize t) k (responseWindow t)
               ++ [mkResponseState responseTime statusCode
                     (now (k + length (responseWindow t)))])
              count avg)
           (S (k + length (responseWindow t))))
    | Err e =>
        (Err e,
         mkState (mkStatRecorder started (windowSize t) (responseWindow t) count
                    (avgResponseTime t)) k)
    | Panic msg =>
        (Panic msg,
         mkState (mkStatRecorder started (windowSize t) (responseWindow t) count
                    (avgResponseTime t)) k)
    end.
Proof.
  cbn zeta. unfold AddResponse.
  unfold mbind at 1, M_bind at 1, bind at 1, gets at 1.
  unfold mbind at 1, M_bind at 1, bind at 1.
  destruct (firstRequest (recorder s) =? zeroTime)%Z;
    unfold when, Now, update, modify, gets, lift, mbind, M_bind, bind, mret, M_ret, ret;
    cbn [fst snd recorder ticks firstRequest windowSize responseWindow requestCount
         avgResponseTime];
    (destruct (div64 _ _) as [avg | e | msg]; [| done | done]);
    rewrite prune_eq; reflexivity.
Qed.

Lemma GetStat_eq s :
  let t := recorder s in
  let kept := keptFrom now (windowSize t) (ticks s) (responseWindow t) in
  GetStat now s =
    (Ok (mkTargetStats (firstRequest t) (requestCount t) (avgResponseTime t)
           (windowSize t) (getAvgResponseTime kept) (Z.of_nat (length kept))
           (getRequestRate kept) (getErrorRate kept)),
     mkState (mkStatRecorder (firstRequest t) (windowSize t) kept (requestCount t)
                (avgResponseTime t))
       (ticks s + length (responseWindow t))).
Proof.
  cbn zeta. unfold GetStat, mbind, M_bind, bind, gets. rewrite prune_eq. reflexivity.
Qed.

(** X24. [AddResponse] counts the response and puts it at the end of the
    window with the instant of the clock as its time stamp.  Of the
    states of the window before, the ones it keeps are kept in their
    order; with a clock that does not run backwards, every state it keeps
    was younger than the window when the call began, and every state
    that is younger than the window at the time stamp of the new state is
    kept. *)
Theorem AddResponse_window responseTime statusCode s :
  monotone now ->
  (0 <= requestCount (recorder s) < maxInt64)%Z ->
  let t := recorder s in
  let out := AddResponse now responseTime statusCode s in
  let t' := recorder out.2 in
  exists kept stamp,
    out.1 = Ok () /\
    responseWindow t' = kept ++ [mkResponseState responseTime statusCode stamp] /\
    requestCount t' = (requestCount t + 1)%Z /\
    windowSize t' = windowSize t /\
    sublist kept (responseWindow t) /\
    (forall e, e ∈ kept -> (Sub (now (ticks s)) (timeStamp e) < windowSize t)%Z) /\
    (forall e, e ∈ responseWindow t -> (Sub stamp (timeStamp e) < windowSize t)%Z ->
               e ∈ kept) /\
    (now (ticks s) <= stamp)%Z.
Proof.
  intros Hmono Hcount. cbn zeta. rewrite AddResponse_eq. cbn zeta.
  assert (Hb : (maxInt64 = 9223372036854775807)%Z) by reflexivity.
  assert (Hb' : (minInt64 = -9223372036854775808)%Z) by reflexivity.
  rewrite (wrap64_id (requestCount (recorder s) + 1)) by lia.
  unfold div64. destruct (Z.eqb_spec (requestCount (recorder s) + 1) 0) as [? | _]; [lia |].
  set (k := if (firstRequest (recorder s) =? zeroTime)%Z then S (ticks s) else ticks s).
  assert (Hk : (ticks s <= k)%nat) by (subst k; destruct (_ =? _)%Z; lia).
  cbn [fst snd recorder responseWindow requestCount windowSize].
  eexists _, _. split; [done |]. split; [done |]. split; [done |]. split; [done |].
  split; [apply keptFrom_sublist |]. split; [| split].
  - intros e He. apply (keptFrom_fresh Hmono) in He.
    pose proof (Sub_mono (now (ticks s)) (now k) (timeStamp e) (Hmono _ _ Hk)). lia.
  - intros e He Hfresh. by apply keptFrom_keeps.
  - apply Hmono. lia.
Qed.

(** One step of the running average. *)
Lemma average_step (avg n rt lo hi sum : Z) :
  (0 <= n)%Z -> (0 <= lo)%Z -> (lo <= rt <= hi)%Z ->
  (0 <= avg <= hi)%Z -> (0 < n -> lo <= avg)%Z -> (avg * n <= sum)%Z ->
  ((n + 1) * Z.max 1 hi <= maxInt64)%Z ->
  let avg' := wrap64 (Z.quot (wrap64 (wrap64 (avg * wrap64 (wrap64 (n + 1) - 1)) + rt))
                        (wrap64 (n + 1))) in
  wrap64 (n + 1) = (n + 1)%Z /\
  (lo <= avg' <= hi)%Z /\ (avg' * (n + 1) <= rt + sum)%Z.
Proof.
  intros Hn Hlo Hrt Havg Hlow Hsum Hbound. cbn zeta.
  assert (Hb : (maxInt64 = 9223372036854775807)%Z) by reflexivity.
  assert (Hb' : (minInt64 = -9223372036854775808)%Z) by reflexivity.
  assert (Hn1 : (n + 1 <= maxInt64)%Z) by nia.
  assert (Hhi : ((n + 1) * hi <= maxInt64)%Z) by nia.
  rewrite (wrap64_id (n + 1)) by lia.
  replace (n + 1 - 1)%Z with n by lia.
  rewrite (wrap64_id n) by lia.
  assert (Hprod : (0 <= avg * n <= n * hi)%Z) by nia.
  rewrite (wrap64_id (avg * n)) by nia.
  rewrite (wrap64_id (avg * n + rt)) by nia.
  rewrite Z.quot_div_nonneg by nia.
  assert (Hq : (lo <= (avg * n + rt) / (n + 1) <= hi)%Z).
  { split.
    - apply Z.div_le_lower_bound; [lia |].
      destruct (Z.eq_dec n 0%Z) as [-> | Hpos]; [lia |].
      assert (lo <= avg)%Z by (apply Hlow; lia). nia.
    - apply Z.div_le_upper_bound; [lia |]. nia. }
  rewrite wrap64_id by nia.
  split; [done |]. split; [done |].
  pose proof (Z.mul_div_le (avg * n + rt) (n + 1) ltac:(lia)). nia.
Qed.

Lemma AddResponses_average responses : forall s lo hi sum,
  let t := recorder s in
  let n := requestCount t in
  (0 <= n)%Z -> (0 <= lo)%Z ->
  (forall r, r ∈ responses -> (lo <= r.1 <= hi)%Z) ->
  (0 <= avgResponseTime t <= hi)%Z -> (0 < n -> lo <= avgResponseTime t)%Z ->
  (avgResponseTime t * n <= sum)%Z ->
  ((n + Z.of_nat (length responses)) * Z.max 1 hi <= maxInt64)%Z ->
  let out := AddResponses now responses s in
  let t' := recorder out.2 in
  out.1 = Ok () /\
  requestCount t' = (n + Z.of_nat (length responses))%Z /\
  (0 <= avgResponseTime t' <= hi)%Z /\
  (0 < requestCount t' -> lo <= avgResponseTime t')%Z /\
  (avgResponseTime t' * requestCount t' <= total responses + sum)%Z.
Proof.
  induction responses as [| [rt code] rest IH]; intros s lo hi sum; cbn zeta;
    intros Hn Hlo Hall Havg Hlow Hsum Hbound.
  { cbn. rewrite Z.add_0_r. repeat split; try done; lia. }
  cbn [AddResponses]. unfold mbind, M_bind, bind. rewrite AddResponse_eq. cbn zeta.
  assert (Hrt : (lo <= rt <= hi)%Z) by (apply (Hall (rt, code)); by left).
  cbn [length] in Hbound. rewrite Nat2Z.inj_succ in Hbound.
  assert (Hstep : ((requestCount (recorder s) + 1) * Z.max 1 hi <= maxInt64)%Z).
  { set (m := Z.max 1 hi) in *. assert (1 <= m)%Z by lia. clearbody m. nia. }
  destruct (average_step (avgResponseTime (recorder s)) (requestCount (recorder s))
              rt lo hi sum) as (Hc & Ha & Hs); try done.
  rewrite Hc in Ha, Hs. unfold div64. rewrite Hc.
  destruct (Z.eqb_spec (requestCount (recorder s) + 1) 0) as [? | _]; [lia |].
  set (avg' := wrap64 (Z.quot _ _)) in *. clearbody avg'.
  set (s1 := mkState _ _).
  assert (Hcount1 : requestCount (recorder s1) = (requestCount (recorder s) + 1)%Z)
    by reflexivity.
  assert (Havg1 : avgResponseTime (recorder s1) = avg') by reflexivity.
  clearbody s1. lazy beta iota.
  destruct (IH s1 lo hi (rt + sum)%Z) as (H1 & H2 & H3 & H4 & H5);
    rewrite ?Hcount1, ?Havg1 in *; try lia.
  - intros r Hr. apply Hall. by right.
  - split; [exact H1 |]. cbn [length total fold_right fst]. rewrite Nat2Z.inj_succ.
    split; [lia |]. split; [exact H3 |]. split; [exact H4 |].
    unfold total in H5. lia.
Qed.

(** X25. The running average of a recorder, for response times that are
    not negative and a sum that stays within [int64].  After the
    responses [responses] were recorded on a new recorder, all with a
    response time between [lo] and [hi], where [0 <= lo] and the number
    of responses times [max(1, hi)] is at most [maxInt64], the count is
    their number and the average lies between [lo] and [hi]; the integer
    division makes it a lower estimate: the average times the count is
    at most the sum of the response times. *)
Theorem running_average_bounded window k responses lo hi :
  (0 <= lo)%Z ->
  (forall r, r ∈ responses -> (lo <= r.1 <= hi)%Z) ->
  (Z.of_nat (length responses) * Z.max 1 hi <= maxInt64)%Z ->
  let out := AddResponses now responses (mkState (newStatRecorder window) k) in
  let t := recorder out.2 in
  out.1 = Ok () /\
  requestCount t = Z.of_nat (length responses) /\
  (responses <> [] -> lo <= avgResponseTime t <= hi)%Z /\
  (avgResponseTime t * requestCount t <= total responses)%Z.
Proof.
  intros Hlo Hall Hbound. cbn zeta.
  assert (Hhi : responses <> [] -> (lo <= hi)%Z).
  { destruct responses as [| r rest]; [done |]. intros _.
    specialize (Hall r ltac:(by left)). lia. }
  destruct responses as [| r rest] eqn:E.
  { cbn. repeat split; try done. }
  rewrite <- E in *.
  destruct (AddResponses_average responses (mkState (newStatRecorder window) k)
              lo hi 0%Z) as (H1 & H2 & H3 & H4 & H5);
    cbn [recorder newStatRecorder requestCount avgResponseTime]; try lia; try done.
  { split; [lia |]. apply Z.le_trans with lo; [done |]. apply Hhi. by rewrite E. }
  cbn [recorder newStatRecorder requestCount avgResponseTime] in *.
  rewrite Z.add_0_l in H2. rewrite Z.add_0_r in H5.
  split; [done |]. split; [done |]. split; [| done].
  intros _. split; [| lia]. apply H4. rewrite H2, E. cbn [length]. lia.
Qed.

(** X26. [GetStat] changes the window and nothing else, and reports on the
    window it leaves: the states it keeps are kept in their order and
    counted in [RequestCount]; with a clock that does not run backwards,
    every state it keeps was younger than the window when the call
    began; the start date, the total count and the total average are
    those of the recorder, whatever the window.  A window left empty
    reports an average, a request rate and an error rate of zero. *)
Theorem GetStat_prunes_only s :
  monotone now ->
  let t := recorder s in
  let out := GetStat now s in
  let t' := recorder out.2 in
  exists stats,
    out.1 = Ok stats /\
    firstRequest t' = firstRequest t /\ windowSize t' = windowSize t /\
    requestCount t' = requestCount t /\ avgResponseTime t' = avgResponseTime t /\
    sublist (responseWindow t') (responseWindow t) /\
    (forall e, e ∈ responseWindow t' ->
               (Sub (now (ticks s)) (timeStamp e) < windowSize t)%Z) /\
    RequestCount stats = Z.of_nat (length (responseWindow t')) /\
    AvgResponseTime stats = getAvgResponseTime (responseWindow t') /\
    StatStartDate stats = firstRequest t /\
    TotalRequestCount stats = requestCount t /\
    TotalAvgResponseTime stats = avgResponseTime t /\
    WindowDuration stats = windowSize t /\
    (responseWindow t' = [] ->
     AvgResponseTime stats = 0%Z /\ RequestRate stats = PrimFloat.zero /\
     ErrorRate stats = PrimFloat.zero).
Proof.
  intros Hmono. cbn zeta. rewrite GetStat_eq. cbn zeta.
  cbn [fst snd recorder firstRequest windowSize requestCount avgResponseTime
       responseWindow].
  eexists. split; [reflexivity |].
  cbn [RequestCount AvgResponseTime StatStartDate TotalRequestCount TotalAvgResponseTime
       WindowDuration RequestRate ErrorRate].
  repeat (split; [done |]).
  split; [apply keptFrom_sublist |].
  split; [intros e He; by apply (keptFrom_fresh Hmono) in He |].
  repeat (split; [done |]).
  by intros ->.
Qed.

(** X27. After the first response a recorder reports an infinite request
    rate.  One response recorded on a new recorder and still in the
    window: [GetStat] counts one request, gives its response time as both
    averages and the first reading of the clock as the start date, and
    divides one request by the zero seconds between the first and the
    last time stamp of the window, which in [float64] is [+Inf]. *)
Theorem first_response_rate_infinite window k rt code :
  (minInt64 <= rt <= maxInt64)%Z ->
  (Sub (now (k + 2)) (now (k + 1)) < window)%Z ->
  let s1 := (AddResponse now rt code
               (mkState (newStatRecorder window) k)).2 in
  exists stats,
    (GetStat now s1).1 = Ok stats /\
    RequestCount stats = 1%Z /\ TotalRequestCount stats = 1%Z /\
    AvgResponseTime stats = rt /\
    TotalAvgResponseTime stats = rt /\
    StatStartDate stats = now k /\
    RequestRate stats = PrimFloat.infinity.
Proof.
  intros Hrt Hfresh. cbn zeta. rewrite AddResponse_eq. cbn zeta.
  cbn [recorder newStatRecorder firstRequest windowSize responseWindow requestCount
       avgResponseTime ticks length].
  change (zeroTime =? zeroTime)%Z with true. cbn iota.
  change (wrap64 (0 + 1)) with 1%Z. change (wrap64 (1 - 1)) with 0%Z.
  change (wrap64 (0 * 0)) with 0%Z. rewrite Z.add_0_l, (wrap64_id rt) by done.
  unfold div64. change (1 =? 0)%Z with false. cbn iota.
  rewrite Z.quot_1_r, (wrap64_id rt) by done.
  cbn [snd keptFrom app]. rewrite GetStat_eq. cbn zeta.
  cbn [recorder ticks windowSize responseWindow keptFrom timeStamp fst length].
  replace (S k + 0)%nat with (k + 1)%nat by lia.
  replace (S (k + 1)) with (k + 2)%nat by lia.
  destruct (Z.ltb_spec (Sub (now (k + 2)) (now (k + 1))) window) as [_ | ?]; [| lia].
  eexists. split; [reflexivity |].
  cbn [RequestCount TotalRequestCount AvgResponseTime TotalAvgResponseTime StatStartDate
       RequestRate firstRequest requestCount avgResponseTime length].
  repeat (split; [done |]).
  split.
  - unfold getAvgResponseTime. cbn [fold_left length Stats.responseTime Nat.eqb Z.of_nat].
    rewrite Z.add_0_l, (wrap64_id rt) by done.
    change (Z.pos (Pos.of_succ_nat 0)) with 1%Z.
    by rewrite Z.quot_1_r, wrap64_id.
  - split; [done |]. split; [done |].
    unfold getRequestRate. cbn [List.last timeStamp length]. rewrite Sub_self.
    reflexivity.
Qed.

End Clock.

Lemma total_fold stats lo hi m : forall acc,
  (0 <= lo)%Z -> (0 <= acc)%Z -> (1 <= m)%Z -> (hi <= m)%Z ->
  (forall e, e ∈ stats -> (lo <= responseTime e <= hi)%Z) ->
  (acc + Z.of_nat (length stats) * m <= maxInt64)%Z ->
  let sum := fold_left (fun total state => wrap64 (total + responseTime state)) stats acc in
  (acc + Z.of_nat (length stats) * lo <= sum <= acc + Z.of_nat (length stats) * hi)%Z.
Proof.
  induction stats as [| e stats IH]; intros acc Hlo Hacc Hm Hhi Hall Hbound; cbn zeta.
  { cbn. lia. }
  cbn [fold_left length] in *. rewrite Nat2Z.inj_succ in *.
  assert (He : (lo <= responseTime e <= hi)%Z) by (apply Hall; by left).
  assert (Hb : (maxInt64 = 9223372036854775807)%Z) by reflexivity.
  assert (Hb' : (minInt64 = -9223372036854775808)%Z) by reflexivity.
  assert (Hlen : (0 <= Z.of_nat (length stats))%Z) by lia.
  rewrite wrap64_id by nia.
  assert (Hnext : (acc + responseTime e + Z.of_nat (length stats) * m <= maxInt64)%Z) by nia.
  specialize (IH (acc + responseTime e)%Z Hlo ltac:(lia) Hm Hhi
                 (fun e' H => Hall e' ltac:(by right)) Hnext).
  cbn zeta in IH. nia.
Qed.

(** X28. The average of a window of response times that are not
    negative and whose sum stays within [int64]: for a window that is
    not empty, with response times between [lo] and [hi], where
    [0 <= lo] and the number of entries times [max(1, hi)] is at most
    [maxInt64], [getAvgResponseTime] lies between [lo] and [hi]; an
    empty window has the average zero, without a division. *)
Theorem window_average_bounded stats lo hi :
  (0 <= lo)%Z ->
  (forall e, e ∈ stats -> (lo <= responseTime e <= hi)%Z) ->
  (Z.of_nat (length stats) * Z.max 1 hi <= maxInt64)%Z ->
  getAvgResponseTime [] = 0%Z /\
  (stats <> [] -> lo <= getAvgResponseTime stats <= hi)%Z.
Proof.
  intros Hlo Hall Hbound. split; [done |]. intros Hne.
  unfold getAvgResponseTime.
  destruct (Nat.eqb_spec (length stats) 0) as [Hz | Hnz].
  { by destruct stats. }
  pose proof (total_fold stats lo hi (Z.max 1 hi) 0%Z Hlo ltac:(lia) ltac:(lia) ltac:(lia)
                Hall ltac:(lia)) as Hsum.
  cbn zeta in Hsum. set (sum := fold_left _ stats 0%Z) in *. clearbody sum.
  assert (Hb : (maxInt64 = 9223372036854775807)%Z) by reflexivity.
  assert (Hb' : (minInt64 = -9223372036854775808)%Z) by reflexivity.
  assert (Hlen : (0 < Z.of_nat (length stats))%Z) by lia.
  assert (Hlh : (lo <= hi)%Z).
  { destruct stats as [| e rest]; [done |]. specialize (Hall e ltac:(by left)). lia. }
  rewrite Z.quot_div_nonneg by nia.
  assert (Hq : (lo <= sum / Z.of_nat (length stats) <= hi)%Z).
  { split; [apply Z.div_le_lower_bound | apply Z.div_le_upper_bound]; lia. }
  rewrite wrap64_id; [done |]. nia.
Qed.

Section StatsWitnesses.

Lemma steady_monotone : monotone steady.
Proof. intros i j Hij. unfold steady. lia. Qed.

Lemma AddResponse_window_witness :
  let out := AddResponse steady 30 200 sample in
  (monotone steady /\ (0 <= requestCount (recorder sample) < maxInt64)%Z) /\
  exists kept stamp,
    out.1 = Ok () /\
    responseWindow (recorder out.2) = kept ++ [mkResponseState 30 200 stamp] /\
    requestCount (recorder out.2) = 3%Z /\
    sublist kept (responseWindow (recorder sample)).
Proof.
  cbn zeta.
  assert (Hcount : (0 <= requestCount (recorder sample) < maxInt64)%Z) by (by vm_compute).
  split; [exact (conj steady_monotone Hcount) |].
  destruct (AddResponse_window steady 30 200 sample steady_monotone Hcount)
    as (kept & stamp & H1 & H2 & H3 & _ & H5 & _).
  exists kept, stamp. split; [exact H1 |]. split; [exact H2 |]. split; [exact H3 | exact H5].
Defined.

Lemma running_average_bounded_witness :
  let responses := [(40, 200); (90, 502); (65, 200)]%Z in
  let out := AddResponses steady responses (mkState (newStatRecorder 2500000) 0) in
  ((0 <= 40)%Z /\ (forall r, r ∈ responses -> (40 <= r.1 <= 90)%Z) /\
   (Z.of_nat (length responses) * Z.max 1 90 <= maxInt64)%Z) /\
  out.1 = Ok () /\
  requestCount (recorder out.2) = Z.of_nat (length responses) /\
  (responses <> [] -> 40 <= avgResponseTime (recorder out.2) <= 90)%Z /\
  (avgResponseTime (recorder out.2) * requestCount (recorder out.2) <= total responses)%Z.
Proof.
  cbn zeta.
  assert (Hall : forall r : Z * Z, r ∈ [(40, 200); (90, 502); (65, 200)]%Z ->
                   (40 <= r.1 <= 90)%Z).
  { intros r Hr. repeat (apply elem_of_cons in Hr as [-> | Hr]; [cbn; lia |]).
    by apply elem_of_nil in Hr. }
  assert (Hbound : (Z.of_nat (length [(40, 200); (90, 502); (65, 200)]%Z) * Z.max 1 90
                    <= maxInt64)%Z) by (vm_compute; discriminate).
  split; [split; [lia | by split] |].
  exact (running_average_bounded steady 2500000 0 _ 40 90 ltac:(lia) Hall Hbound).
Defined.

Lemma GetStat_prunes_only_witness :
  let out := GetStat steady sample in
  monotone steady /\
  exists stats,
    out.1 = Ok stats /\
    requestCount (recorder out.2) = requestCount (recorder sample) /\
    sublist (responseWindow (recorder out.2)) (responseWindow (recorder sample)) /\
    RequestCount stats = Z.of_nat (length (responseWindow (recorder out.2))) /\
    TotalRequestCount stats = requestCount (recorder sample).
Proof.
  cbn zeta. split; [exact steady_monotone |].
  destruct (GetStat_prunes_only steady sample steady_monotone)
    as (stats & H1 & _ & _ & H4 & _ & H6 & _ & H8 & _ & _ & H11 & _).
  exists stats. split; [exact H1 |]. split; [exact H4 |]. split; [exact H6 |].
  split; [exact H8 | exact H11].
Defined.

Lemma first_response_rate_infinite_witness :
  let s1 := (AddResponse steady 40 200 (mkState (newStatRecorder 2500000) 0)).2 in
  ((minInt64 <= 40 <= maxInt64)%Z /\ (Sub (steady (0 + 2)) (steady (0 + 1)) < 2500000)%Z) /\
  exists stats,
    (GetStat steady s1).1 = Ok stats /\
    RequestCount stats = 1%Z /\ RequestRate stats = PrimFloat.infinity.
Proof.
  cbn zeta.
  assert (Hrt : (minInt64 <= 40 <= maxInt64)%Z) by (by vm_compute).
  assert (Hfresh : (Sub (steady (0 + 2)) (steady (0 + 1)) < 2500000)%Z) by (by vm_compute).
  split; [exact (conj Hrt Hfresh) |].
  destruct (first_response_rate_infinite steady 2500000 0 40 200 Hrt Hfresh)
    as (stats & H1 & H2 & _ & _ & _ & _ & H7).
  exists stats. split; [exact H1 |]. split; [exact H2 | exact H7].
Defined.

Lemma window_average_bounded_witness :
  let stats := responseWindow (recorder sample) in
  ((0 <= 40)%Z /\ (forall e, e ∈ stats -> (40 <= responseTime e <= 90)%Z) /\
   (Z.of_nat (length stats) * Z.max 1 90 <= maxInt64)%Z) /\
  getAvgResponseTime [] = 0%Z /\
  (stats <> [] -> 40 <= getAvgResponseTime stats <= 90)%Z.
Proof.
  cbn zeta.
  assert (Hall : forall e, e ∈ responseWindow (recorder sample) ->
                   (40 <= responseTime e <= 90)%Z).
  { intros e He. cbn in He.
    repeat (apply elem_of_cons in He as [-> | He]; [cbn; lia |]).
    by apply elem_of_nil in He. }
  assert (Hbound : (Z.of_nat (length (responseWindow (recorder sample))) * Z.max 1 90
                    <= maxInt64)%Z) by (vm_compute; discriminate).
  split; [split; [lia | by split] |].
  exact (window_average_bounded _ 40 90 ltac:(lia) Hall Hbound).
Defined.

End StatsWitnesses.

End StatsFacts.
